(** * The natural-language-to-SQL core of the Postgres NL agent

    A shallow embedding of [src/agent/nlu_processor.py] (class
    [NLUProcessor]) and the statements of its specification that were
    checked against it.

    Conventions of the embedding.
    - A Python [str] is a [string]; one [ascii] stands for one character
      with code point below 256, and the character classes used by
      [str.lower], [str.strip], [\s], [\w] and [\d] are Python's Unicode
      classes on that range.
    - A Python [dict] with string keys is an association list in insertion
      order ([dict.items()] iterates in that order).
    - Values stored in dictionaries are the scalars [None], [bool], [int]
      and [str]; the top level of an NLU result may also hold a float
      (the confidence, a rational here: the program only stores and
      returns such literals) or a dictionary of scalars.
    - Code that can raise returns in the [Exc] monad; [try/except
      Exception] becomes a match on the result.
    - The two remote services (Dialogflow, Gemini) are functions supplied
      with the processor's state. *)

From Stdlib Require Import String Ascii List ZArith QArith Bool Lia DecimalString.
Import ListNotations.
Open Scope string_scope.

(* ===================================================================== *)
(** ** Python runtime: characters, strings, values, exceptions *)
(* ===================================================================== *)

Module Py.

Definition code (c : ascii) : N := N_of_ascii c.

Definition between (lo hi : N) (c : ascii) : bool :=
  (lo <=? code c)%N && (code c <=? hi)%N.

(** [str.isspace] for one character (also the class [\s]). *)
Definition is_space (c : ascii) : bool :=
  between 9 13 c || between 28 32 c || (code c =? 133)%N || (code c =? 160)%N.

(** Decimal digits, the class [\d]. *)
Definition is_digit (c : ascii) : bool := between 48 57 c.

(** The class [\w]: alphanumeric characters and the underscore. *)
Definition is_word (c : ascii) : bool :=
  between 48 57 c || between 65 90 c || between 97 122 c || (code c =? 95)%N
  || (code c =? 170)%N || (code c =? 178)%N || (code c =? 179)%N
  || (code c =? 181)%N || (code c =? 185)%N || (code c =? 186)%N
  || between 188 190 c || between 192 214 c || between 216 246 c
  || between 248 255 c.

Definition char_lower (c : ascii) : ascii :=
  if between 65 90 c || between 192 214 c || between 216 222 c
  then ascii_of_N (code c + 32) else c.

(** Upper case of one character, for the characters whose upper case is
    again a single character below 256: the letters a-z and the accented
    letters 224-254 (247 is the division sign). The three others (181,
    223, 255) are left as they are. *)
Definition char_upper (c : ascii) : ascii :=
  if between 97 122 c || between 224 246 c || between 248 254 c
  then ascii_of_N (code c - 32) else c.

Fixpoint lower (s : string) : string :=
  match s with
  | EmptyString => EmptyString
  | String c s' => String (char_lower c) (lower s')
  end.

Fixpoint upper (s : string) : string :=
  match s with
  | EmptyString => EmptyString
  | String c s' => String (char_upper c) (upper s')
  end.

Fixpoint startswith (s prefix : string) {struct prefix} : bool :=
  match prefix with
  | EmptyString => true
  | String p prefix' =>
      match s with
      | String c s' => Ascii.eqb c p && startswith s' prefix'
      | EmptyString => false
      end
  end.

Fixpoint lstrip (s : string) : string :=
  match s with
  | EmptyString => EmptyString
  | String c s' => if is_space c then lstrip s' else s
  end.

(** Right strip: a character is kept when it is not a space or when
    something is kept after it. *)
Fixpoint rstrip (s : string) : string :=
  match s with
  | EmptyString => EmptyString
  | String c s' =>
      match rstrip s' with
      | EmptyString => if is_space c then EmptyString else String c EmptyString
      | r => String c r
      end
  end.

Definition strip (s : string) : string := rstrip (lstrip s).

(** The characters of the token that starts at the head of [s]. *)
Fixpoint take_token (s : string) : string :=
  match s with
  | EmptyString => EmptyString
  | String c s' => if is_space c then EmptyString else String c (take_token s')
  end.

(** [s.split()[0]] where it exists, the empty string otherwise. *)
Fixpoint first_token (s : string) : string :=
  match s with
  | EmptyString => EmptyString
  | String c s' => if is_space c then first_token s' else String c (take_token s')
  end.

(** [s.split()]: the maximal runs of non-space characters. [cur] is the
    token being read, reversed. *)
Fixpoint split_go (s : string) (cur : option string) : list string :=
  match s with
  | EmptyString => match cur with Some w => [w] | None => [] end
  | String c s' =>
      if is_space c
      then match cur with
           | Some w => w :: split_go s' None
           | None => split_go s' None
           end
      else match cur with
           | Some w => split_go s' (Some (w ++ String c EmptyString))
           | None => split_go s' (Some (String c EmptyString))
           end
  end.

Definition split (s : string) : list string := split_go s None.

(** *** Exceptions *)

Inductive exn : Type :=
| AttributeError | KeyError | IndexError | ValueError | TypeError
| ServiceError.

Inductive Exc (A : Type) : Type :=
| Ok (a : A)
| Raise (e : exn).
Arguments Ok {A} a.
Arguments Raise {A} e.

Definition bind {A B : Type} (m : Exc A) (f : A -> Exc B) : Exc B :=
  match m with
  | Ok a => f a
  | Raise e => Raise e
  end.

(** *** Values *)

Inductive scalar : Type :=
| PNone
| PBool (b : bool)
| PInt (n : Z)
| PStr (s : string).

(** A [dict] with [str] keys. *)
Definition dict (V : Type) : Type := list (string * V).

Inductive obj : Type :=
| OScalar (v : scalar)
| OFloat (q : Q)
| ODict (d : dict scalar).

(** What the query executor hands back: a list of rows, or anything
    else. *)
Inductive pyval : Type :=
| VObj (o : obj)
| VList (l : list obj).

Definition OStr (s : string) : obj := OScalar (PStr s).

(** The text of a value, as [str(v)] gives it when the conversion is
    allowed. *)
Definition py_str (v : scalar) : string :=
  match v with
  | PNone => "None"
  | PBool true => "True"
  | PBool false => "False"
  | PInt n => NilZero.string_of_int (Z.to_int n)
  | PStr s => s
  end.

(** The interpreter's default [sys.int_max_str_digits]: the interpreter
    this program requires (3.12) refuses, with [ValueError], to convert
    between [int] and [str] when more than that many decimal digits are
    involved. *)
Definition int_max_str_digits : Z := 4300.

(** The least magnitude with more than [int_max_str_digits] decimal
    digits, [10 ** 4300]. *)
Definition int_str_bound : Z :=
  Eval vm_compute in (10 ^ int_max_str_digits)%Z.

(** [format(v, "")], which is [str(v)] for these values: what an
    f-string or [str.format] does with a replacement field. An [int]
    whose decimal form has more than [int_max_str_digits] digits is not
    converted. *)
Definition py_format (v : scalar) : Exc string :=
  match v with
  | PInt n =>
      if (int_str_bound <=? Z.abs n)%Z then Raise ValueError
      else Ok (py_str v)
  | _ => Ok (py_str v)
  end.

(** [v == s] for a string literal [s]. *)
Definition scalar_eq_str (v : scalar) (s : string) : bool :=
  match v with
  | PStr t => String.eqb t s
  | _ => false
  end.

Definition obj_eq_str (o : obj) (s : string) : bool :=
  match o with
  | OScalar v => scalar_eq_str v s
  | _ => false
  end.

(** *** Dictionaries *)

Section Dict.
Context {V : Type}.

Fixpoint dict_lookup (d : dict V) (k : string) : option V :=
  match d with
  | [] => None
  | (k', v) :: d' => if String.eqb k' k then Some v else dict_lookup d' k
  end.

(** [d.get(k, default)] *)
Definition dict_get (d : dict V) (k : string) (default : V) : V :=
  match dict_lookup d k with
  | Some v => v
  | None => default
  end.

(** [k in d] *)
Definition dict_contains (d : dict V) (k : string) : bool :=
  match dict_lookup d k with
  | Some _ => true
  | None => false
  end.

(** [d[k]] *)
Definition dict_item (d : dict V) (k : string) : Exc V :=
  match dict_lookup d k with
  | Some v => Ok v
  | None => Raise KeyError
  end.

(** [d[k] = v]: an existing key keeps its place, a new one goes last. *)
Fixpoint dict_set (d : dict V) (k : string) (v : V) : dict V :=
  match d with
  | [] => [(k, v)]
  | (k', v') :: d' =>
      if String.eqb k' k then (k', v) :: d' else (k', v') :: dict_set d' k v
  end.
End Dict.

(** [o.get(k, default)]: only dictionaries have the method. *)
Definition obj_get (o : obj) (k : string) (default : scalar) : Exc scalar :=
  match o with
  | ODict d => Ok (dict_get d k default)
  | _ => Raise AttributeError
  end.

(** [needle in hay] for two strings. *)
Fixpoint occurs_in (needle hay : string) : bool :=
  startswith hay needle
  || match hay with
     | EmptyString => false
     | String _ hay' => occurs_in needle hay'
     end.

(** [k in o] for a string [k]: membership of a key in a dictionary, a
    substring test on a string, [TypeError] on the other values. *)
Definition obj_contains (o : obj) (k : string) : Exc bool :=
  match o with
  | ODict d => Ok (dict_contains d k)
  | OScalar (PStr s) => Ok (occurs_in k s)
  | _ => Raise TypeError
  end.

(** [o[k]] for a string key. *)
Definition obj_item (o : obj) (k : string) : Exc scalar :=
  match o with
  | ODict d => dict_item d k
  | _ => Raise TypeError
  end.

(** *** [int(digits)] *)

Definition digit_value (c : ascii) : Z := Z.of_N (code c) - 48.

Fixpoint int_go (s : string) (acc : Z) : Z :=
  match s with
  | EmptyString => acc
  | String c s' => int_go s' (10 * acc + digit_value c)
  end.

(** [int(s)] for a non-empty string of decimal digits; a string longer
    than [sys.int_max_str_digits] is refused with [ValueError]. *)
Definition py_int (s : string) : Exc Z :=
  if (int_max_str_digits <? Z.of_nat (String.length s))%Z
  then Raise ValueError
  else Ok (int_go s 0).

(** *** [str.format] with keyword arguments

    The replacement fields handled are the plain [{name}] ones, and the
    doubled braces; [field] is the name being read. *)

Definition lbrace : ascii := "{"%char.
Definition rbrace : ascii := "}"%char.

Fixpoint format_go (kwargs : dict scalar) (s : string) (field : option string)
  : Exc string :=
  match s with
  | EmptyString =>
      match field with
      | None => Ok EmptyString
      | Some _ => Raise ValueError
      end
  | String c s' =>
      match field with
      | Some name =>
          if Ascii.eqb c rbrace
          then
            match (if String.eqb name "" then Raise IndexError
                   else dict_item kwargs name) with
            | Ok v =>
                match py_format v with
                | Ok t =>
                    match format_go kwargs s' None with
                    | Ok r => Ok (t ++ r)
                    | Raise e => Raise e
                    end
                | Raise e => Raise e
                end
            | Raise e => Raise e
            end
          else format_go kwargs s' (Some (name ++ String c EmptyString))
      | None =>
          if Ascii.eqb c lbrace then
            match s' with
            | String c' s'' =>
                if Ascii.eqb c' lbrace
                then match format_go kwargs s'' None with
                     | Ok r => Ok (String lbrace r)
                     | Raise e => Raise e
                     end
                else format_go kwargs s' (Some EmptyString)
            | EmptyString => Raise ValueError
            end
          else if Ascii.eqb c rbrace then
            match s' with
            | String c' s'' =>
                if Ascii.eqb c' rbrace
                then match format_go kwargs s'' None with
                     | Ok r => Ok (String rbrace r)
                     | Raise e => Raise e
                     end
                else Raise ValueError
            | EmptyString => Raise ValueError
            end
          else
            match format_go kwargs s' None with
            | Ok r => Ok (String c r)
            | Raise e => Raise e
            end
      end
  end.

Definition format (template : string) (kwargs : dict scalar) : Exc string :=
  format_go kwargs template None.

End Py.

Export Py.

Notation "x <- m ;; k" := (Py.bind m (fun x => k))
  (at level 61, m at next level, right associativity).

(* ===================================================================== *)
(** ** The regular expressions the program uses *)
(* ===================================================================== *)

(** The patterns of the program are sequences of literal characters, the
    classes [\s], [\w], [\d], one-or-more repetitions of a single
    character or class, and a capturing group around one such
    repetition. [re.search] is modelled for exactly these: leftmost
    match, greedy repetition with backtracking. *)

Module Re.

Inductive atom : Type :=
| Lit (c : ascii)
| Space
| Word
| Digit.

Definition atom_matches (a : atom) (c : ascii) : bool :=
  match a with
  | Lit x => Ascii.eqb c x
  | Space => is_space c
  | Word => is_word c
  | Digit => is_digit c
  end.

Inductive item : Type :=
| One (a : atom)          (* a     *)
| Plus (a : atom)         (* a+    *)
| GroupPlus (a : atom).   (* (a+)  *)

Definition regex : Type := list item.

(** *** Reading a pattern *)

Inductive token : Type :=
| TAtom (a : atom)
| TPlus
| TOpen
| TClose.

Definition is_special (c : ascii) : bool :=
  existsb (Ascii.eqb c)
    ["."; "^"; "$"; "*"; "?"; "{"; "}"; "["; "]"; "|"; "\"]%char.

Definition class_of (c : ascii) : option atom :=
  if Ascii.eqb c "s" then Some Space
  else if Ascii.eqb c "w" then Some Word
  else if Ascii.eqb c "d" then Some Digit
  else None.

Fixpoint tokens (s : string) : option (list token) :=
  match s with
  | EmptyString => Some []
  | String c s' =>
      if Ascii.eqb c "\" then
        match s' with
        | String k s'' =>
            match class_of k, tokens s'' with
            | Some a, Some ts => Some (TAtom a :: ts)
            | _, _ => None
            end
        | EmptyString => None
        end
      else
        match tokens s' with
        | None => None
        | Some ts =>
            if Ascii.eqb c "+" then Some (TPlus :: ts)
            else if Ascii.eqb c "(" then Some (TOpen :: ts)
            else if Ascii.eqb c ")" then Some (TClose :: ts)
            else if is_special c then None
            else Some (TAtom (Lit c) :: ts)
        end
  end.

Fixpoint items (ts : list token) : option regex :=
  match ts with
  | [] => Some []
  | TOpen :: TAtom a :: TPlus :: TClose :: ts' =>
      option_map (cons (GroupPlus a)) (items ts')
  | TAtom a :: TPlus :: ts' => option_map (cons (Plus a)) (items ts')
  | TAtom a :: ts' => option_map (cons (One a)) (items ts')
  | _ => None
  end.

(** [re.compile], on the patterns described above. *)
Definition compile (pattern : string) : option regex :=
  match tokens pattern with
  | Some ts => items ts
  | None => None
  end.

(** *** Matching *)

(** The result of a successful match: the text of group 1, when the
    pattern has a group. *)
Definition groups : Type := option string.

(** [a+] followed by the continuation [k]: take as many characters as
    possible, give back one at a time while [k] fails. *)
Fixpoint plus_loop (a : atom) (k : string -> option groups) (s : string)
  : option groups :=
  match s with
  | EmptyString => None
  | String c s' =>
      if atom_matches a c then
        match plus_loop a k s' with
        | Some g => Some g
        | None => k s'
        end
      else None
  end.

(** [(a+)] followed by [k]: the same, recording the characters taken. *)
Fixpoint group_loop (a : atom) (k : string -> bool) (s : string)
  : option string :=
  match s with
  | EmptyString => None
  | String c s' =>
      if atom_matches a c then
        match group_loop a k s' with
        | Some g => Some (String c g)
        | None => if k s' then Some (String c EmptyString) else None
        end
      else None
  end.

Definition matched {A : Type} (m : option A) : bool :=
  match m with
  | Some _ => true
  | None => false
  end.

(** A match of [p] that starts at the head of [s]. *)
Fixpoint match_here (p : regex) (s : string) {struct p} : option groups :=
  match p with
  | [] => Some None
  | One a :: p' =>
      match s with
      | String c s' => if atom_matches a c then match_here p' s' else None
      | EmptyString => None
      end
  | Plus a :: p' => plus_loop a (match_here p') s
  | GroupPlus a :: p' =>
      option_map Some (group_loop a (fun s' => matched (match_here p' s')) s)
  end.

(** The leftmost match of [p] in [s]. *)
Fixpoint search_regex (p : regex) (s : string) : option groups :=
  match match_here p s with
  | Some g => Some g
  | None =>
      match s with
      | EmptyString => None
      | String _ s' => search_regex p s'
      end
  end.

(** [re.search(pattern, s)]; [None] is Python's [None]. *)
Definition search (pattern s : string) : option groups :=
  match compile pattern with
  | Some p => search_regex p s
  | None => None
  end.

(** [match.group(1)] *)
Definition group1 (m : groups) : Exc string :=
  match m with
  | Some g => Ok g
  | None => Raise IndexError
  end.

End Re.

(* ===================================================================== *)
(** ** [class NLUProcessor] *)
(* ===================================================================== *)

Module NLU.

(** *** The processor's state *)

(** An attribute of [self]: never assigned, assigned [None], or
    assigned an object. *)
Inductive attr (A : Type) : Type :=
| Unset
| IsNone
| Obj (a : A).
Arguments Unset {A}.
Arguments IsNone {A}.
Arguments Obj {A} a.

(** What [_process_with_dialogflow] reads of the service's answer:
    [query_result.intent.display_name],
    [query_result.intent_detection_confidence] and the name and value of
    each parameter. *)
Record DetectIntentResponse : Type := {
  display_name : string;
  intent_detection_confidence : Q;
  parameters : list (string * scalar)
}.

(** [detect_intent] as a function of the text sent; it may raise. *)
Definition SessionsClient : Type := string -> Exc DetectIntentResponse.

(** The three values interpolated in the prompt sent to Gemini. *)
Record Prompt : Type := {
  prompt_query : obj;
  prompt_intent : obj;
  prompt_entities : obj
}.

(** What happens to the three values: the text of the prompt is built
    from them (which the interpreter refuses when one of them holds an
    integer of more than 4300 digits) and [generate_content(prompt).text]
    is evaluated; either may raise, and both are in the same [try]. *)
Definition GenerativeModel : Type := Prompt -> Exc string.

Record NLUProcessor : Type := {
  gemini_model : attr GenerativeModel;
  dialogflow_client : attr SessionsClient
}.

Record Config : Type := {
  gemini_api_key : option string;
  dialogflow_project_id : option string
}.

(** Truth value of an optional string read from the environment. *)
Definition configured (v : option string) : bool :=
  match v with
  | None => false
  | Some s => negb (String.eqb s "")
  end.

(** [_setup_services]: the two constructors may raise; the handler logs
    and leaves the attributes not yet assigned unassigned. *)
Definition _setup_services (config : Config)
    (new_model : Exc GenerativeModel) (new_client : Exc SessionsClient)
  : NLUProcessor :=
  match (if configured (gemini_api_key config)
         then m <- new_model ;; Ok (Obj m)
         else Ok IsNone) with
  | Raise _ => {| gemini_model := Unset; dialogflow_client := Unset |}
  | Ok g =>
      match (if configured (dialogflow_project_id config)
             then c <- new_client ;; Ok (Obj c)
             else Ok IsNone) with
      | Raise _ => {| gemini_model := g; dialogflow_client := Unset |}
      | Ok d => {| gemini_model := g; dialogflow_client := d |}
      end
  end.

(** *** Tables of [__init__] *)

Definition sql_templates : dict string :=
  [ ("select", "SELECT {columns} FROM {table} {where} {order_by} {limit}");
    ("count", "SELECT COUNT(*) FROM {table} {where}");
    ("insert", "INSERT INTO {table} ({columns}) VALUES ({values})");
    ("update", "UPDATE {table} SET {set_clause} {where}");
    ("delete", "DELETE FROM {table} {where}") ].

Definition intent_patterns : dict (list string) :=
  [ ("select_data",
      ["show me"; "display"; "get"; "find"; "list"; "what"; "how many";
       "select"; "retrieve"; "fetch"; "see"; "view"]);
    ("count_data", ["count"; "how many"; "total number"; "number of"]);
    ("insert_data", ["add"; "insert"; "create"; "new"; "add new"]);
    ("update_data", ["update"; "modify"; "change"; "edit"; "set"]);
    ("delete_data", ["delete"; "remove"; "drop"; "clear"]) ].

(** *** [_process_with_patterns] *)

(** The inner loop: [for pattern in patterns: if re.search(...): ...;
    break]. The state is the pair of [intent] and [confidence]. *)
Fixpoint scan_patterns (intent_name : string) (patterns : list string)
    (text_lower : string) (st : string * Q) : string * Q :=
  match patterns with
  | [] => st
  | pattern :: rest =>
      if Re.matched (Re.search pattern text_lower)
      then (intent_name, 0.8%Q)
      else scan_patterns intent_name rest text_lower st
  end.

(** The outer loop, left when [intent != "unknown"]. *)
Fixpoint scan_intents (entries : dict (list string)) (text_lower : string)
    (st : string * Q) : string * Q :=
  match entries with
  | [] => st
  | (intent_name, patterns) :: rest =>
      let st' := scan_patterns intent_name patterns text_lower st in
      if negb (String.eqb (fst st') "unknown")
      then st'
      else scan_intents rest text_lower st'
  end.

(** The block "Determine intent". *)
Definition determine_intent (text_lower : string) : string * Q :=
  scan_intents intent_patterns text_lower ("unknown", 0.5%Q).

(** *** [_extract_entities] *)

Definition table_patterns : list string :=
  [ "from\s+(\w+)"; "table\s+(\w+)"; "in\s+(\w+)" ].

Definition time_patterns : dict string :=
  [ ("last_week", "last\s+week");
    ("last_month", "last\s+month");
    ("yesterday", "yesterday");
    ("today", "today");
    ("this_week", "this\s+week");
    ("this_month", "this\s+month") ].

Fixpoint extract_table (patterns : list string) (text_lower : string)
    (entities : dict scalar) : Exc (dict scalar) :=
  match patterns with
  | [] => Ok entities
  | pattern :: rest =>
      match Re.search pattern text_lower with
      | Some m =>
          g <- Re.group1 m ;;
          Ok (dict_set entities "table" (PStr g))
      | None => extract_table rest text_lower entities
      end
  end.

Fixpoint extract_time (entries : dict string) (text_lower : string)
    (entities : dict scalar) : dict scalar :=
  match entries with
  | [] => entities
  | (time_key, pattern) :: rest =>
      if Re.matched (Re.search pattern text_lower)
      then dict_set entities "time_period" (PStr time_key)
      else extract_time rest text_lower entities
  end.

Definition extract_number (text : string) (entities : dict scalar)
  : Exc (dict scalar) :=
  match Re.search "(\d+)" text with
  | Some number_match =>
      g <- Re.group1 number_match ;;
      n <- py_int g ;;
      Ok (dict_set entities "number" (PInt n))
  | None => Ok entities
  end.

Definition _extract_entities (text : string) : Exc (dict scalar) :=
  let entities : dict scalar := [] in
  let text_lower := lower text in
  entities <- extract_table table_patterns text_lower entities ;;
  let entities := extract_time time_patterns text_lower entities in
  extract_number text entities.

Definition _process_with_patterns (text : string) : Exc (dict obj) :=
  let text_lower := lower text in
  let '(intent, confidence) := determine_intent text_lower in
  entities <- _extract_entities text ;;
  Ok [ ("intent", OStr intent);
       ("confidence", OFloat confidence);
       ("entities", ODict entities);
       ("original_text", OStr text) ].

(** *** [_process_with_dialogflow] *)

(** The two message classes of the Dialogflow library that carry a
    text: [TextInput], which the program builds, and [QueryInput], the
    class of the field [query_input] of a request. The session path and
    the language code are configuration strings that take no part in
    what follows. *)
Inductive message : Type :=
| TextInput (text : string)
| QueryInput (text : string).

(** [DetectIntentRequest(session=..., query_input=m)]: the constructor
    of the library accepts, for [query_input], a [QueryInput] and raises
    on a message of another class. The request is kept as the text it
    carries. *)
Definition DetectIntentRequest (query_input : message) : Exc string :=
  match query_input with
  | QueryInput text => Ok text
  | TextInput _ => Raise TypeError
  end.

(** The dictionary comprehension over the parameters. *)
Definition parameters_dict (ps : list (string * scalar)) : dict scalar :=
  fold_left (fun d p => dict_set d (fst p) (snd p)) ps [].

(** The dictionary of the [return] statement. *)
Definition dialogflow_result (response : DetectIntentResponse)
    (text : string) : dict obj :=
  [ ("intent", OStr (display_name response));
    ("confidence", OFloat (intent_detection_confidence response));
    ("entities", ODict (parameters_dict (parameters response)));
    ("original_text", OStr text) ].

(** The program hands its [TextInput] to the request as [query_input],
    so the construction of the request raises inside the [try], before
    [detect_intent] is called. *)
Definition _process_with_dialogflow (client : SessionsClient) (text : string)
  : option (dict obj) :=
  let text_input := TextInput text in
  match (request <- DetectIntentRequest text_input ;;
         response <- client request ;;
         Ok (dialogflow_result response text)) with
  | Ok result => Some result
  | Raise _ => None
  end.

(** *** [process_text] *)

Definition unknown_result (text : string) : dict obj :=
  [ ("intent", OStr "unknown");
    ("confidence", OFloat 0.5%Q);
    ("entities", ODict []);
    ("original_text", OStr text) ].

(** Truth value of an optional dictionary ([if result:]). *)
Definition nonempty_result (r : option (dict obj)) : bool :=
  match r with
  | Some (_ :: _) => true
  | _ => false
  end.

Definition process_text (self : NLUProcessor) (text : string) : dict obj :=
  let attempt : Exc (dict obj) :=
    match dialogflow_client self with
    | Unset => Raise AttributeError
    | IsNone => _process_with_patterns text
    | Obj client =>
        let result := _process_with_dialogflow client text in
        if nonempty_result result
        then match result with
             | Some r => Ok r
             | None => _process_with_patterns text
             end
        else _process_with_patterns text
    end in
  match attempt with
  | Ok r => r
  | Raise _ => unknown_result text
  end.

(** *** [_generate_sql_with_templates] *)

(** The block "Add time-based filtering" of the [select_data] branch. *)
Definition select_where_clause (entities : obj) : Exc string :=
  has_period <- obj_contains entities "time_period" ;;
  if has_period : bool then
    time_period <- obj_item entities "time_period" ;;
    if scalar_eq_str time_period "last_week"
    then Ok "WHERE created_at >= NOW() - INTERVAL '7 days'"
    else if scalar_eq_str time_period "last_month"
    then Ok "WHERE created_at >= NOW() - INTERVAL '1 month'"
    else if scalar_eq_str time_period "today"
    then Ok "WHERE DATE(created_at) = CURRENT_DATE"
    else Ok ""
  else Ok "".

(** The same block of the [count_data] branch. *)
Definition count_where_clause (entities : obj) : Exc string :=
  has_period <- obj_contains entities "time_period" ;;
  if has_period : bool then
    time_period <- obj_item entities "time_period" ;;
    if scalar_eq_str time_period "last_week"
    then Ok "WHERE created_at >= NOW() - INTERVAL '7 days'"
    else Ok ""
  else Ok "".

Definition _generate_sql_with_templates (intent entities : obj) : Exc string :=
  table <- obj_get entities "table" (PStr "unknown_table") ;;
  if obj_eq_str intent "select_data" then
    let columns := "*" in
    let order_clause := "" in
    let limit_clause := "" in
    where_clause <- select_where_clause entities ;;
    template <- dict_item sql_templates "select" ;;
    format template
      [ ("columns", PStr columns);
        ("table", table);
        ("where", PStr where_clause);
        ("order_by", PStr order_clause);
        ("limit", PStr limit_clause) ]
  else if obj_eq_str intent "count_data" then
    where_clause <- count_where_clause entities ;;
    template <- dict_item sql_templates "count" ;;
    format template [ ("table", table); ("where", PStr where_clause) ]
  else
    table <- py_format table ;;
    Ok ("SELECT * FROM " ++ table ++ " LIMIT 10").

(** *** [_generate_sql_with_gemini] *)

Definition statement_keywords : list string :=
  [ "select"; "insert"; "update"; "delete" ].

Definition _generate_sql_with_gemini (model : GenerativeModel)
    (nlu_result : dict obj) : Exc string :=
  let attempt : Exc string :=
    q <- dict_item nlu_result "original_text" ;;
    i <- dict_item nlu_result "intent" ;;
    e <- dict_item nlu_result "entities" ;;
    text <- model {| prompt_query := q; prompt_intent := i;
                     prompt_entities := e |} ;;
    let sql_query := strip text in
    if negb (existsb (startswith (lower sql_query)) statement_keywords)
    then Raise ValueError
    else Ok sql_query in
  match attempt with
  | Ok sql_query => Ok sql_query
  | Raise _ =>
      _generate_sql_with_templates
        (dict_get nlu_result "intent" (OStr "unknown"))
        (dict_get nlu_result "entities" (ODict []))
  end.

(** *** [generate_sql] *)

Definition safe_fallback : string := "SELECT 1".

(** The body of the [try] of [generate_sql]. *)
Definition generate_sql_body (self : NLUProcessor) (nlu_result : dict obj)
  : Exc string :=
  let intent := dict_get nlu_result "intent" (OStr "unknown") in
  let entities := dict_get nlu_result "entities" (ODict []) in
  match gemini_model self with
  | Unset => Raise AttributeError
  | Obj model => _generate_sql_with_gemini model nlu_result
  | IsNone => _generate_sql_with_templates intent entities
  end.

Definition generate_sql (self : NLUProcessor) (nlu_result : dict obj)
  : string :=
  match generate_sql_body self nlu_result with
  | Ok sql_query => sql_query
  | Raise _ => safe_fallback
  end.

(** *** [generate_response] *)

(** [l[0]] *)
Definition list_first (l : list obj) : Exc obj :=
  match l with
  | row :: _ => Ok row
  | [] => Raise IndexError
  end.

Definition py_len (l : list obj) : Z := Z.of_nat (List.length l).

(** The body of the [try] of [generate_response]. In the [select_data]
    branch the number interpolated is the length of a list, which is
    below 2 ** 63: its conversion cannot be refused. *)
Definition generate_response_body (nlu_result : dict obj)
    (query_result : pyval) : Exc string :=
  let intent := dict_get nlu_result "intent" (OStr "unknown") in
  if obj_eq_str intent "count_data" then
    match query_result with
    | VList l =>
        if (0 <? py_len l)%Z then
          row <- list_first l ;;
          count <- obj_get row "count" (PInt 0) ;;
          count <- py_format count ;;
          Ok ("I found " ++ count ++ " records.")
        else Ok "I couldn't count the records."
    | VObj _ => Ok "I couldn't count the records."
    end
  else if obj_eq_str intent "select_data" then
    match query_result with
    | VList l =>
        let count := py_len l in
        if (count =? 0)%Z then Ok "No records found."
        else if (count =? 1)%Z then Ok "I found 1 record."
        else Ok ("I found " ++ py_str (PInt count) ++ " records.")
    | VObj _ => Ok "I couldn't retrieve the data."
    end
  else Ok "Query executed successfully.".

Definition generate_response (nlu_result : dict obj) (query_result : pyval)
  : string :=
  match generate_response_body nlu_result query_result with
  | Ok message => message
  | Raise _ => "Query completed."
  end.

(** *** The local pipeline *)

(** A processor with neither remote service configured. *)
Definition local_processor : NLUProcessor :=
  {| gemini_model := IsNone; dialogflow_client := IsNone |}.

End NLU.

Import NLU.

(* ===================================================================== *)
(** ** More of the runtime: plain exceptions, [str.replace] *)
(* ===================================================================== *)

Module PyMore.

(** What can be raised in the modules below: a built-in exception or an
    exception of one of the client libraries, raised by the runtime or a
    library; [Exception(message)]; or [ValueError(message)], raised by
    the program with a message of its own. *)
Inductive error : Type :=
| Builtin (e : exn)
| Exception (message : string)
| ValueErrorOf (message : string).

Inductive result (A : Type) : Type :=
| Return (a : A)
| Throw (e : error).
Arguments Return {A} a.
Arguments Throw {A} e.

Definition and_then {A B : Type} (m : result A) (f : A -> result B)
  : result B :=
  match m with
  | Return a => f a
  | Throw e => Throw e
  end.

(** Truth value of a string. *)
Definition truthy (s : string) : bool := negb (String.eqb s "").

(** [s.replace(old, new)] for a non-empty [old]: the occurrences are
    taken from the left and do not overlap. [skip] counts the characters
    of an occurrence still to pass over. *)
Fixpoint replace_go (old new s : string) (skip : nat) {struct s} : string :=
  match s with
  | EmptyString => EmptyString
  | String c s' =>
      match skip with
      | S k => replace_go old new s' k
      | O =>
          if startswith s old
          then new ++ replace_go old new s' (String.length old - 1)
          else String c (replace_go old new s' 0)
      end
  end.

(** With an empty [old], [new] goes before every character and at the
    end. *)
Fixpoint interleave (new s : string) : string :=
  match s with
  | EmptyString => new
  | String c s' => new ++ String c (interleave new s')
  end.

Definition replace (s old new : string) : string :=
  match old with
  | EmptyString => interleave new s
  | String _ _ => replace_go old new s 0
  end.

End PyMore.

Export PyMore.

Notation "x <~ m ;; k" := (PyMore.and_then m (fun x => k))
  (at level 61, m at next level, right associativity).

(* ===================================================================== *)
(** ** [class Config] ([src/utils/config.py]) *)
(* ===================================================================== *)

Module Cfg.

(** The attributes of a constructed [Config] that the modelled code
    reads. *)
Record Config : Type := {
  db_host : string;
  db_port : Z;
  db_name : string;
  db_user : string;
  db_password : string;
  db_url : option string;
  speech_language_code : string;
  speech_sample_rate : Z;
  debug : bool
}.

(** Truth value of an attribute read with [os.getenv(name)]. *)
Definition is_set (v : option string) : bool :=
  match v with
  | Some s => truthy s
  | None => false
  end.

(** [db_port] is the result of [int] on the text of an environment
    variable, of at most [int_max_str_digits] digits: its conversion
    back to text cannot be refused. *)
Definition get_database_url (self : Config) : string :=
  if is_set (db_url self)
  then match db_url self with Some u => u | None => "" end
  else "postgresql://" ++ db_user self ++ ":" ++ db_password self ++ "@"
       ++ db_host self ++ ":" ++ py_str (PInt (db_port self)) ++ "/"
       ++ db_name self.

Definition required_vars : list string :=
  [ "DB_NAME"; "DB_USER"; "DB_PASSWORD" ].

(** The loop of [validate_config] over an environment ([os.getenv]). *)
Fixpoint collect_missing (environ : dict string) (vars : list string)
    (missing_vars : list string) : list string :=
  match vars with
  | [] => missing_vars
  | var :: rest =>
      if negb (is_set (dict_lookup environ var))
      then collect_missing environ rest (missing_vars ++ [var])%list
      else collect_missing environ rest missing_vars
  end.

Definition validate_config (environ : dict string) : bool :=
  match collect_missing environ required_vars [] with
  | [] => true
  | _ :: _ => false
  end.

End Cfg.

(* ===================================================================== *)
(** ** [class PostgresManager] ([src/database/postgres_manager.py]) *)
(* ===================================================================== *)

Module Db.

(** An integer as the database driver returns it: the integer types of
    the database have at most 64 bits. *)
Definition in_int64 (n : Z) : bool :=
  (- 2 ^ 63 <=? n)%Z && (n <? 2 ^ 63)%Z.

Record int64 : Type := {
  int64_value : Z;
  int64_range : in_int64 int64_value = true
}.

(** A value of a fetched row. *)
Inductive cell : Type :=
| CNone
| CBool (b : bool)
| CInt (n : int64)
| CStr (s : string).

Definition cell_value (c : cell) : scalar :=
  match c with
  | CNone => PNone
  | CBool b => PBool b
  | CInt n => PInt (int64_value n)
  | CStr s => PStr s
  end.

(** What [execute_query] reads of the result of [session.execute]. *)
Record ExecResult : Type := {
  returns_rows : bool;
  keys : list string;
  fetchall : list (list cell);
  rowcount : Z
}.

(** An engine of the database library, by the outcomes of the calls made
    on it: the connection test of [connect] ([SELECT 1] in a
    transaction), [dispose], the execution of a statement in a session of
    its session factory, and that session's [commit]. *)
Record Engine : Type := {
  connection_test : result unit;
  dispose : result unit;
  session_execute : string -> result ExecResult;
  session_commit : string -> result unit
}.

(** [create_async_engine(url, echo=...)]. *)
Definition EngineFactory : Type := string -> bool -> result Engine.

Record PostgresManager : Type := {
  config : Cfg.Config;
  async_engine : option Engine;
  session_factory : option Engine;
  _connected : bool
}.

(** [__init__] *)
Definition new (cfg : Cfg.Config) : PostgresManager :=
  {| config := cfg; async_engine := None; session_factory := None;
     _connected := false |}.

Definition set_connected (self : PostgresManager) (b : bool)
  : PostgresManager :=
  {| config := config self; async_engine := async_engine self;
     session_factory := session_factory self; _connected := b |}.

Definition async_url (self : PostgresManager) : string :=
  replace (Cfg.get_database_url (config self))
          "postgresql://" "postgresql+asyncpg://".

Definition connect (self : PostgresManager)
    (create_async_engine : EngineFactory)
  : PostgresManager * result unit :=
  match create_async_engine (async_url self) (Cfg.debug (config self)) with
  | Throw e => (set_connected self false, Throw e)
  | Return engine =>
      let self := {| config := config self; async_engine := Some engine;
                     session_factory := Some engine;
                     _connected := _connected self |} in
      match connection_test engine with
      | Throw e => (set_connected self false, Throw e)
      | Return _ => (set_connected self true, Return tt)
      end
  end.

Definition disconnect (self : PostgresManager) : PostgresManager :=
  match async_engine self with
  | Some engine =>
      match dispose engine with
      | Return _ => set_connected self false
      | Throw _ => self
      end
  | None => set_connected self false
  end.

Definition is_connected (self : PostgresManager) : bool := _connected self.

(** [dict(zip(columns, row))] *)
Definition row_dict (columns : list string) (row : list cell)
  : dict scalar :=
  fold_left (fun d kv => dict_set d (fst kv) (cell_value (snd kv)))
            (combine columns row) [].

Definition execute_query (self : PostgresManager) (sql_query : string)
  : result pyval :=
  if negb (_connected self)
  then Throw (Exception "Database not connected")
  else
    match session_factory self with
    | None => Throw (Builtin TypeError)
    | Some engine =>
        r <~ session_execute engine sql_query ;;
        if returns_rows r
        then
          let rows := fetchall r in
          let columns := keys r in
          Return (VList (map (fun row => ODict (row_dict columns row)) rows))
        else
          _ <~ session_commit engine sql_query ;;
          Return (VList [ODict [("affected_rows", PInt (rowcount r))]])
    end.

Definition test_connection (self : PostgresManager) : bool :=
  match async_engine self with
  | None => false
  | Some engine =>
      match connection_test engine with
      | Return _ => true
      | Throw _ => false
      end
  end.

End Db.

(* ===================================================================== *)
(** ** [class SpeechHandler] ([src/speech/speech_handler.py]) *)
(* ===================================================================== *)

Module Speech.

(** [speech_client.recognize]: from the sample rate, the language code
    and the audio content to the transcripts of the alternatives of each
    result. *)
Definition SpeechClient : Type :=
  Z -> string -> string -> result (list (list string)).

(** [tts_client.synthesize_speech]: from the language code and the text
    to the audio content. *)
Definition TextToSpeechClient : Type := string -> string -> result string.

Record SpeechHandler : Type := {
  config : Cfg.Config;
  speech_client : option SpeechClient;
  tts_client : option TextToSpeechClient
}.

(** An uploaded file: its content type and the outcome of [read()]. *)
Record UploadFile : Type := {
  content_type : option string;
  read : result string
}.

Definition _setup_clients (cfg : Cfg.Config)
    (new_speech_client : result SpeechClient)
    (new_tts_client : result TextToSpeechClient) : SpeechHandler :=
  match new_speech_client with
  | Throw _ =>
      {| config := cfg; speech_client := None; tts_client := None |}
  | Return speech =>
      match new_tts_client with
      | Throw _ =>
          {| config := cfg; speech_client := None; tts_client := None |}
      | Return tts =>
          {| config := cfg; speech_client := Some speech;
             tts_client := Some tts |}
      end
  end.

(** The loop "Extract transcript". *)
Fixpoint join_transcripts (results : list (list string)) (transcript : string)
  : result string :=
  match results with
  | [] => Return transcript
  | alternatives :: rest =>
      match alternatives with
      | first :: _ => join_transcripts rest (transcript ++ (first ++ " "))
      | [] => Throw (Builtin IndexError)
      end
  end.

Definition speech_to_text (self : SpeechHandler) (audio_file : UploadFile)
  : result string :=
  match speech_client self with
  | None => Throw (Exception "Speech client not initialized")
  | Some client =>
      audio_content <~ read audio_file ;;
      response <~ client (Cfg.speech_sample_rate (config self))
                         (Cfg.speech_language_code (config self))
                         audio_content ;;
      transcript <~ join_transcripts response "" ;;
      Return (strip transcript)
  end.

Definition text_to_speech (self : SpeechHandler) (text : string)
  : result string :=
  match tts_client self with
  | None => Throw (Exception "Text-to-speech client not initialized")
  | Some client => client (Cfg.speech_language_code (config self)) text
  end.

Definition process_audio_file (self : SpeechHandler) (audio_file : UploadFile)
  : result string :=
  match content_type audio_file with
  | None => Throw (Builtin AttributeError)
  | Some ct =>
      if negb (startswith ct "audio/")
      then Throw (ValueErrorOf "File must be an audio file")
      else
        transcript <~ speech_to_text self audio_file ;;
        if negb (truthy transcript)
        then Throw (ValueErrorOf "No speech detected in audio file")
        else Return transcript
  end.

Definition is_available (self : SpeechHandler) : bool :=
  match speech_client self, tts_client self with
  | Some _, Some _ => true
  | _, _ => false
  end.

End Speech.

(* ===================================================================== *)
(** ** The endpoints ([main.py]) *)
(* ===================================================================== *)

Module App.

Record QueryResponse : Type := {
  query : string;
  sql_generated : string;
  result : pyval;
  confidence : obj;
  message : string
}.

(** The answer of an endpoint: the response model, or the
    [HTTPException] with status 500 whose detail is the text of the
    exception caught. *)
Inductive http (A : Type) : Type :=
| Ok200 (a : A)
| Error500 (e : error).
Arguments Ok200 {A} a.
Arguments Error500 {A} e.

(** The four steps both endpoints share, from the text of the query. *)
Definition answer (nlu_processor : NLU.NLUProcessor)
    (postgres_manager : Db.PostgresManager) (text : string)
  : PyMore.result QueryResponse :=
  let nlu_result := NLU.process_text nlu_processor text in
  let sql_query := NLU.generate_sql nlu_processor nlu_result in
  result <~ Db.execute_query postgres_manager sql_query ;;
  let message := NLU.generate_response nlu_result result in
  Return {| query := text;
            sql_generated := sql_query;
            result := result;
            confidence := dict_get nlu_result "confidence" (OFloat 0.8%Q);
            message := message |}.

Definition to_http {A : Type} (r : PyMore.result A) : http A :=
  match r with
  | Return a => Ok200 a
  | Throw e => Error500 e
  end.

Definition process_text_query (nlu_processor : NLU.NLUProcessor)
    (postgres_manager : Db.PostgresManager) (request_query : string)
  : http QueryResponse :=
  to_http (answer nlu_processor postgres_manager request_query).

Definition process_voice_query (nlu_processor : NLU.NLUProcessor)
    (postgres_manager : Db.PostgresManager)
    (speech_handler : Speech.SpeechHandler) (audio : Speech.UploadFile)
  : http QueryResponse :=
  to_http (text_query <~ Speech.speech_to_text speech_handler audio ;;
           answer nlu_processor postgres_manager text_query).

(** [startup_event]: the failure of [connect] is raised again. *)
Definition startup_event (postgres_manager : Db.PostgresManager)
    (create_async_engine : Db.EngineFactory)
  : Db.PostgresManager * PyMore.result unit :=
  Db.connect postgres_manager create_async_engine.

Definition shutdown_event (postgres_manager : Db.PostgresManager)
  : Db.PostgresManager :=
  Db.disconnect postgres_manager.

(** [health_check] *)
Definition health_check (postgres_manager : Db.PostgresManager)
  : dict scalar :=
  [ ("status", PStr "healthy");
    ("database", PBool (Db.is_connected postgres_manager)) ].

End App.

(* ===================================================================== *)
(** ** Vocabulary of the statements *)
(* ===================================================================== *)

(** [p] appears in [t] as a substring. *)
Definition occurs (p t : string) : Prop :=
  exists a b : string, t = a ++ p ++ b.

(** The regex of a pattern without special characters. *)
Fixpoint literal (s : string) : Re.regex :=
  match s with
  | EmptyString => []
  | String c s' => Re.One (Re.Lit c) :: literal s'
  end.

(** [entities.get("table", "unknown_table")] *)
Definition table_of (entities : dict scalar) : scalar :=
  dict_get entities "table" (PStr "unknown_table").

(** The leading keywords of a query synthesis result. *)
Definition statement_kinds : list string :=
  [ "SELECT"; "INSERT"; "UPDATE"; "DELETE" ].

(** Every pattern the program hands to [re.search]. *)
Definition program_patterns : list string :=
  (concat (map snd intent_patterns) ++ table_patterns
   ++ map snd time_patterns ++ ["(\d+)"])%list.

(** An NLU result with an intent and no "entities" key. *)
Definition count_without_entities : dict obj :=
  [ ("intent", OStr "count_data") ].

(** The two example queries of the user interface, and a third text. *)
Definition how_many_customers : string := "How many customers do we have?".

Definition orders_last_week : string := "Show me all orders from last week".


(** A Dialogflow agent that answers with its stock welcome intent. *)
Definition welcome_client : SessionsClient :=
  fun _ => Ok {| display_name := "Default Welcome Intent";
                 intent_detection_confidence := 1;
                 parameters := [] |}.

Definition remote_processor : NLUProcessor :=
  {| gemini_model := IsNone; dialogflow_client := Obj welcome_client |}.

Definition total_number_of_users : string := "Total number of users".

(** Every character of [s] satisfies [P]. *)
Fixpoint string_forall (P : ascii -> bool) (s : string) : bool :=
  match s with
  | EmptyString => true
  | String c s' => P c && string_forall P s'
  end.

(** The pattern has a capturing group. *)
Definition has_group (p : Re.regex) : bool :=
  existsb (fun i => match i with Re.GroupPlus _ => true | _ => false end) p.

(** The entry of a dictionary for a key that may be absent. *)
Definition entry (k : string) (v : option scalar) : dict scalar :=
  match v with
  | Some x => [(k, x)]
  | None => []
  end.

(** The filters the templates can put in a query. *)
Definition time_filters : list string :=
  [ "";
    "WHERE created_at >= NOW() - INTERVAL '7 days'";
    "WHERE created_at >= NOW() - INTERVAL '1 month'";
    "WHERE DATE(created_at) = CURRENT_DATE" ].

(** The values of the time_period entity. *)
Definition time_periods : list string :=
  [ "last_week"; "last_month"; "yesterday"; "today"; "this_week";
    "this_month" ].

(** The same processor without its generative model. *)
Definition without_gemini (self : NLUProcessor) : NLUProcessor :=
  {| gemini_model := IsNone; dialogflow_client := dialogflow_client self |}.

(** A generative model with one answer, and a processor that has it. *)
Definition answering_model : GenerativeModel :=
  fun _ => Ok " update users SET a = 1 ".

Definition answering_processor : NLUProcessor :=
  {| gemini_model := Obj answering_model; dialogflow_client := IsNone |}.

(** A Dialogflow client whose call always fails, and a processor that
    has it. *)
Definition failing_client : SessionsClient := fun _ => Raise ServiceError.

Definition failing_remote_processor : NLUProcessor :=
  {| gemini_model := IsNone; dialogflow_client := Obj failing_client |}.

(** Settings with a DATABASE_URL of the scheme [postgres://]. *)
Definition sample_config : Cfg.Config :=
  {| Cfg.db_host := "localhost"; Cfg.db_port := 5432;
     Cfg.db_name := "postgres"; Cfg.db_user := "postgres";
     Cfg.db_password := "";
     Cfg.db_url := Some "postgres://app@db.internal/shop";
     Cfg.speech_language_code := "en-US";
     Cfg.speech_sample_rate := 16000;
     Cfg.debug := false |}.

(** The integer 42 of the database. *)
Definition forty_two : Db.int64 :=
  {| Db.int64_value := 42; Db.int64_range := eq_refl |}.

(** An engine whose every call succeeds, answering a statement with one
    row of one column named count; the factory that returns it; and the
    manager connected through it. *)
Definition counting_engine : Db.Engine :=
  {| Db.connection_test := Return tt;
     Db.dispose := Return tt;
     Db.session_execute := fun _ =>
       Return {| Db.returns_rows := true; Db.keys := ["count"];
                 Db.fetchall := [[Db.CInt forty_two]]; Db.rowcount := 1 |};
     Db.session_commit := fun _ => Return tt |}.

Definition counting_factory : Db.EngineFactory :=
  fun _ _ => Return counting_engine.

Definition connected_manager : Db.PostgresManager :=
  fst (Db.connect (Db.new sample_config) counting_factory).

(** An engine that runs a statement returning no rows, and a manager
    connected through it. *)
Definition mutating_engine : Db.Engine :=
  {| Db.connection_test := Return tt;
     Db.dispose := Return tt;
     Db.session_execute := fun _ =>
       Return {| Db.returns_rows := false; Db.keys := [];
                 Db.fetchall := []; Db.rowcount := 3 |};
     Db.session_commit := fun _ => Return tt |}.

Definition mutating_manager : Db.PostgresManager :=
  fst (Db.connect (Db.new sample_config) (fun _ _ => Return mutating_engine)).

(** A factory that cannot create an engine. *)
Definition refusing_factory : Db.EngineFactory :=
  fun _ _ => Throw (Builtin ServiceError).

(** A speech handler whose recognizer hears two results, and an upload
    of audio. *)
Definition hearing_handler : Speech.SpeechHandler :=
  {| Speech.config := sample_config;
     Speech.speech_client := Some (fun _ _ _ =>
       Return [ [" show me orders"; "show me order"]; ["from today "] ]);
     Speech.tts_client := None |}.

Definition wav_upload : Speech.UploadFile :=
  {| Speech.content_type := Some "audio/wav";
     Speech.read := Return "RIFF" |}.

(** The check of [_generate_sql_with_gemini] on a stripped answer. *)
Definition accepted (sql_query : string) : bool :=
  existsb (startswith (lower sql_query)) statement_keywords.

(** The states a [PostgresManager] goes through: a new one, then any
    sequence of [connect] and [disconnect]. *)
Inductive reachable (cfg : Cfg.Config) : Db.PostgresManager -> Prop :=
| reach_new : reachable cfg (Db.new cfg)
| reach_connect (self : Db.PostgresManager) (f : Db.EngineFactory) :
    reachable cfg self -> reachable cfg (fst (Db.connect self f))
| reach_disconnect (self : Db.PostgresManager) :
    reachable cfg self -> reachable cfg (Db.disconnect self).

(* ===================================================================== *)
(** ** Facts about the runtime functions *)
(* ===================================================================== *)

Lemma startswith_spec (s p : string) :
  startswith s p = true <-> exists b, s = p ++ b.
Proof.
  revert s. induction p as [|c p IH]; intros s; simpl.
  - split; [intros _; now exists s | intros _; now destruct s].
  - destruct s as [|d s].
    + cbn [startswith]. split; [discriminate | intros [b Hb]; discriminate].
    + cbn [startswith]. rewrite andb_true_iff, Ascii.eqb_eq, IH. split.
      * intros [-> [b ->]]. now exists b.
      * intros [b Hb]. injection Hb as -> ->. split; [reflexivity | now exists b].
Qed.

Lemma occurs_in_spec (p t : string) : occurs_in p t = true <-> occurs p t.
Proof.
  unfold occurs. induction t as [|c t IH].
  - cbn [occurs_in]. rewrite orb_false_r, startswith_spec. split.
    + intros [b Hb]. now exists EmptyString, b.
    + intros [a [b Hab]]. destruct a; [now exists b | discriminate].
  - cbn [occurs_in]. rewrite orb_true_iff, startswith_spec, IH. split.
    + intros [[b Hb] | [a [b Hab]]].
      * now exists EmptyString, b.
      * exists (String c a), b. simpl. now rewrite Hab.
    + intros [a [b Hab]]. destruct a as [|d a].
      * left. now exists b.
      * right. simpl in Hab. injection Hab as _ ->. now exists a, b.
Qed.

Lemma append_empty_r (s : string) : s ++ "" = s.
Proof. induction s as [|c s IH]; simpl; [reflexivity | now rewrite IH]. Qed.

Lemma lower_app (a b : string) : lower (a ++ b) = lower a ++ lower b.
Proof. induction a as [|c a IH]; simpl; [reflexivity | now rewrite IH]. Qed.

Lemma occurs_lower (p t : string) : occurs p t -> occurs (lower p) (lower t).
Proof.
  intros [a [b ->]]. exists (lower a), (lower b).
  now rewrite !lower_app.
Qed.

Lemma scalar_eq_str_true (v : scalar) (s : string) :
  scalar_eq_str v s = true <-> v = PStr s.
Proof.
  destruct v; simpl; try (split; [discriminate | intros H; discriminate H]).
  rewrite String.eqb_eq. split; [now intros -> | now intros [= ->]].
Qed.

Lemma obj_eq_str_true (o : obj) (s : string) :
  obj_eq_str o s = true <-> o = OStr s.
Proof.
  destruct o as [v| |]; simpl;
    try (split; [discriminate | intros H; discriminate H]).
  rewrite scalar_eq_str_true. unfold OStr.
  split; [now intros -> | now intros [= ->]].
Qed.

Lemma obj_eq_str_false (o : obj) (s : string) :
  o <> OStr s -> obj_eq_str o s = false.
Proof.
  intros H. destruct (obj_eq_str o s) eqn:E; [|reflexivity].
  now apply obj_eq_str_true in E.
Qed.

(** *** The limit on the conversion of integers *)

(** The 64-bit integers lie below the bound. *)
Lemma int64_below_bound : (2 ^ 63 < int_str_bound)%Z.
Proof. reflexivity. Qed.

Lemma py_format_overlong (n : Z) :
  (int_str_bound <= Z.abs n)%Z -> py_format (PInt n) = Raise ValueError.
Proof.
  intros H. unfold py_format. apply Z.leb_le in H. now rewrite H.
Qed.

Lemma py_format_int (n : Z) :
  (Z.abs n < int_str_bound)%Z -> py_format (PInt n) = Ok (py_str (PInt n)).
Proof.
  intros H. unfold py_format. apply Z.leb_gt in H. now rewrite H.
Qed.

(** The conversion gives the text of the value, or is refused for an
    integer at or beyond the bound; nothing else is refused. *)
Lemma py_format_cases (v : scalar) :
  py_format v = Ok (py_str v)
  \/ (py_format v = Raise ValueError
      /\ exists n, v = PInt n /\ (int_str_bound <= Z.abs n)%Z).
Proof.
  destruct v as [|b|n|s]; try (now left).
  destruct (Z.leb_spec int_str_bound (Z.abs n)) as [H | H].
  - right. split; [now apply py_format_overlong | now exists n].
  - left. now apply py_format_int.
Qed.

Lemma py_format_ok (v : scalar) (t : string) :
  py_format v = Ok t -> t = py_str v.
Proof.
  destruct (py_format_cases v) as [-> | [-> _]]; [|discriminate].
  now intros [= <-].
Qed.

Lemma py_format_raise (v : scalar) (e : exn) :
  py_format v = Raise e ->
  e = ValueError /\ exists n, v = PInt n /\ (int_str_bound <= Z.abs n)%Z.
Proof.
  destruct (py_format_cases v) as [-> | [-> H]]; [discriminate|].
  intros [= <-]. now split.
Qed.

(** [str.format] reads its keyword arguments only through the conversion
    of the values it looks up. *)
Lemma format_go_rendered (kwargs kwargs' : dict scalar) (s : string)
    (field : option string) :
  (forall k, option_map py_format (dict_lookup kwargs k)
             = option_map py_format (dict_lookup kwargs' k)) ->
  format_go kwargs s field = format_go kwargs' s field.
Proof.
  intros H.
  assert (Hn : forall (n : nat) (s : string) (field : option string),
             (String.length s <= n)%nat ->
             format_go kwargs s field = format_go kwargs' s field).
  { clear s field. induction n as [|n IH]; intros s field Hlen.
    - destruct s; [reflexivity | simpl in Hlen; lia].
    - destruct s as [|c s]; [reflexivity|]. cbn [String.length] in Hlen.
      assert (Hs : forall f, format_go kwargs s f = format_go kwargs' s f)
        by (intros f; apply IH; lia).
      cbn [format_go]. destruct field as [name|].
      + destruct (Ascii.eqb c rbrace); [|apply Hs].
        destruct (String.eqb name ""); [reflexivity|].
        unfold dict_item. specialize (H name).
        destruct (dict_lookup kwargs name) as [v|],
                 (dict_lookup kwargs' name) as [v'|];
          cbn [option_map] in H; try discriminate H; [|reflexivity].
        injection H as ->. now rewrite Hs.
      + destruct (Ascii.eqb c lbrace).
        * destruct s as [|c' s']; [reflexivity|].
          destruct (Ascii.eqb c' lbrace); [|apply Hs].
          rewrite (IH s' None) by (cbn [String.length] in Hlen; lia).
          reflexivity.
        * destruct (Ascii.eqb c rbrace).
          -- destruct s as [|c' s']; [reflexivity|].
             destruct (Ascii.eqb c' rbrace); [|reflexivity].
             rewrite (IH s' None) by (cbn [String.length] in Hlen; lia).
             reflexivity.
          -- now rewrite Hs. }
  apply (Hn (String.length s)). lia.
Qed.

(* ===================================================================== *)
(** ** Facts about the regular expressions *)
(* ===================================================================== *)

Lemma match_here_literal (p s : string) :
  Re.matched (Re.match_here (literal p) s) = startswith s p.
Proof.
  revert s. induction p as [|c p IH]; intros s; simpl.
  - reflexivity.
  - destruct s as [|d s]; [reflexivity|]. simpl.
    destruct (Ascii.eqb d c); simpl; [apply IH | reflexivity].
Qed.

Lemma search_regex_literal (p s : string) :
  Re.matched (Re.search_regex (literal p) s) = occurs_in p s.
Proof.
  induction s as [|d s IH].
  - cbn [Re.search_regex occurs_in]. rewrite <- match_here_literal.
    destruct (Re.match_here (literal p) ""); reflexivity.
  - cbn [Re.search_regex occurs_in]. rewrite <- match_here_literal, <- IH.
    destruct (Re.match_here (literal p) (String d s)); reflexivity.
Qed.

(** Every trigger phrase of [intent_patterns] is a literal pattern. *)
Lemma triggers_are_literal :
  Forall (fun p => Re.compile p = Some (literal p))
         (concat (map snd intent_patterns)).
Proof. repeat constructor. Qed.

(** All the patterns of the program are in the subset that [Re.compile]
    reads. *)
Lemma program_patterns_compile :
  Forall (fun p => Re.compile p <> None) program_patterns.
Proof. repeat constructor; discriminate. Qed.

Lemma trigger_search (name : string) (triggers : list string) (t s : string) :
  In (name, triggers) intent_patterns -> In t triggers ->
  Re.matched (Re.search t s) = occurs_in t s.
Proof.
  intros Hn Ht.
  assert (Hc : Re.compile t = Some (literal t)).
  { pose proof triggers_are_literal as HF. rewrite Forall_forall in HF.
    apply HF. apply in_concat. exists triggers. split; [|exact Ht].
    change triggers with (snd (name, triggers)). now apply in_map. }
  unfold Re.search. rewrite Hc. apply search_regex_literal.
Qed.

(* ===================================================================== *)
(** ** The intent classifier *)
(* ===================================================================== *)

Section Scan.
Variable text_lower : string.

Let hit (pattern : string) : bool :=
  Re.matched (Re.search pattern text_lower).

Lemma scan_patterns_hit (name : string) (patterns : list string)
    (st : string * Q) :
  (exists t, In t patterns /\ hit t = true) ->
  scan_patterns name patterns text_lower st = (name, 0.8%Q).
Proof.
  induction patterns as [|p ps IH]; intros [t [Hin Ht]].
  - destruct Hin.
  - simpl. destruct (Re.matched (Re.search p text_lower)) eqn:E.
    + reflexivity.
    + apply IH. destruct Hin as [-> | Hin].
      * unfold hit in Ht. congruence.
      * now exists t.
Qed.

Lemma scan_patterns_miss (name : string) (patterns : list string)
    (st : string * Q) :
  (forall t, In t patterns -> hit t = false) ->
  scan_patterns name patterns text_lower st = st.
Proof.
  induction patterns as [|p ps IH]; intros H; simpl.
  - reflexivity.
  - assert (E : hit p = false) by (apply H; now left).
    unfold hit in E. rewrite E. apply IH. intros t Ht. apply H. now right.
Qed.

Lemma scan_intents_miss (entries : dict (list string)) (c : Q) :
  (forall n ts t, In (n, ts) entries -> In t ts -> hit t = false) ->
  scan_intents entries text_lower ("unknown", c) = ("unknown", c).
Proof.
  induction entries as [|[n ts] rest IH]; intros H; simpl.
  - reflexivity.
  - rewrite scan_patterns_miss.
    + simpl. apply IH. intros n' ts' t Hin Ht.
      apply (H n' ts'); [now right | exact Ht].
    + intros t Ht. apply (H n ts); [now left | exact Ht].
Qed.

Lemma scan_intents_first (before after : dict (list string))
    (name : string) (triggers : list string) (c : Q) :
  name <> "unknown" ->
  (forall n ts t, In (n, ts) before -> In t ts -> hit t = false) ->
  (exists t, In t triggers /\ hit t = true) ->
  scan_intents (before ++ (name, triggers) :: after)%list text_lower
    ("unknown", c) = (name, 0.8%Q).
Proof.
  intros Hname Hbefore Hhit.
  induction before as [|[n ts] rest IH]; simpl.
  - rewrite scan_patterns_hit by exact Hhit. simpl.
    apply String.eqb_neq in Hname. now rewrite Hname.
  - rewrite scan_patterns_miss.
    + simpl. apply IH. intros n' ts' t Hin Ht.
      apply (Hbefore n' ts'); [now right | exact Ht].
    + intros t Ht. apply (Hbefore n ts); [now left | exact Ht].
Qed.
End Scan.

Lemma intent_names_known (name : string) (triggers : list string) :
  In (name, triggers) intent_patterns ->
  In name ["select_data"; "count_data"; "insert_data"; "update_data";
           "delete_data"].
Proof.
  intros H. change (In (fst (name, triggers)) (map fst intent_patterns)).
  now apply in_map.
Qed.

Lemma intent_names_not_unknown (name : string) (triggers : list string) :
  In (name, triggers) intent_patterns -> name <> "unknown".
Proof.
  intros H. apply intent_names_known in H. simpl in H.
  intuition (subst; discriminate).
Qed.

(** C5: the local classifier tries the intents in the order select_data,
    count_data, insert_data, update_data, delete_data; the first intent
    one of whose trigger phrases is a substring of the lowercased text is
    the result, with confidence 0.8; when no trigger phrase of any intent
    occurs the result is unknown with confidence 0.5; a text containing
    both "count" and "show me" is classified select_data. The
    classification is what [_process_with_patterns] stores under
    "intent" and "confidence". *)
Theorem local_classifier_first_match (text : string) :
  let text_lower := lower text in
  let result := determine_intent text_lower in
  map fst intent_patterns =
    ["select_data"; "count_data"; "insert_data"; "update_data";
     "delete_data"]
  /\ (forall before name triggers after,
        intent_patterns = (before ++ (name, triggers) :: after)%list ->
        (forall n ts t, In (n, ts) before -> In t ts ->
                        ~ occurs t text_lower) ->
        (exists t, In t triggers /\ occurs t text_lower) ->
        result = (name, 0.8%Q))
  /\ ((forall n ts t, In (n, ts) intent_patterns -> In t ts ->
                      ~ occurs t text_lower) ->
      result = ("unknown", 0.5%Q))
  /\ (occurs "count" text -> occurs "show me" text ->
      result = ("select_data", 0.8%Q))
  /\ _process_with_patterns text =
       (entities <- _extract_entities text ;;
        Ok [ ("intent", OStr (fst result));
             ("confidence", OFloat (snd result));
             ("entities", ODict entities);
             ("original_text", OStr text) ]).
Proof.
  intros text_lower result.
  assert (Hfirst : forall before name triggers after,
        intent_patterns = (before ++ (name, triggers) :: after)%list ->
        (forall n ts t, In (n, ts) before -> In t ts ->
                        ~ occurs t text_lower) ->
        (exists t, In t triggers /\ occurs t text_lower) ->
        result = (name, 0.8%Q)).
  { intros before name triggers after Heq Hbefore [t [Hin Hocc]].
    assert (Hmem : forall n ts, In (n, ts) (before ++ [(name, triggers)])%list ->
                                In (n, ts) intent_patterns).
    { intros n ts H. rewrite Heq. apply in_app_iff.
      apply in_app_iff in H. destruct H as [H | [H | []]].
      - now left.
      - right. now left. }
    unfold result, determine_intent. rewrite Heq.
    apply scan_intents_first.
    - apply (intent_names_not_unknown name triggers).
      apply Hmem, in_app_iff. right. now left.
    - intros n ts t' Hn Ht'.
      rewrite (trigger_search n ts) by
        (try exact Ht'; apply Hmem, in_app_iff; now left).
      destruct (occurs_in t' text_lower) eqn:E; [|reflexivity].
      apply occurs_in_spec in E. now destruct (Hbefore n ts t').
    - exists t. split; [exact Hin|].
      rewrite (trigger_search name triggers) by
        (try exact Hin; apply Hmem, in_app_iff; right; now left).
      now apply occurs_in_spec. }
  split; [reflexivity|]. split; [exact Hfirst|]. split; [|split].
  - intros Hnone. unfold result, determine_intent.
    apply scan_intents_miss. intros n ts t Hn Ht.
    rewrite (trigger_search n ts) by assumption.
    destruct (occurs_in t text_lower) eqn:E; [|reflexivity].
    apply occurs_in_spec in E. now destruct (Hnone n ts t).
  - intros _ Hshow.
    apply (Hfirst [] "select_data"
             ["show me"; "display"; "get"; "find"; "list"; "what";
              "how many"; "select"; "retrieve"; "fetch"; "see"; "view"]
             (tl intent_patterns)).
    + reflexivity.
    + intros n ts t [].
    + exists "show me". split; [now left|].
      apply (occurs_lower "show me" text Hshow).
  - unfold _process_with_patterns. fold text_lower. fold result.
    now destruct result.
Qed.

(* ===================================================================== *)
(** ** The template strategy *)
(* ===================================================================== *)

Lemma select_where_clause_cases (d : dict scalar) :
  select_where_clause (ODict d) =
    Ok match dict_lookup d "time_period" with
       | Some v =>
           if scalar_eq_str v "last_week"
           then "WHERE created_at >= NOW() - INTERVAL '7 days'"
           else if scalar_eq_str v "last_month"
           then "WHERE created_at >= NOW() - INTERVAL '1 month'"
           else if scalar_eq_str v "today"
           then "WHERE DATE(created_at) = CURRENT_DATE"
           else ""
       | None => ""
       end.
Proof.
  unfold select_where_clause, obj_contains, obj_item, dict_contains, dict_item.
  cbn [bind]. destruct (dict_lookup d "time_period") as [v|]; cbn [bind].
  - destruct (scalar_eq_str v "last_week"); [reflexivity|].
    destruct (scalar_eq_str v "last_month"); [reflexivity|].
    destruct (scalar_eq_str v "today"); reflexivity.
  - reflexivity.
Qed.

Lemma count_where_clause_cases (d : dict scalar) :
  count_where_clause (ODict d) =
    Ok match dict_lookup d "time_period" with
       | Some v =>
           if scalar_eq_str v "last_week"
           then "WHERE created_at >= NOW() - INTERVAL '7 days'"
           else ""
       | None => ""
       end.
Proof.
  unfold count_where_clause, obj_contains, obj_item, dict_contains, dict_item.
  cbn [bind]. destruct (dict_lookup d "time_period") as [v|]; cbn [bind].
  - destruct (scalar_eq_str v "last_week"); reflexivity.
  - reflexivity.
Qed.

(** The [select_data] branch renders its template with the table, the
    filter and two empty clauses, when the table can be converted. *)
Lemma select_query (d : dict scalar) (w t : string) :
  select_where_clause (ODict d) = Ok w ->
  py_format (table_of d) = Ok t ->
  _generate_sql_with_templates (OStr "select_data") (ODict d) =
    Ok ("SELECT * FROM " ++ t ++ " " ++ w ++ "  ").
Proof.
  intros Hw Ht. unfold _generate_sql_with_templates.
  cbn [obj_get bind OStr obj_eq_str scalar_eq_str String.eqb Ascii.eqb Bool.eqb].
  rewrite Hw. fold (table_of d). cbn [bind]. unfold format.
  change (dict_item sql_templates "select")
    with (Ok (A := string)
            "SELECT {columns} FROM {table} {where} {order_by} {limit}").
  cbn [bind].
  rewrite (format_go_rendered _
             [ ("columns", PStr "*"); ("table", PStr t); ("where", PStr w);
               ("order_by", PStr ""); ("limit", PStr "") ]).
  - vm_compute. reflexivity.
  - intros k. cbn [dict_lookup].
    destruct (String.eqb "columns" k); [reflexivity|].
    destruct (String.eqb "table" k); [|reflexivity].
    cbn [option_map]. now rewrite Ht.
Qed.

Lemma count_query (d : dict scalar) (w t : string) :
  count_where_clause (ODict d) = Ok w ->
  py_format (table_of d) = Ok t ->
  _generate_sql_with_templates (OStr "count_data") (ODict d) =
    Ok ("SELECT COUNT(*) FROM " ++ t ++ " " ++ w).
Proof.
  intros Hw Ht. unfold _generate_sql_with_templates.
  cbn [obj_get bind OStr obj_eq_str scalar_eq_str String.eqb Ascii.eqb Bool.eqb].
  rewrite Hw. fold (table_of d). cbn [bind]. unfold format.
  change (dict_item sql_templates "count")
    with (Ok (A := string) "SELECT COUNT(*) FROM {table} {where}").
  cbn [bind].
  rewrite (format_go_rendered _ [ ("table", PStr t); ("where", PStr w) ]).
  - transitivity (Ok ("SELECT COUNT(*) FROM " ++ t ++ " " ++ w ++ "")).
    + vm_compute. reflexivity.
    + now rewrite append_empty_r.
  - intros k. cbn [dict_lookup].
    destruct (String.eqb "table" k); [|reflexivity].
    cbn [option_map]. now rewrite Ht.
Qed.

Lemma default_query (intent : obj) (d : dict scalar) (t : string) :
  intent <> OStr "select_data" -> intent <> OStr "count_data" ->
  py_format (table_of d) = Ok t ->
  _generate_sql_with_templates intent (ODict d) =
    Ok ("SELECT * FROM " ++ t ++ " LIMIT 10").
Proof.
  intros Hs Hc Ht. unfold _generate_sql_with_templates. cbn [obj_get bind].
  rewrite (obj_eq_str_false _ _ Hs), (obj_eq_str_false _ _ Hc).
  fold (table_of d). now rewrite Ht.
Qed.

Lemma templates_need_dict (intent entities : obj) :
  (forall d, entities <> ODict d) ->
  _generate_sql_with_templates intent entities = Raise AttributeError.
Proof.
  intros H. destruct entities as [v|q|d]; try reflexivity.
  now destruct (H d).
Qed.

Lemma obj_str_dec (o : obj) (s : string) : o = OStr s \/ o <> OStr s.
Proof.
  destruct (obj_eq_str o s) eqn:E.
  - left. now apply obj_eq_str_true.
  - right. intros H. apply obj_eq_str_true in H. congruence.
Qed.

Lemma table_of_int (d : dict scalar) (n : Z) :
  table_of d = PInt n <-> dict_lookup d "table" = Some (PInt n).
Proof.
  unfold table_of, dict_get.
  destruct (dict_lookup d "table") as [v|].
  - split; [now intros -> | now intros [= ->]].
  - split; intros H; discriminate H.
Qed.

(** When the table cannot be converted, no branch of the template
    strategy produces a statement. *)
Lemma templates_unformatted (intent : obj) (d : dict scalar) (e : exn) :
  py_format (table_of d) = Raise e ->
  _generate_sql_with_templates intent (ODict d) = Raise ValueError.
Proof.
  intros He. destruct (py_format_raise _ _ He) as [-> _].
  assert (Hk : py_format (table_of d) = py_format (PInt int_str_bound))
    by (rewrite He; reflexivity).
  unfold _generate_sql_with_templates. cbn [obj_get bind].
  fold (table_of d).
  destruct (obj_eq_str intent "select_data").
  - rewrite select_where_clause_cases. cbn [bind].
    set (w := match dict_lookup d "time_period" with
              | Some _ => _ | None => _ end).
    change (dict_item sql_templates "select")
      with (Ok (A := string)
              "SELECT {columns} FROM {table} {where} {order_by} {limit}").
    cbn [bind]. unfold format.
    rewrite (format_go_rendered _
               [ ("columns", PStr "*"); ("table", PInt int_str_bound);
                 ("where", PStr w); ("order_by", PStr "");
                 ("limit", PStr "") ]).
    + vm_compute. reflexivity.
    + intros k. cbn [dict_lookup].
      destruct (String.eqb "columns" k); [reflexivity|].
      destruct (String.eqb "table" k); [|reflexivity].
      cbn [option_map]. now rewrite Hk.
  - destruct (obj_eq_str intent "count_data").
    + rewrite count_where_clause_cases. cbn [bind].
      set (w := match dict_lookup d "time_period" with
                | Some _ => _ | None => _ end).
      change (dict_item sql_templates "count")
        with (Ok (A := string) "SELECT COUNT(*) FROM {table} {where}").
      cbn [bind]. unfold format.
      rewrite (format_go_rendered _
                 [ ("table", PInt int_str_bound); ("where", PStr w) ]).
      * vm_compute. reflexivity.
      * intros k. cbn [dict_lookup].
        destruct (String.eqb "table" k); [|reflexivity].
        cbn [option_map]. now rewrite Hk.
    + now rewrite He.
Qed.

(** Whatever the intent, the template strategy on a dictionary yields a
    statement that starts with the keyword SELECT and a space, or, when
    the table cannot be converted, raises [ValueError]. *)
Lemma templates_outcome (intent : obj) (d : dict scalar) :
  (exists t rest,
      py_format (table_of d) = Ok t
      /\ _generate_sql_with_templates intent (ODict d)
         = Ok ("SELECT " ++ rest))
  \/ (py_format (table_of d) = Raise ValueError
      /\ _generate_sql_with_templates intent (ODict d) = Raise ValueError).
Proof.
  destruct (py_format (table_of d)) as [t | e] eqn:Ht.
  - left. exists t.
    destruct (obj_str_dec intent "select_data") as [-> | Hs].
    + rewrite (select_query d _ t (select_where_clause_cases d) Ht).
      eexists. split; reflexivity.
    + destruct (obj_str_dec intent "count_data") as [-> | Hc].
      * rewrite (count_query d _ t (count_where_clause_cases d) Ht).
        eexists. split; reflexivity.
      * rewrite (default_query intent d t Hs Hc Ht).
        eexists. split; reflexivity.
  - right. destruct (py_format_raise _ _ Ht) as [-> _].
    split; [reflexivity|]. now apply (templates_unformatted intent d ValueError).
Qed.

(** On entities whose table is a string, as the local pipeline produces
    them, the template strategy yields a statement. *)
Lemma templates_select_shape (intent : obj) (d : dict scalar)
    (table : string) :
  table_of d = PStr table ->
  exists rest, _generate_sql_with_templates intent (ODict d)
               = Ok ("SELECT " ++ rest).
Proof.
  intros Ht.
  destruct (templates_outcome intent d) as [[t [rest [_ H]]] | [Hr _]].
  - now exists rest.
  - rewrite Ht in Hr. discriminate Hr.
Qed.

Lemma first_token_select (rest : string) :
  first_token ("SELECT " ++ rest) = "SELECT".
Proof. reflexivity. Qed.

(** C1: with no generative backend configured ([gemini_model] is
    [None]), [generate_sql] returns, for every NLU result (any intent, any
    entities), a non-empty string whose first whitespace-delimited token,
    uppercased, is one of SELECT, INSERT, UPDATE, DELETE; when the body of
    its [try] raises, it returns the constant fallback query [SELECT 1].
    The body raises exactly when the entities value is not a dictionary,
    or is one whose table is an integer that cannot be converted to text
    (of more than 4300 digits). *)
Theorem generate_sql_templates_statement
    (self : NLUProcessor) (nlu_result : dict obj) :
  gemini_model self = IsNone ->
  let query := generate_sql self nlu_result in
  query <> ""
  /\ In (upper (first_token query)) statement_kinds
  /\ (forall e, generate_sql_body self nlu_result = Raise e ->
      query = "SELECT 1")
  /\ ((exists e, generate_sql_body self nlu_result = Raise e) <->
      (forall d, dict_get nlu_result "entities" (ODict []) <> ODict d)
      \/ exists d n,
           dict_get nlu_result "entities" (ODict []) = ODict d
           /\ dict_lookup d "table" = Some (PInt n)
           /\ (int_str_bound <= Z.abs n)%Z).
Proof.
  intros Hg query. unfold query, generate_sql, generate_sql_body.
  rewrite Hg.
  set (intent := dict_get nlu_result "intent" (OStr "unknown")).
  destruct (dict_get nlu_result "entities" (ODict [])) as [v|q|d] eqn:He.
  1, 2: (cbn; split; [discriminate|]; split; [now left|];
         split; [reflexivity|]; split;
         [ intros _; left; intros d; discriminate
         | intros _; exists AttributeError; reflexivity ]).
  destruct (templates_outcome intent d) as [[t [rest [Ht ->]]] | [Ht ->]].
  - split; [discriminate|]. split; [rewrite first_token_select; now left|].
    split; [discriminate|]. split.
    + intros [e He']. discriminate He'.
    + intros [H | [d' [n [[= <-] [Hn Hlong]]]]]; [now destruct (H d)|].
      apply table_of_int in Hn. rewrite Hn in Ht.
      rewrite (py_format_overlong n Hlong) in Ht. discriminate Ht.
  - split; [discriminate|]. split; [now left|]. split; [reflexivity|].
    split; [|intros _; now exists ValueError].
    intros _. right. destruct (py_format_raise _ _ Ht) as [_ [n [Hn Hlong]]].
    exists d, n. split; [reflexivity|].
    split; [now apply table_of_int | exact Hlong].
Qed.

Lemma generate_sql_templates_statement_witness :
  gemini_model local_processor = IsNone
  /\ generate_sql local_processor
       [("intent", OStr "delete_data"); ("entities", OScalar PNone)]
     = "SELECT 1"
  /\ generate_sql local_processor
       [("intent", OStr "count_data");
        ("entities", ODict [("table", PStr "users")])] <> "".
Proof.
  split; [reflexivity|]. split.
  - apply (generate_sql_templates_statement local_processor
             [("intent", OStr "delete_data"); ("entities", OScalar PNone)]
             eq_refl) with (e := AttributeError).
    reflexivity.
  - apply (generate_sql_templates_statement local_processor
             [("intent", OStr "count_data");
              ("entities", ODict [("table", PStr "users")])] eq_refl).
Defined.

(** C4: for every intent other than select_data and count_data (unknown,
    insert_data, update_data, delete_data among them) and every entity
    map, the template strategy returns exactly
    [SELECT * FROM <table> LIMIT 10], where <table> is the text of the
    table entity, or unknown_table when there is none. The table entity
    of an entity map is a string, which is its own text; the equation
    holds as well for any other value that has a text. And for every
    intent, a statement of the template strategy begins with the token
    SELECT, never with INSERT, UPDATE or DELETE; the strategy produces
    one exactly when the table has a text (the one value without a text
    is an integer of more than 4300 digits, on which it raises). *)
Theorem templates_other_intents_bounded_read
    (intent : obj) (entities : dict scalar) :
  intent <> OStr "select_data" -> intent <> OStr "count_data" ->
  (forall name,
      dict_lookup entities "table" = Some (PStr name) ->
      _generate_sql_with_templates intent (ODict entities)
      = Ok ("SELECT * FROM " ++ name ++ " LIMIT 10"))
  /\ (dict_lookup entities "table" = None ->
      _generate_sql_with_templates intent (ODict entities)
      = Ok "SELECT * FROM unknown_table LIMIT 10")
  /\ (forall value table,
        dict_lookup entities "table" = Some value ->
        py_format value = Ok table ->
        _generate_sql_with_templates intent (ODict entities)
        = Ok ("SELECT * FROM " ++ table ++ " LIMIT 10"))
  /\ (forall (any_intent : obj) (query : string),
        _generate_sql_with_templates any_intent (ODict entities) = Ok query ->
        first_token query = "SELECT"
        /\ ~ In (upper (first_token query)) ["INSERT"; "UPDATE"; "DELETE"])
  /\ (forall any_intent : obj,
        (exists query,
            _generate_sql_with_templates any_intent (ODict entities)
            = Ok query)
        <-> ~ exists n, dict_lookup entities "table" = Some (PInt n)
                        /\ (int_str_bound <= Z.abs n)%Z).
Proof.
  intros Hs Hc.
  assert (Hvalue : forall value table,
             dict_lookup entities "table" = Some value ->
             py_format value = Ok table ->
             _generate_sql_with_templates intent (ODict entities)
             = Ok ("SELECT * FROM " ++ table ++ " LIMIT 10")).
  { intros value table Hv Ht. apply (default_query intent entities table Hs Hc).
    unfold table_of, dict_get. now rewrite Hv. }
  split; [|split; [|split; [exact Hvalue|split]]].
  - intros name Hn. apply (Hvalue (PStr name) name Hn). reflexivity.
  - intros Hn.
    apply (default_query intent entities "unknown_table" Hs Hc).
    unfold table_of, dict_get. now rewrite Hn.
  - intros any_intent query Hq.
    destruct (templates_outcome any_intent entities)
      as [[t [rest [_ H]]] | [_ H]]; rewrite H in Hq; [|discriminate Hq].
    injection Hq as <-. split; [reflexivity|]. cbn. intuition discriminate.
  - intros any_intent. split.
    + intros [query Hq] [n [Hn Hlong]].
      apply table_of_int in Hn.
      rewrite (templates_unformatted any_intent entities ValueError) in Hq;
        [discriminate Hq|].
      rewrite Hn. now apply py_format_overlong.
    + intros Hno.
      destruct (templates_outcome any_intent entities)
        as [[t [rest [_ H]]] | [Hr _]]; [eexists; exact H|].
      destruct (py_format_raise _ _ Hr) as [_ [n [Hn Hlong]]].
      destruct Hno. exists n. split; [now apply table_of_int | exact Hlong].
Qed.

Lemma templates_other_intents_bounded_read_witness :
  OStr "delete_data" <> OStr "select_data"
  /\ OStr "delete_data" <> OStr "count_data"
  /\ _generate_sql_with_templates (OStr "delete_data")
       (ODict [("table", PStr "users")]) = Ok "SELECT * FROM users LIMIT 10"
  /\ _generate_sql_with_templates (OStr "unknown") (ODict [])
     = Ok "SELECT * FROM unknown_table LIMIT 10".
Proof.
  split; [discriminate|]. split; [discriminate|]. split.
  - destruct (templates_other_intents_bounded_read (OStr "delete_data")
                [("table", PStr "users")]) as [H _]; try discriminate.
    apply (H "users"). reflexivity.
  - destruct (templates_other_intents_bounded_read (OStr "unknown") [])
      as [_ [H _]]; try discriminate.
    apply H. reflexivity.
Defined.

(** C6: in the template strategy the filter of a select_data query is
    [created_at >= NOW() - INTERVAL '7 days'] for last_week,
    [created_at >= NOW() - INTERVAL '1 month'] for last_month and
    [DATE(created_at) = CURRENT_DATE] for today (each after the keyword
    WHERE); yesterday, this_week, this_month, any other value and an
    absent time_period give no filter. For count_data only last_week gives
    a filter; every other value, and an absent time_period, gives none.
    The filter is the one the query carries, after the text of the table
    (a string is its own text). *)
Theorem time_filter_mapping (entities : dict scalar) :
  let period := dict_lookup entities "time_period" in
  (exists w,
      select_where_clause (ODict entities) = Ok w
      /\ (forall table,
            py_format (table_of entities) = Ok table ->
            _generate_sql_with_templates (OStr "select_data") (ODict entities)
            = Ok ("SELECT * FROM " ++ table ++ " " ++ w ++ "  "))
      /\ (period = Some (PStr "last_week") ->
          w = "WHERE created_at >= NOW() - INTERVAL '7 days'")
      /\ (period = Some (PStr "last_month") ->
          w = "WHERE created_at >= NOW() - INTERVAL '1 month'")
      /\ (period = Some (PStr "today") ->
          w = "WHERE DATE(created_at) = CURRENT_DATE")
      /\ (period = Some (PStr "yesterday") \/ period = Some (PStr "this_week")
          \/ period = Some (PStr "this_month") \/ period = None -> w = "")
      /\ (forall v, period = Some v -> v <> PStr "last_week" ->
                    v <> PStr "last_month" -> v <> PStr "today" -> w = ""))
  /\ (exists w,
      count_where_clause (ODict entities) = Ok w
      /\ (forall table,
            py_format (table_of entities) = Ok table ->
            _generate_sql_with_templates (OStr "count_data") (ODict entities)
            = Ok ("SELECT COUNT(*) FROM " ++ table ++ " " ++ w))
      /\ (period = Some (PStr "last_week") ->
          w = "WHERE created_at >= NOW() - INTERVAL '7 days'")
      /\ (period <> Some (PStr "last_week") -> w = "")).
Proof.
  intros period. split.
  - eexists. split; [apply select_where_clause_cases|].
    split; [intros table Ht;
            apply (select_query _ _ _ (select_where_clause_cases _) Ht)|].
    fold period.
    assert (Hother : forall v, period = Some v -> v <> PStr "last_week" ->
              v <> PStr "last_month" -> v <> PStr "today" ->
              match period with
              | Some v =>
                  if scalar_eq_str v "last_week"
                  then "WHERE created_at >= NOW() - INTERVAL '7 days'"
                  else if scalar_eq_str v "last_month"
                  then "WHERE created_at >= NOW() - INTERVAL '1 month'"
                  else if scalar_eq_str v "today"
                  then "WHERE DATE(created_at) = CURRENT_DATE"
                  else ""
              | None => ""
              end = "").
    { intros v -> H1 H2 H3.
      destruct (scalar_eq_str v "last_week") eqn:E1;
        [now apply scalar_eq_str_true in E1|].
      destruct (scalar_eq_str v "last_month") eqn:E2;
        [now apply scalar_eq_str_true in E2|].
      destruct (scalar_eq_str v "today") eqn:E3;
        [now apply scalar_eq_str_true in E3|].
      reflexivity. }
    repeat split; try (intros ->; reflexivity); [|exact Hother].
    intros [-> | [-> | [-> | ->]]]; reflexivity.
  - eexists. split; [apply count_where_clause_cases|].
    split; [intros table Ht;
            apply (count_query _ _ _ (count_where_clause_cases _) Ht)|].
    fold period. split; [intros ->; reflexivity|].
    intros Hne. destruct period as [v|]; [|reflexivity].
    destruct (scalar_eq_str v "last_week") eqn:E; [|reflexivity].
    apply scalar_eq_str_true in E. now subst v.
Qed.

Lemma time_filter_mapping_witness :
  py_format (table_of [ ("table", PStr "orders");
                        ("time_period", PStr "last_month") ]) = Ok "orders"
  /\ _generate_sql_with_templates (OStr "select_data")
       (ODict [ ("table", PStr "orders"); ("time_period", PStr "last_month") ])
     = Ok "SELECT * FROM orders WHERE created_at >= NOW() - INTERVAL '1 month'  "
  /\ _generate_sql_with_templates (OStr "count_data")
       (ODict [ ("table", PStr "orders"); ("time_period", PStr "last_month") ])
     = Ok "SELECT COUNT(*) FROM orders ".
Proof.
  split; [reflexivity|].
  destruct (time_filter_mapping
              [ ("table", PStr "orders"); ("time_period", PStr "last_month") ])
    as [[w [_ [Hselect [_ [Hmonth _]]]]] [w' [_ [Hcount [_ Hother]]]]].
  split.
  - rewrite (Hselect "orders" eq_refl), (Hmonth eq_refl). reflexivity.
  - rewrite (Hcount "orders" eq_refl), Hother; [reflexivity | discriminate].
Defined.

(* ===================================================================== *)
(** ** Missing keys in the NLU result *)
(* ===================================================================== *)

Lemma dict_lookup_set {V : Type} (d : dict V) (k k' : string) (v : V) :
  dict_lookup (dict_set d k v) k' =
    if String.eqb k k' then Some v else dict_lookup d k'.
Proof.
  induction d as [|[k0 v0] d IH]; simpl.
  - reflexivity.
  - destruct (String.eqb k0 k) eqn:E0; simpl.
    + apply String.eqb_eq in E0. subst k0.
      now destruct (String.eqb k k').
    + rewrite IH. destruct (String.eqb k0 k') eqn:E1; [|reflexivity].
      apply String.eqb_eq in E1. subst k0.
      now rewrite String.eqb_sym, E0.
Qed.

Lemma dict_get_set_default {V : Type} (d : dict V) (k : string) (v : V) :
  dict_lookup d k = None ->
  dict_get (dict_set d k v) k v = dict_get d k v.
Proof.
  intros Hk. unfold dict_get. rewrite dict_lookup_set, String.eqb_refl.
  now rewrite Hk.
Qed.

Lemma dict_get_set_other {V : Type} (d : dict V) (k k' : string)
    (v default : V) :
  k <> k' ->
  dict_get (dict_set d k v) k' default = dict_get d k' default.
Proof.
  intros Hne. unfold dict_get. rewrite dict_lookup_set.
  apply String.eqb_neq in Hne. now rewrite Hne.
Qed.

(** C10, as stated, fails: a dictionary that lacks only the "entities"
    key keeps its own intent, so the query need not be the bounded read. *)
Lemma generate_sql_missing_entities_keeps_intent :
  dict_lookup count_without_entities "entities" = None
  /\ generate_sql local_processor count_without_entities
     = "SELECT COUNT(*) FROM unknown_table "
  /\ generate_sql local_processor count_without_entities
     <> "SELECT * FROM unknown_table LIMIT 10".
Proof. repeat split. discriminate. Qed.

(** C10, amended: with no generative backend configured, [generate_sql]
    on a dictionary that lacks the "intent" key behaves as with intent
    "unknown", and on one that lacks the "entities" key as with an empty
    entity map, and then the body of its [try] does not raise. With both
    keys missing the query is [SELECT * FROM unknown_table LIMIT 10]; with
    only "intent" missing it is [SELECT * FROM <table> LIMIT 10] for the
    text of the table of the entities given, when that table has a text
    (as a string has; an integer of more than 4300 digits has none); with
    only "entities" missing it is the template of the intent given, on
    unknown_table. *)
Theorem generate_sql_missing_keys
    (self : NLUProcessor) (nlu_result : dict obj) :
  gemini_model self = IsNone ->
  let no_intent := dict_lookup nlu_result "intent" = None in
  let no_entities := dict_lookup nlu_result "entities" = None in
  (no_intent ->
     generate_sql self nlu_result =
     generate_sql self (dict_set nlu_result "intent" (OStr "unknown")))
  /\ (no_entities ->
     generate_sql self nlu_result =
     generate_sql self (dict_set nlu_result "entities" (ODict []))
     /\ exists query, generate_sql_body self nlu_result = Ok query)
  /\ (no_intent -> no_entities ->
     generate_sql_body self nlu_result =
     Ok "SELECT * FROM unknown_table LIMIT 10")
  /\ (no_intent -> forall d table,
     dict_lookup nlu_result "entities" = Some (ODict d) ->
     py_format (table_of d) = Ok table ->
     generate_sql_body self nlu_result =
     Ok ("SELECT * FROM " ++ table ++ " LIMIT 10"))
  /\ (no_entities -> forall intent,
     dict_lookup nlu_result "intent" = Some intent ->
     generate_sql_body self nlu_result =
     _generate_sql_with_templates intent (ODict [])).
Proof.
  intros Hg no_intent no_entities.
  unfold generate_sql, generate_sql_body. rewrite Hg.
  split; [|split; [|split; [|split]]].
  - intros Hi.
    rewrite (dict_get_set_default nlu_result "intent" (OStr "unknown") Hi).
    rewrite dict_get_set_other by discriminate.
    reflexivity.
  - intros He. split.
    + rewrite (dict_get_set_default nlu_result "entities" (ODict []) He).
      rewrite dict_get_set_other by discriminate.
      reflexivity.
    + unfold dict_get at 2. rewrite He.
      destruct (templates_select_shape
                  (dict_get nlu_result "intent" (OStr "unknown")) []
                  "unknown_table" eq_refl)
        as [rest ->].
      now eexists.
  - intros Hi He. unfold dict_get. rewrite Hi, He. reflexivity.
  - intros Hi d table Hd Ht. unfold dict_get. rewrite Hi, Hd.
    apply default_query; [discriminate | discriminate | exact Ht].
  - intros He intent Hint. unfold dict_get. rewrite He, Hint. reflexivity.
Qed.

Lemma generate_sql_missing_keys_witness :
  gemini_model local_processor = IsNone
  /\ generate_sql_body local_processor [("original_text", OStr "hello")]
     = Ok "SELECT * FROM unknown_table LIMIT 10".
Proof.
  split; [reflexivity|].
  apply (generate_sql_missing_keys local_processor
           [("original_text", OStr "hello")] eq_refl); reflexivity.
Defined.

(* ===================================================================== *)
(** ** The response summarizer *)
(* ===================================================================== *)

(** C3, as stated, fails: the first row of a non-empty result that has
    no [count] field is reported as a count of 0, not as "could not
    count". *)
Lemma count_summary_row_without_count :
  dict_lookup [("affected_rows", PInt 3)] "count" = None
  /\ generate_response [("intent", OStr "count_data")]
       (VList [ODict [("affected_rows", PInt 3)]]) = "I found 0 records."
  /\ generate_response [("intent", OStr "count_data")]
       (VList [ODict [("affected_rows", PInt 3)]])
     <> "I couldn't count the records.".
Proof. repeat split. discriminate. Qed.

(** C3, amended: for intent count_data the summarizer reports the count
    carried by the first row of a non-empty result list when that row has
    a [count] field ([{"count": 7}] gives a message reporting 7), for
    every count that has a text; it reports "could not count" when the
    list is empty or the result is not a list; and when the first row has
    no [count] field it reports a count of 0. The one count without a
    text is an integer of more than 4300 digits: its conversion raises
    and the answer is the generic "Query completed.". *)
Theorem count_summary (nlu_result : dict obj) :
  dict_get nlu_result "intent" (OStr "unknown") = OStr "count_data" ->
  (forall row rest count text,
      dict_lookup row "count" = Some count ->
      py_format count = Ok text ->
      generate_response nlu_result (VList (ODict row :: rest))
      = "I found " ++ text ++ " records.")
  /\ (forall row rest n,
        dict_lookup row "count" = Some (PInt n) ->
        (Z.abs n < int_str_bound)%Z ->
        generate_response nlu_result (VList (ODict row :: rest))
        = "I found " ++ py_str (PInt n) ++ " records.")
  /\ (forall row rest n,
        dict_lookup row "count" = Some (PInt n) ->
        (int_str_bound <= Z.abs n)%Z ->
        generate_response nlu_result (VList (ODict row :: rest))
        = "Query completed.")
  /\ generate_response nlu_result (VList [ODict [("count", PInt 7)]])
     = "I found 7 records."
  /\ generate_response nlu_result (VList [])
     = "I couldn't count the records."
  /\ (forall o, generate_response nlu_result (VObj o)
                = "I couldn't count the records.")
  /\ (forall row rest,
      dict_lookup row "count" = None ->
      generate_response nlu_result (VList (ODict row :: rest))
      = "I found 0 records.").
Proof.
  intros Hi. unfold generate_response, generate_response_body.
  rewrite Hi. cbn [OStr obj_eq_str scalar_eq_str].
  replace (String.eqb "count_data" "count_data") with true by reflexivity.
  assert (Hrow : forall row rest count,
             dict_lookup row "count" = Some count ->
             match (if (0 <? py_len (ODict row :: rest))%Z
                    then row' <- list_first (ODict row :: rest) ;;
                         c <- obj_get row' "count" (PInt 0) ;;
                         c <- py_format c ;;
                         Ok ("I found " ++ c ++ " records.")
                    else Ok "I couldn't count the records.") with
             | Ok message => message
             | Raise _ => "Query completed."
             end
             = match py_format count with
               | Ok text => "I found " ++ text ++ " records."
               | Raise _ => "Query completed."
               end).
  { intros row rest count Hc.
    replace (0 <? py_len (ODict row :: rest))%Z with true
      by (unfold py_len; cbn [List.length]; symmetry; apply Z.ltb_lt; lia).
    cbn [list_first bind obj_get]. unfold dict_get. rewrite Hc.
    now destruct (py_format count). }
  split; [|split; [|split; [|split; [|split; [|split]]]]].
  - intros row rest count text Hc Ht. rewrite (Hrow row rest count Hc).
    now rewrite Ht.
  - intros row rest n Hc Hn. rewrite (Hrow row rest (PInt n) Hc).
    now rewrite (py_format_int n Hn).
  - intros row rest n Hc Hn. rewrite (Hrow row rest (PInt n) Hc).
    now rewrite (py_format_overlong n Hn).
  - reflexivity.
  - reflexivity.
  - reflexivity.
  - intros row rest Hc.
    replace (0 <? py_len (ODict row :: rest))%Z with true
      by (unfold py_len; cbn [List.length]; symmetry; apply Z.ltb_lt; lia).
    cbn [list_first bind obj_get]. unfold dict_get. now rewrite Hc.
Qed.

Lemma count_summary_witness :
  dict_get [("intent", OStr "count_data")] "intent" (OStr "unknown")
  = OStr "count_data"
  /\ generate_response [("intent", OStr "count_data")]
       (VList [ODict [("count", PInt 7)]]) = "I found 7 records."
  /\ generate_response [("intent", OStr "count_data")] (VList [])
     = "I couldn't count the records.".
Proof.
  split; [reflexivity|].
  split;
    apply (count_summary [("intent", OStr "count_data")] eq_refl).
Defined.

(* ===================================================================== *)
(** ** The scenarios of the specification *)
(* ===================================================================== *)

(** C2, as stated, fails: "how many" is also a trigger phrase of
    select_data, which is tried first, and the count template keeps the
    space that precedes its empty filter. *)
Lemma how_many_customers_not_count :
  _process_with_patterns how_many_customers =
    Ok [ ("intent", OStr "select_data");
         ("confidence", OFloat 0.8%Q);
         ("entities", ODict []);
         ("original_text", OStr how_many_customers) ]
  /\ generate_sql local_processor
       (process_text local_processor how_many_customers)
     = "SELECT * FROM unknown_table   "
  /\ determine_intent (lower how_many_customers) <> ("count_data", 0.8%Q)
  /\ _generate_sql_with_templates (OStr "count_data") (ODict [])
     <> Ok "SELECT COUNT(*) FROM unknown_table".
Proof. repeat split; discriminate. Qed.

(** C2, amended: for the text "How many customers do we have?" the local
    pipeline produces an empty entity map (none of the from/table/in
    patterns matches), and for intent count_data with an empty entity map
    the template query is "SELECT COUNT(*) FROM unknown_table" followed by
    one space. *)
Theorem how_many_customers_entities_and_count_query :
  map (fun pattern => Re.search pattern (lower how_many_customers))
      table_patterns = [None; None; None]
  /\ _extract_entities how_many_customers = Ok []
  /\ (exists intent confidence,
        _process_with_patterns how_many_customers =
          Ok [ ("intent", intent); ("confidence", confidence);
               ("entities", ODict []);
               ("original_text", OStr how_many_customers) ])
  /\ _generate_sql_with_templates (OStr "count_data") (ODict [])
     = Ok "SELECT COUNT(*) FROM unknown_table ".
Proof.
  split; [reflexivity|]. split; [reflexivity|]. split; [|reflexivity].
  now eexists _, _.
Qed.

(** C7, as stated, fails: the pattern for "from" captures the word that
    follows it, and the select template keeps two spaces after the
    filter. *)
Lemma orders_last_week_not_orders :
  _extract_entities orders_last_week
  <> Ok [ ("table", PStr "orders"); ("time_period", PStr "last_week") ]
  /\ generate_sql local_processor
       (process_text local_processor orders_last_week)
     <> "SELECT * FROM orders WHERE created_at >= NOW() - INTERVAL '7 days'"
  /\ _generate_sql_with_templates (OStr "select_data")
       (ODict [ ("table", PStr "orders"); ("time_period", PStr "last_week") ])
     <> Ok "SELECT * FROM orders WHERE created_at >= NOW() - INTERVAL '7 days'".
Proof. repeat split; discriminate. Qed.

(** C7, amended: for the text "Show me all orders from last week" the
    local pipeline extracts the entities table = "last" (the word after
    "from") and time_period = "last_week", classifies the intent as
    select_data, and the template strategy produces
    [SELECT * FROM last WHERE created_at >= NOW() - INTERVAL '7 days']
    followed by two spaces. *)
Theorem orders_last_week_pipeline :
  _extract_entities orders_last_week
  = Ok [ ("table", PStr "last"); ("time_period", PStr "last_week") ]
  /\ determine_intent (lower orders_last_week) = ("select_data", 0.8%Q)
  /\ process_text local_processor orders_last_week
     = [ ("intent", OStr "select_data");
         ("confidence", OFloat 0.8%Q);
         ("entities",
           ODict [ ("table", PStr "last"); ("time_period", PStr "last_week") ]);
         ("original_text", OStr orders_last_week) ]
  /\ generate_sql local_processor
       (process_text local_processor orders_last_week)
     = "SELECT * FROM last WHERE created_at >= NOW() - INTERVAL '7 days'  ".
Proof. repeat split. Qed.

(** C9: the table patterns are not word-bounded. The text "again today"
    has no word "from", "table" or "in", yet entity extraction returns a
    table entity: the "in" that ends "again" matches, and the word after
    it, "today", is captured. *)
Theorem table_patterns_not_word_bounded :
  _extract_entities "again today"
  = Ok [ ("table", PStr "today"); ("time_period", PStr "today") ]
  /\ exists text table : string,
    forallb (fun word =>
               negb (existsb (String.eqb (lower word)) ["from"; "table"; "in"]))
            (split text) = true
    /\ (exists entities,
          _extract_entities text = Ok entities
          /\ dict_lookup entities "table" = Some (PStr table))
    /\ exists (before after : string) (letter : ascii),
         lower text
         = before ++ String letter "in" ++ " " ++ table ++ after
         /\ is_word letter = true.
Proof.
  split; [reflexivity|].
  exists "again today", "today". split; [reflexivity|]. split.
  - eexists. split; reflexivity.
  - exists "ag", "", "a"%char. split; reflexivity.
Qed.

(* ===================================================================== *)
(** ** The understanding pipeline *)
(* ===================================================================== *)




(** A processor without Gemini key never gets a generative model. *)
Lemma setup_without_gemini_key (config : Config)
    (new_model : Exc GenerativeModel) (new_client : Exc SessionsClient) :
  configured (gemini_api_key config) = false ->
  gemini_model (_setup_services config new_model new_client) = IsNone.
Proof.
  intros H. unfold _setup_services. rewrite H.
  destruct (configured (dialogflow_project_id config)); [|reflexivity].
  now destruct new_client.
Qed.

Lemma dialogflow_request_refused (client : SessionsClient) (text : string) :
  _process_with_dialogflow client text = None.
Proof. reflexivity. Qed.


Lemma local_classifier_first_match_witness :
  determine_intent (lower total_number_of_users) = ("count_data", 0.8%Q).
Proof.
  destruct (local_classifier_first_match total_number_of_users)
    as [_ [Hfirst _]].
  apply (Hfirst (firstn 1 intent_patterns) "count_data"
           ["count"; "how many"; "total number"; "number of"]
           (skipn 2 intent_patterns)).
  - reflexivity.
  - intros n ts t [H | []] Ht Hocc. injection H as <- <-.
    apply occurs_in_spec in Hocc. revert Hocc.
    repeat (destruct Ht as [<- | Ht]; [discriminate|]). destruct Ht.
  - exists "total number". split; [right; right; now left|].
    apply occurs_in_spec. reflexivity.
Defined.

(* ===================================================================== *)
(** ** Further scenarios *)
(* ===================================================================== *)

(** An unrecognized text: intent unknown, confidence 0.5, and the bounded
    read as its query. *)
Example purple_elephant :
  process_text local_processor "xyz purple elephant"
  = unknown_result "xyz purple elephant"
  /\ generate_sql local_processor
       (process_text local_processor "xyz purple elephant")
     = "SELECT * FROM unknown_table LIMIT 10".
Proof. split; reflexivity. Qed.

(** The summary of a select_data result counts its rows. *)
Example select_summaries :
  generate_response [("intent", OStr "select_data")] (VList [])
  = "No records found."
  /\ generate_response [("intent", OStr "select_data")] (VList [ODict []])
     = "I found 1 record."
  /\ generate_response [("intent", OStr "select_data")]
       (VList [ODict []; ODict []; ODict []])
     = "I found 3 records."
  /\ generate_response [("intent", OStr "delete_data")] (VList [])
     = "Query executed successfully.".
Proof. repeat split. Qed.

(** The first integer literal of the text, in base 10; the table pattern
    for "table" is tried before the one for "in". *)
Example number_and_table :
  _extract_entities "Find 007 items in stock_2 of TABLE Parts this month"
  = Ok [ ("table", PStr "parts"); ("time_period", PStr "this_month");
         ("number", PInt 7) ].
Proof. reflexivity. Qed.

(** A generative model whose answer passes the keyword check is
    followed, after stripping; any other answer, or a failure, falls back
    to the templates. *)
Example gemini_answers :
  let nlu_result := process_text local_processor "remove old users" in
  let with_model (m : GenerativeModel) :=
    generate_sql {| gemini_model := Obj m; dialogflow_client := IsNone |}
      nlu_result in
  with_model (fun _ => Ok "  Delete FROM users WHERE old  ")
  = "Delete FROM users WHERE old"
  /\ with_model (fun _ => Ok "Here is your query: SELECT 1")
     = "SELECT * FROM unknown_table LIMIT 10"
  /\ with_model (fun _ => Raise ServiceError)
     = "SELECT * FROM unknown_table LIMIT 10".
Proof. repeat split. Qed.

(** A configured Dialogflow client is never asked: the understanding is
    the local one, whatever the agent would answer. *)
Example remote_answer_not_reached :
  process_text remote_processor "hello" = unknown_result "hello"
  /\ process_text remote_processor orders_last_week
     = process_text local_processor orders_last_week.
Proof. split; reflexivity. Qed.

(** An integer of 4301 digits as the table or as the count: its
    conversion is refused, and the two fallbacks answer; the integer
    before it is converted. *)
Example overlong_integer :
  generate_sql local_processor
    [ ("intent", OStr "delete_data");
      ("entities", ODict [("table", PInt int_str_bound)]) ] = "SELECT 1"
  /\ generate_sql local_processor
       [ ("intent", OStr "delete_data");
         ("entities", ODict [("table", PInt (int_str_bound - 1))]) ]
     <> "SELECT 1"
  /\ generate_response [("intent", OStr "count_data")]
       (VList [ODict [("count", PInt (- int_str_bound))]])
     = "Query completed.".
Proof. split; [reflexivity|]. split; [discriminate | reflexivity]. Qed.

(** A processor whose attributes were never assigned answers every
    request with the two fallbacks. *)
Example unassigned_attributes :
  let self := {| gemini_model := Unset; dialogflow_client := Unset |} in
  process_text self orders_last_week = unknown_result orders_last_week
  /\ generate_sql self (process_text self orders_last_week) = "SELECT 1".
Proof. split; reflexivity. Qed.

(** A run of more digits than [int] converts makes entity extraction
    raise, and [process_text] then answers with the unknown result, although
    a trigger phrase occurs. *)
Example overlong_number :
  let text := "show me " ++ String.concat "" (repeat "1" 4301) in
  _extract_entities text = Raise ValueError
  /\ fst (determine_intent (lower text)) = "select_data"
  /\ process_text local_processor text = unknown_result text.
Proof. vm_compute. repeat split. Qed.

(* ===================================================================== *)
(** ** Captured groups *)
(* ===================================================================== *)

Lemma string_forall_app (P : ascii -> bool) (a b : string) :
  string_forall P (a ++ b) = string_forall P a && string_forall P b.
Proof.
  induction a as [|c a IH]; simpl; [reflexivity|].
  now rewrite IH, andb_assoc.
Qed.

Lemma string_forall_occurs (P : ascii -> bool) (g s : string) :
  occurs g s -> string_forall P s = true -> string_forall P g = true.
Proof.
  intros [a [b ->]]. rewrite !string_forall_app, !andb_true_iff. tauto.
Qed.

Lemma length_app (a b : string) :
  String.length (a ++ b) = (String.length a + String.length b)%nat.
Proof. induction a as [|c a IH]; simpl; [reflexivity | now rewrite IH]. Qed.

Lemma app_assoc_string (a b c : string) : (a ++ b) ++ c = a ++ b ++ c.
Proof. induction a as [|x a IH]; simpl; [reflexivity | now rewrite IH]. Qed.

Lemma occurs_length (g s : string) :
  occurs g s -> (String.length g <= String.length s)%nat.
Proof.
  intros [a [b ->]]. rewrite !length_app. lia.
Qed.

Lemma occurs_cons (g s : string) (c : ascii) :
  occurs g s -> occurs g (String c s).
Proof. intros [a [b ->]]. now exists (String c a), b. Qed.

Lemma group_loop_spec (a : Re.atom) (k : string -> bool) (s g : string) :
  Re.group_loop a k s = Some g ->
  g <> "" /\ string_forall (Re.atom_matches a) g = true
  /\ exists rest, s = g ++ rest.
Proof.
  revert g. induction s as [|c s IH]; intros g; simpl; [discriminate|].
  destruct (Re.atom_matches a c) eqn:Hc; [|discriminate].
  destruct (Re.group_loop a k s) as [g'|] eqn:Hg.
  - intros [= <-]. destruct (IH g' eq_refl) as [_ [Hall [rest ->]]].
    split; [discriminate|]. split.
    + simpl. now rewrite Hc, Hall.
    + now exists rest.
  - destruct (k s); [|discriminate]. intros [= <-].
    split; [discriminate|]. split.
    + simpl. now rewrite Hc.
    + now exists s.
Qed.

Lemma plus_loop_spec (a : Re.atom) (k : string -> option Re.groups)
    (s : string) (r : Re.groups) :
  Re.plus_loop a k s = Some r ->
  exists pre s', s = pre ++ s' /\ k s' = Some r.
Proof.
  induction s as [|c s IH]; simpl; [discriminate|].
  destruct (Re.atom_matches a c); [|discriminate].
  destruct (Re.plus_loop a k s) as [r'|] eqn:Hp.
  - intros [= <-]. destruct (IH eq_refl) as [pre [s' [-> Hk]]].
    now exists (String c pre), s'.
  - intros Hk. now exists (String c ""), s.
Qed.

(** The text of group 1 is a non-empty piece of the subject, made of
    characters of the class of a group of the pattern. *)
Lemma match_here_group (p : Re.regex) (s g : string) :
  Re.match_here p s = Some (Some g) ->
  g <> "" /\ occurs g s
  /\ exists a, In (Re.GroupPlus a) p
               /\ string_forall (Re.atom_matches a) g = true.
Proof.
  revert s. induction p as [|i p IH]; intros s; simpl; [discriminate|].
  destruct i as [a|a|a].
  - destruct s as [|c s]; [discriminate|].
    destruct (Re.atom_matches a c); [|discriminate]. intros H.
    destruct (IH s H) as [Hne [Hocc [b [Hin Hall]]]].
    split; [exact Hne|]. split; [now apply occurs_cons|].
    exists b. split; [now right | exact Hall].
  - intros H. apply plus_loop_spec in H. destruct H as [pre [s' [-> H]]].
    destruct (IH s' H) as [Hne [[x [y ->]] [b [Hin Hall]]]].
    split; [exact Hne|]. split.
    + exists (pre ++ x), y. now rewrite app_assoc_string.
    + exists b. split; [now right | exact Hall].
  - destruct (Re.group_loop a _ s) as [g'|] eqn:Hg; [|discriminate].
    simpl. intros [= <-]. apply group_loop_spec in Hg.
    destruct Hg as [Hne [Hall [rest ->]]].
    split; [exact Hne|]. split; [now exists "", rest|].
    exists a. split; [now left | exact Hall].
Qed.

(** A pattern with a group never matches without capturing. *)
Lemma match_here_has_group (p : Re.regex) (s : string) :
  has_group p = true -> Re.match_here p s <> Some None.
Proof.
  revert s. induction p as [|i p IH]; intros s; simpl; [discriminate|].
  destruct i as [a|a|a]; simpl; intros Hg.
  - destruct s as [|c s]; [discriminate|].
    destruct (Re.atom_matches a c); [now apply IH | discriminate].
  - intros H. apply plus_loop_spec in H. destruct H as [pre [s' [_ H]]].
    now apply (IH s' Hg).
  - now destruct (Re.group_loop a _ s).
Qed.

Lemma search_regex_spec (p : Re.regex) (s : string) (r : Re.groups) :
  Re.search_regex p s = Some r ->
  exists pre s', s = pre ++ s' /\ Re.match_here p s' = Some r.
Proof.
  induction s as [|c s IH]; cbn [Re.search_regex].
  - destruct (Re.match_here p "") as [r'|] eqn:H; [|discriminate].
    intros [= <-]. now exists "", "".
  - destruct (Re.match_here p (String c s)) as [r'|] eqn:H.
    + intros [= <-]. now exists "", (String c s).
    + intros Hs. destruct (IH Hs) as [pre [s' [-> Hm]]].
      now exists (String c pre), s'.
Qed.

(** What [re.search] gives for a pattern whose only group is [(\w+)] or
    [(\d+)]. *)
Lemma search_group (pattern : string) (p : Re.regex) (a : Re.atom)
    (s : string) (m : Re.groups) :
  Re.compile pattern = Some p -> has_group p = true ->
  (forall b, In (Re.GroupPlus b) p -> b = a) ->
  Re.search pattern s = Some m ->
  exists g, m = Some g /\ g <> "" /\ occurs g s
            /\ string_forall (Re.atom_matches a) g = true.
Proof.
  intros Hc Hg Honly. unfold Re.search. rewrite Hc. intros Hs.
  apply search_regex_spec in Hs. destruct Hs as [pre [s' [-> Hm]]].
  destruct m as [g|]; [|now destruct (match_here_has_group p s' Hg)].
  destruct (match_here_group p s' g Hm) as [Hne [[x [y ->]] [b [Hin Hall]]]].
  exists g. split; [reflexivity|]. split; [exact Hne|]. split.
  - exists (pre ++ x), y. now rewrite app_assoc_string.
  - now rewrite <- (Honly b Hin).
Qed.

Lemma table_search_group (pattern s : string) (m : Re.groups) :
  In pattern table_patterns -> Re.search pattern s = Some m ->
  exists g, m = Some g /\ g <> "" /\ occurs g s
            /\ string_forall is_word g = true.
Proof.
  intros Hin Hs.
  assert (H : exists p, Re.compile pattern = Some p /\ has_group p = true
                        /\ forall b, In (Re.GroupPlus b) p -> b = Re.Word).
  { simpl in Hin. destruct Hin as [<- | [<- | [<- | []]]];
      (eexists; split; [reflexivity|]; split; [reflexivity|];
       intros b Hb; simpl in Hb;
       repeat (destruct Hb as [Hb | Hb]; [try discriminate Hb|]);
       try (now injection Hb as <-); try contradiction). }
  destruct H as [p [Hc [Hg Honly]]].
  apply (search_group pattern p Re.Word s m Hc Hg Honly Hs).
Qed.

Lemma number_search_group (s : string) (m : Re.groups) :
  Re.search "(\d+)" s = Some m ->
  exists g, m = Some g /\ g <> "" /\ occurs g s
            /\ string_forall is_digit g = true.
Proof.
  apply (search_group "(\d+)" [Re.GroupPlus Re.Digit] Re.Digit);
    try reflexivity.
  intros b [Hb | []]. now injection Hb as <-.
Qed.

(* ===================================================================== *)
(** ** Entity extraction *)
(* ===================================================================== *)

Lemma char_lower_idempotent (c : ascii) :
  char_lower (char_lower c) = char_lower c.
Proof. destruct c as [[] [] [] [] [] [] [] []]; reflexivity. Qed.

Lemma lower_idempotent (s : string) : lower (lower s) = lower s.
Proof.
  induction s as [|c s IH]; simpl; [reflexivity|].
  now rewrite char_lower_idempotent, IH.
Qed.

Lemma lower_is_lowercase (s : string) :
  string_forall (fun c => Ascii.eqb (char_lower c) c) (lower s) = true.
Proof.
  induction s as [|c s IH]; simpl; [reflexivity|].
  now rewrite char_lower_idempotent, Ascii.eqb_refl, IH.
Qed.

Lemma lowercase_fixed (s : string) :
  string_forall (fun c => Ascii.eqb (char_lower c) c) s = true -> lower s = s.
Proof.
  induction s as [|c s IH]; simpl; [reflexivity|].
  rewrite andb_true_iff, Ascii.eqb_eq. intros [-> H]. now rewrite IH.
Qed.

Lemma extract_table_cases (text_lower : string) :
  extract_table table_patterns text_lower [] = Ok []
  \/ exists g, extract_table table_patterns text_lower []
               = Ok [("table", PStr g)]
               /\ g <> "" /\ occurs g text_lower
               /\ string_forall is_word g = true.
Proof.
  assert (Hstep : forall pattern m,
             In pattern table_patterns ->
             Re.search pattern text_lower = Some m ->
             exists g, (g' <- Re.group1 m ;;
                        Ok (dict_set ([] : dict scalar) "table" (PStr g')))
                       = Ok [("table", PStr g)]
                       /\ g <> "" /\ occurs g text_lower
                       /\ string_forall is_word g = true).
  { intros pattern m Hin Hs.
    destruct (table_search_group pattern text_lower m Hin Hs)
      as [g [-> H]].
    now exists g. }
  unfold table_patterns in *. cbn [extract_table].
  destruct (Re.search "from\s+(\w+)" text_lower) as [m|] eqn:H1.
  { right. apply (Hstep _ m (or_introl eq_refl) H1). }
  destruct (Re.search "table\s+(\w+)" text_lower) as [m|] eqn:H2.
  { right. apply (Hstep _ m (or_intror (or_introl eq_refl)) H2). }
  destruct (Re.search "in\s+(\w+)" text_lower) as [m|] eqn:H3.
  { right.
    apply (Hstep _ m (or_intror (or_intror (or_introl eq_refl))) H3). }
  now left.
Qed.

Lemma extract_time_cases (entries : dict string) (text_lower : string)
    (entities : dict scalar) :
  extract_time entries text_lower entities = entities
  \/ exists key, In key (map fst entries)
                 /\ extract_time entries text_lower entities
                    = dict_set entities "time_period" (PStr key).
Proof.
  induction entries as [|[key pattern] rest IH]; simpl; [now left|].
  destruct (Re.matched (Re.search pattern text_lower)).
  - right. exists key. split; [now left | reflexivity].
  - destruct IH as [-> | [k [Hin ->]]]; [now left|].
    right. exists k. split; [now right | reflexivity].
Qed.

Lemma int_go_nonnegative (g : string) (acc : Z) :
  string_forall is_digit g = true -> (0 <= acc)%Z -> (0 <= int_go g acc)%Z.
Proof.
  revert acc.
  induction g as [|c g IH]; intros acc; cbn [int_go string_forall]; [auto|].
  rewrite andb_true_iff. intros [Hc Hg] Hacc. apply IH; [exact Hg|].
  unfold is_digit, between in Hc. apply andb_true_iff in Hc.
  destruct Hc as [Hlo _]. apply N.leb_le in Hlo.
  unfold digit_value. lia.
Qed.

Lemma extract_number_cases (text : string) (entities : dict scalar) :
  extract_number text entities = Ok entities
  \/ (exists n, extract_number text entities
                = Ok (dict_set entities "number" (PInt n)) /\ (0 <= n)%Z)
  \/ (extract_number text entities = Raise ValueError
      /\ (int_max_str_digits < Z.of_nat (String.length text))%Z).
Proof.
  unfold extract_number.
  destruct (Re.search "(\d+)" text) as [m|] eqn:Hs; [|now left].
  right. destruct (number_search_group text m Hs) as [g [-> [_ [Hocc Hd]]]].
  cbn [Re.group1 bind]. unfold py_int.
  destruct (int_max_str_digits <? Z.of_nat (String.length g))%Z eqn:Hlen.
  - right. split; [reflexivity|]. apply Z.ltb_lt in Hlen.
    apply occurs_length in Hocc. lia.
  - left. exists (int_go g 0). split; [reflexivity|].
    apply int_go_nonnegative; [exact Hd | lia].
Qed.

Lemma extract_entities_spec (text : string) (entities : dict scalar) :
  _extract_entities text = Ok entities ->
  exists (table period : option string) (number : option Z),
    entities = (entry "table" (option_map PStr table)
                ++ entry "time_period" (option_map PStr period)
                ++ entry "number" (option_map PInt number))%list
    /\ (forall t, table = Some t ->
          t <> "" /\ string_forall is_word t = true /\ lower t = t
          /\ occurs t (lower text))
    /\ (forall p, period = Some p -> In p time_periods)
    /\ (forall n, number = Some n -> (0 <= n)%Z).
Proof.
  unfold _extract_entities.
  assert (Hperiod : forall e,
             exists period,
               extract_time time_patterns (lower text) e
               = match period with
                 | Some p => dict_set e "time_period" (PStr p)
                 | None => e
                 end
               /\ forall p, period = Some p -> In p time_periods).
  { intros e.
    destruct (extract_time_cases time_patterns (lower text) e)
      as [-> | [key [Hin ->]]].
    - exists None. split; [reflexivity | discriminate].
    - exists (Some key). split; [reflexivity|]. now intros p [= <-]. }
  assert (Hnumber : forall e out,
             extract_number text e = Ok out ->
             exists number,
               out = match number with
                     | Some n => dict_set e "number" (PInt n)
                     | None => e
                     end
               /\ forall n, number = Some n -> (0 <= n)%Z).
  { intros e out.
    destruct (extract_number_cases text e)
      as [-> | [[n [-> Hn]] | [-> _]]]; intros [= <-].
    - exists None. split; [reflexivity | discriminate].
    - exists (Some n). split; [reflexivity|]. now intros n' [= <-]. }
  destruct (extract_table_cases (lower text))
    as [-> | [g [-> [Hne [Hocc Hword]]]]]; cbn [bind]; intros Hout.
  - destruct (Hperiod []) as [period [Hp Hpin]]. rewrite Hp in Hout.
    destruct (Hnumber _ _ Hout) as [number [-> Hn]].
    exists None, period, number. split.
    + destruct period, number; reflexivity.
    + split; [discriminate|]. split; assumption.
  - destruct (Hperiod [("table", PStr g)]) as [period [Hp Hpin]].
    rewrite Hp in Hout.
    destruct (Hnumber _ _ Hout) as [number [-> Hn]].
    exists (Some g), period, number. split.
    + destruct period, number; reflexivity.
    + split; [|split; assumption].
      intros t [= <-]. split; [exact Hne|]. split; [exact Hword|].
      split; [|exact Hocc]. apply lowercase_fixed.
      apply (string_forall_occurs _ g (lower text) Hocc).
      apply lower_is_lowercase.
Qed.

(** X1: when entity extraction returns, the map it returns holds at most
    the keys table, time_period and number, in that order; the table is a
    non-empty lowercase run of word characters taken from the lowercased
    text, the time period is one of the six period names, and the number
    is a non-negative integer. *)
Theorem extracted_entities_shape (text : string) (entities : dict scalar) :
  _extract_entities text = Ok entities ->
  exists (table period : option string) (number : option Z),
    entities = (entry "table" (option_map PStr table)
                ++ entry "time_period" (option_map PStr period)
                ++ entry "number" (option_map PInt number))%list
    /\ (forall t, table = Some t ->
          t <> "" /\ string_forall is_word t = true /\ lower t = t
          /\ occurs t (lower text))
    /\ (forall p, period = Some p -> In p time_periods)
    /\ (forall n, number = Some n -> (0 <= n)%Z).
Proof. apply extract_entities_spec. Qed.

Lemma extracted_entities_shape_witness :
  _extract_entities "Find 007 items in stock_2 this week"
  = Ok [ ("table", PStr "stock_2"); ("time_period", PStr "this_week");
         ("number", PInt 7) ]
  /\ exists (table period : option string) (number : option Z),
       [ ("table", PStr "stock_2"); ("time_period", PStr "this_week");
         ("number", PInt 7) ]
       = (entry "table" (option_map PStr table)
          ++ entry "time_period" (option_map PStr period)
          ++ entry "number" (option_map PInt number))%list
       /\ (forall t, table = Some t ->
             t <> "" /\ string_forall is_word t = true /\ lower t = t
             /\ occurs t (lower "Find 007 items in stock_2 this week"))
       /\ (forall p, period = Some p -> In p time_periods)
       /\ (forall n, number = Some n -> (0 <= n)%Z).
Proof.
  split; [reflexivity|].
  apply (extracted_entities_shape "Find 007 items in stock_2 this week").
  reflexivity.
Defined.

Lemma extract_entities_outcomes (text : string) :
  (exists entities, _extract_entities text = Ok entities)
  \/ (_extract_entities text = Raise ValueError
      /\ (4300 < Z.of_nat (String.length text))%Z).
Proof.
  unfold _extract_entities.
  destruct (extract_table_cases (lower text)) as [-> | [g [-> _]]];
    cbn [bind];
    match goal with
    | |- context [extract_number text ?e] =>
        destruct (extract_number_cases text e)
          as [-> | [[n [-> _]] | [-> Hlen]]]
    end;
    try (left; now eexists); right; split; try reflexivity; exact Hlen.
Qed.

(** X2: entity extraction fails only by the [ValueError] of an integer
    literal too long to convert, which needs a text of more than 4300
    characters; on any shorter text it returns a map. *)
Theorem extraction_fails_only_on_overlong_text (text : string) :
  (forall e, _extract_entities text = Raise e ->
             e = ValueError
             /\ (4300 < Z.of_nat (String.length text))%Z)
  /\ ((Z.of_nat (String.length text) <= 4300)%Z ->
      exists entities, _extract_entities text = Ok entities).
Proof.
  pose proof (extract_entities_outcomes text) as H.
  split.
  - intros e He. destruct H as [[entities Hok] | [Hr Hlen]].
    + congruence.
    + split; [congruence | exact Hlen].
  - intros Hlen. destruct H as [Hok | [_ Hlong]]; [exact Hok | lia].
Qed.

Lemma extraction_fails_only_on_overlong_text_witness :
  (Z.of_nat (String.length "orders from 2024") <= 4300)%Z
  /\ exists entities, _extract_entities "orders from 2024" = Ok entities.
Proof.
  split; [vm_compute; discriminate|].
  apply (extraction_fails_only_on_overlong_text "orders from 2024").
  vm_compute. discriminate.
Defined.

(* ===================================================================== *)
(** ** The local pipeline, end to end *)
(* ===================================================================== *)

Lemma local_understanding (text : string) :
  (process_text local_processor text = unknown_result text
   /\ exists e, _extract_entities text = Raise e)
  \/ exists entities,
       _extract_entities text = Ok entities
       /\ process_text local_processor text
          = [ ("intent", OStr (fst (determine_intent (lower text))));
              ("confidence", OFloat (snd (determine_intent (lower text))));
              ("entities", ODict entities);
              ("original_text", OStr text) ].
Proof.
  unfold process_text, local_processor, dialogflow_client,
    _process_with_patterns.
  destruct (determine_intent (lower text)) as [intent confidence].
  destruct (_extract_entities text) as [entities | e]; cbn [bind fst snd].
  - right. now exists entities.
  - left. split; [reflexivity | now exists e].
Qed.

Lemma table_of_extracted (text : string) (entities : dict scalar) :
  _extract_entities text = Ok entities ->
  exists table, table_of entities = PStr table
                /\ table <> "" /\ string_forall is_word table = true.
Proof.
  intros H.
  destruct (extract_entities_spec text entities H)
    as [table [period [number [-> [Ht _]]]]].
  destruct table as [t|].
  - exists t. split; [reflexivity|].
    destruct (Ht t eq_refl) as [Hne [Hw _]]. now split.
  - exists "unknown_table". split.
    + now destruct period, number.
    + split; [discriminate | reflexivity].
Qed.

Lemma select_filter_listed (d : dict scalar) :
  exists w, select_where_clause (ODict d) = Ok w /\ In w time_filters.
Proof.
  rewrite select_where_clause_cases. eexists. split; [reflexivity|].
  unfold time_filters.
  destruct (dict_lookup d "time_period") as [v|]; [|now left].
  destruct (scalar_eq_str v "last_week"); [right; now left|].
  destruct (scalar_eq_str v "last_month"); [right; right; now left|].
  destruct (scalar_eq_str v "today"); [right; right; right; now left|].
  now left.
Qed.

Lemma count_filter_listed (d : dict scalar) :
  exists w, count_where_clause (ODict d) = Ok w /\ In w time_filters.
Proof.
  rewrite count_where_clause_cases. eexists. split; [reflexivity|].
  unfold time_filters.
  destruct (dict_lookup d "time_period") as [v|]; [|now left].
  destruct (scalar_eq_str v "last_week"); [right; now left | now left].
Qed.

(** The three shapes of a template query. *)
Lemma template_query_shapes (intent : obj) (d : dict scalar) (table : string) :
  table_of d = PStr table ->
  exists filter,
    In filter time_filters
    /\ (_generate_sql_with_templates intent (ODict d)
        = Ok ("SELECT * FROM " ++ table ++ " " ++ filter ++ "  ")
        \/ _generate_sql_with_templates intent (ODict d)
           = Ok ("SELECT COUNT(*) FROM " ++ table ++ " " ++ filter)
        \/ _generate_sql_with_templates intent (ODict d)
           = Ok ("SELECT * FROM " ++ table ++ " LIMIT 10")).
Proof.
  intros Ht.
  destruct (obj_str_dec intent "select_data") as [-> | Hs].
  - destruct (select_filter_listed d) as [w [Hw Hin]].
    exists w. split; [exact Hin|]. left.
    apply (select_query d w table Hw). now rewrite Ht.
  - destruct (obj_str_dec intent "count_data") as [-> | Hc].
    + destruct (count_filter_listed d) as [w [Hw Hin]].
      exists w. split; [exact Hin|]. right. left.
      apply (count_query d w table Hw). now rewrite Ht.
    + exists "". split; [now left|]. right. right.
      apply (default_query intent d table Hs Hc). now rewrite Ht.
Qed.

(** X3: with neither remote service configured, the query synthesized
    for any text has one of three shapes, a select, a count or a bounded
    read, in which the only part taken from the text is the table name,
    a non-empty run of word characters; the filter is one of the fixed
    filters or empty. *)
Theorem local_pipeline_query_shapes (text : string) :
  let query :=
    generate_sql local_processor (process_text local_processor text) in
  exists table filter : string,
    table <> "" /\ string_forall is_word table = true
    /\ In filter time_filters
    /\ (query = "SELECT * FROM " ++ table ++ " " ++ filter ++ "  "
        \/ query = "SELECT COUNT(*) FROM " ++ table ++ " " ++ filter
        \/ query = "SELECT * FROM " ++ table ++ " LIMIT 10").
Proof.
  intros query. unfold query.
  destruct (local_understanding text) as [[-> _] | [entities [He ->]]].
  - exists "unknown_table", "". split; [discriminate|].
    split; [reflexivity|]. split; [now left|]. right. right. reflexivity.
  - destruct (table_of_extracted text entities He) as [table [Ht [Hne Hw]]].
    destruct (template_query_shapes
                (OStr (fst (determine_intent (lower text)))) entities table Ht)
      as [filter [Hin Hq]].
    exists table, filter. split; [exact Hne|]. split; [exact Hw|].
    split; [exact Hin|].
    unfold generate_sql, generate_sql_body, local_processor, gemini_model.
    cbn [dict_get dict_lookup String.eqb Ascii.eqb Bool.eqb].
    destruct Hq as [-> | [-> | ->]]; [left | right; left | right; right];
      reflexivity.
Qed.

(* ===================================================================== *)
(** ** First match wins *)
(* ===================================================================== *)

Lemma extract_table_first (before after : list string) (pattern : string)
    (text_lower g : string) (entities : dict scalar) :
  (forall p, In p before -> Re.search p text_lower = None) ->
  Re.search pattern text_lower = Some (Some g) ->
  extract_table (before ++ pattern :: after)%list text_lower entities
  = Ok (dict_set entities "table" (PStr g)).
Proof.
  intros Hbefore Hhit. induction before as [|p before IH]; simpl.
  - now rewrite Hhit.
  - rewrite (Hbefore p (or_introl eq_refl)). apply IH.
    intros q Hq. apply Hbefore. now right.
Qed.

Lemma extract_table_none (patterns : list string) (text_lower : string)
    (entities : dict scalar) :
  (forall p, In p patterns -> Re.search p text_lower = None) ->
  extract_table patterns text_lower entities = Ok entities.
Proof.
  intros H. induction patterns as [|p ps IH]; simpl; [reflexivity|].
  rewrite (H p (or_introl eq_refl)). apply IH.
  intros q Hq. apply H. now right.
Qed.

Lemma extract_time_first (before after : dict string) (key pattern : string)
    (text_lower : string) (entities : dict scalar) :
  (forall k p, In (k, p) before ->
               Re.matched (Re.search p text_lower) = false) ->
  Re.matched (Re.search pattern text_lower) = true ->
  extract_time (before ++ (key, pattern) :: after)%list text_lower entities
  = dict_set entities "time_period" (PStr key).
Proof.
  intros Hbefore Hhit. induction before as [|[k p] before IH]; simpl.
  - now rewrite Hhit.
  - rewrite (Hbefore k p (or_introl eq_refl)). apply IH.
    intros k' p' Hin. apply (Hbefore k' p'). now right.
Qed.

Lemma extract_time_none (entries : dict string) (text_lower : string)
    (entities : dict scalar) :
  (forall k p, In (k, p) entries ->
               Re.matched (Re.search p text_lower) = false) ->
  extract_time entries text_lower entities = entities.
Proof.
  intros H. induction entries as [|[k p] rest IH]; simpl; [reflexivity|].
  rewrite (H k p (or_introl eq_refl)). apply IH.
  intros k' p' Hin. apply (H k' p'). now right.
Qed.

(** The later steps of the extraction leave the entries of the earlier
    ones alone. *)
Lemma extract_time_keeps (entries : dict string) (text_lower : string)
    (entities : dict scalar) (k : string) :
  k <> "time_period" ->
  dict_lookup (extract_time entries text_lower entities) k
  = dict_lookup entities k.
Proof.
  intros Hk.
  destruct (extract_time_cases entries text_lower entities)
    as [-> | [key [_ ->]]]; [reflexivity|].
  rewrite dict_lookup_set.
  destruct (String.eqb "time_period" k) eqn:E; [|reflexivity].
  apply String.eqb_eq in E. now destruct Hk.
Qed.

Lemma extract_number_keeps (text : string) (entities out : dict scalar)
    (k : string) :
  k <> "number" -> extract_number text entities = Ok out ->
  dict_lookup out k = dict_lookup entities k.
Proof.
  intros Hk.
  destruct (extract_number_cases text entities)
    as [-> | [[n [-> _]] | [-> _]]]; intros [= <-]; [reflexivity|].
  rewrite dict_lookup_set.
  destruct (String.eqb "number" k) eqn:E; [|reflexivity].
  apply String.eqb_eq in E. now destruct Hk.
Qed.

Lemma extract_entities_steps (text : string) (entities : dict scalar) :
  _extract_entities text = Ok entities ->
  exists with_table,
    extract_table table_patterns (lower text) [] = Ok with_table
    /\ dict_lookup entities "table" = dict_lookup with_table "table"
    /\ dict_lookup entities "time_period"
       = dict_lookup (extract_time time_patterns (lower text) with_table)
           "time_period".
Proof.
  unfold _extract_entities.
  destruct (extract_table table_patterns (lower text) [])
    as [with_table | e]; cbn [bind]; [|discriminate].
  intros H. exists with_table. split; [reflexivity|]. split.
  - rewrite (extract_number_keeps _ _ _ "table" ltac:(discriminate) H).
    apply extract_time_keeps. discriminate.
  - apply (extract_number_keeps _ _ _ "time_period" ltac:(discriminate) H).
Qed.

(** X4: the table entity comes from the first of the patterns "from X",
    "table X", "in X" that matches the lowercased text, whatever the
    later patterns would capture; when none matches there is no table
    entity. *)
Theorem table_entity_first_match (text : string) (entities : dict scalar) :
  _extract_entities text = Ok entities ->
  (forall before pattern after g,
      table_patterns = (before ++ pattern :: after)%list ->
      (forall p, In p before -> Re.search p (lower text) = None) ->
      Re.search pattern (lower text) = Some (Some g) ->
      dict_lookup entities "table" = Some (PStr g))
  /\ ((forall p, In p table_patterns -> Re.search p (lower text) = None) ->
      dict_lookup entities "table" = None).
Proof.
  intros H.
  destruct (extract_entities_steps text entities H)
    as [with_table [Ht [Hlook _]]].
  split.
  - intros before pattern after g Heq Hbefore Hhit.
    rewrite Heq, (extract_table_first before after pattern _ g [] Hbefore Hhit)
      in Ht.
    injection Ht as <-. rewrite Hlook. reflexivity.
  - intros Hnone. rewrite (extract_table_none _ _ [] Hnone) in Ht.
    injection Ht as <-. rewrite Hlook. reflexivity.
Qed.

Lemma table_entity_first_match_witness :
  _extract_entities "rows in table users from archive"
  = Ok [("table", PStr "archive")]
  /\ dict_lookup [("table", PStr "archive")] "table"
     = Some (PStr "archive").
Proof.
  split; [reflexivity|].
  destruct (table_entity_first_match "rows in table users from archive"
              [("table", PStr "archive")] eq_refl) as [Hfirst _].
  apply (Hfirst [] "from\s+(\w+)" (tl table_patterns) "archive");
    [reflexivity | intros p [] | reflexivity].
Defined.

(** X5: the time_period entity is the name of the first of the six
    period patterns, in the order last_week, last_month, yesterday,
    today, this_week, this_month, that matches the lowercased text; when
    none matches there is no time_period entity. *)
Theorem time_period_first_match (text : string) (entities : dict scalar) :
  _extract_entities text = Ok entities ->
  map fst time_patterns = time_periods
  /\ (forall before key pattern after,
        time_patterns = (before ++ (key, pattern) :: after)%list ->
        (forall k p, In (k, p) before ->
                     Re.matched (Re.search p (lower text)) = false) ->
        Re.matched (Re.search pattern (lower text)) = true ->
        dict_lookup entities "time_period" = Some (PStr key))
  /\ ((forall k p, In (k, p) time_patterns ->
                   Re.matched (Re.search p (lower text)) = false) ->
      dict_lookup entities "time_period" = None).
Proof.
  intros H.
  destruct (extract_entities_steps text entities H)
    as [with_table [Ht [_ Hlook]]].
  split; [reflexivity|]. split.
  - intros before key pattern after Heq Hbefore Hhit.
    rewrite Hlook, Heq,
      (extract_time_first before after key pattern _ with_table Hbefore Hhit).
    rewrite dict_lookup_set. reflexivity.
  - intros Hnone. rewrite Hlook, (extract_time_none _ _ with_table Hnone).
    destruct (extract_table_cases (lower text)) as [Ht' | [g [Ht' _]]];
      rewrite Ht' in Ht; injection Ht as <-; reflexivity.
Qed.

Lemma time_period_first_match_witness :
  _extract_entities "sales today and yesterday"
  = Ok [("time_period", PStr "yesterday")]
  /\ dict_lookup [("time_period", PStr "yesterday")] "time_period"
     = Some (PStr "yesterday").
Proof.
  split; [reflexivity|].
  destruct (time_period_first_match "sales today and yesterday"
              [("time_period", PStr "yesterday")] eq_refl) as [_ [Hfirst _]].
  apply (Hfirst (firstn 2 time_patterns) "yesterday" "yesterday"
           (skipn 3 time_patterns)).
  - reflexivity.
  - intros k p [Hin | [Hin | []]]; injection Hin as <- <-; reflexivity.
  - reflexivity.
Defined.

(* ===================================================================== *)
(** ** Trigger phrases that never decide *)
(* ===================================================================== *)

Lemma scan_patterns_exact (name : string) (patterns : list string)
    (text_lower : string) (st : string * Q) :
  scan_patterns name patterns text_lower st
  = if existsb (fun p => Re.matched (Re.search p text_lower)) patterns
    then (name, 0.8%Q) else st.
Proof.
  induction patterns as [|p ps IH]; simpl; [reflexivity|].
  destruct (Re.matched (Re.search p text_lower)); [reflexivity | exact IH].
Qed.

Lemma trigger_hit (name : string) (triggers : list string) (t s : string) :
  In (name, triggers) intent_patterns -> In t triggers ->
  Re.matched (Re.search t s) = true <-> occurs t s.
Proof.
  intros Hn Ht. rewrite (trigger_search name triggers t s Hn Ht).
  apply occurs_in_spec.
Qed.

(** X6: a text whose lowercased form contains "how many" is always
    classified select_data, because that phrase is a trigger of
    select_data, which is tried first; a text is classified count_data
    only when it contains "count", "total number" or "number of" and
    does not contain "how many". *)
Theorem how_many_never_counts (text_lower : string) :
  (occurs "how many" text_lower ->
   determine_intent text_lower = ("select_data", 0.8%Q))
  /\ (fst (determine_intent text_lower) = "count_data" ->
      ~ occurs "how many" text_lower
      /\ (occurs "count" text_lower \/ occurs "total number" text_lower
          \/ occurs "number of" text_lower)).
Proof.
  split.
  - intros Hocc. unfold determine_intent.
    apply (scan_intents_first text_lower [] (tl intent_patterns)
             "select_data"
             ["show me"; "display"; "get"; "find"; "list"; "what";
              "how many"; "select"; "retrieve"; "fetch"; "see"; "view"]).
    + discriminate.
    + intros n ts t [].
    + exists "how many". split; [simpl; tauto|].
      apply (trigger_hit "select_data"
               ["show me"; "display"; "get"; "find"; "list"; "what";
                "how many"; "select"; "retrieve"; "fetch"; "see"; "view"]);
        simpl; tauto.
  - unfold determine_intent, intent_patterns. cbn [scan_intents].
    rewrite !scan_patterns_exact.
    destruct (existsb _ ["show me"; "display"; "get"; "find"; "list"; "what";
                         "how many"; "select"; "retrieve"; "fetch"; "see";
                         "view"]) eqn:Hsel;
      [cbn; discriminate|].
    cbn [fst negb String.eqb Ascii.eqb Bool.eqb].
    destruct (existsb _ ["count"; "how many"; "total number"; "number of"])
      eqn:Hcount.
    + intros _.
      assert (Hhow : Re.matched (Re.search "how many" text_lower) = false).
      { cbn [existsb] in Hsel. repeat (apply orb_false_iff in Hsel;
                                        destruct Hsel as [? Hsel]).
        assumption. }
      split.
      * intros Hocc.
        apply (trigger_hit "count_data"
                 ["count"; "how many"; "total number"; "number of"])
          in Hocc; [congruence | simpl; tauto | simpl; tauto].
      * cbn [existsb] in Hcount. rewrite Hhow, orb_false_r in Hcount.
        cbn [orb] in Hcount.
        apply orb_true_iff in Hcount. destruct Hcount as [H | H].
        -- left.
           apply (trigger_hit "count_data"
                    ["count"; "how many"; "total number"; "number of"]) in H;
             [exact H | simpl; tauto | simpl; tauto].
        -- apply orb_true_iff in H. destruct H as [H | H]; right;
             [left | right];
             apply (trigger_hit "count_data"
                      ["count"; "how many"; "total number"; "number of"]) in H;
             solve [exact H | simpl; tauto].
    + cbn [fst negb String.eqb Ascii.eqb Bool.eqb].
      repeat (match goal with
              | |- context [if ?b then _ else _] => destruct b
              end; cbn [fst negb String.eqb Ascii.eqb Bool.eqb];
              try discriminate).
Qed.

Lemma how_many_never_counts_witness :
  occurs "how many" "how many orders, count them"
  /\ determine_intent "how many orders, count them" = ("select_data", 0.8%Q).
Proof.
  assert (H : occurs "how many" "how many orders, count them")
    by (now exists "", " orders, count them").
  split; [exact H|].
  apply (how_many_never_counts "how many orders, count them"). exact H.
Defined.

(* ===================================================================== *)
(** ** Query synthesis in every state of the processor *)
(* ===================================================================== *)

Lemma accepted_select (rest : string) : accepted ("SELECT " ++ rest) = true.
Proof. reflexivity. Qed.

Lemma accepted_nonempty (sql_query : string) :
  accepted sql_query = true -> sql_query <> "".
Proof. intros H ->. discriminate H. Qed.

Lemma templates_or_fallback_accepted (intent entities : obj) :
  accepted match _generate_sql_with_templates intent entities with
           | Ok sql_query => sql_query
           | Raise _ => safe_fallback
           end = true.
Proof.
  destruct entities as [v|q|d]; try reflexivity.
  destruct (templates_outcome intent d) as [[t [rest [_ ->]]] | [_ ->]].
  - apply accepted_select.
  - reflexivity.
Qed.

(** The two ways out of [_generate_sql_with_gemini]. *)
Lemma gemini_outcome (model : GenerativeModel) (nlu_result : dict obj) :
  (exists q i e t,
      dict_lookup nlu_result "original_text" = Some q
      /\ dict_lookup nlu_result "intent" = Some i
      /\ dict_lookup nlu_result "entities" = Some e
      /\ model {| prompt_query := q; prompt_intent := i;
                  prompt_entities := e |} = Ok t
      /\ accepted (strip t) = true
      /\ _generate_sql_with_gemini model nlu_result = Ok (strip t))
  \/ ((dict_lookup nlu_result "original_text" = None
       \/ dict_lookup nlu_result "intent" = None
       \/ dict_lookup nlu_result "entities" = None
       \/ exists q i e,
            dict_lookup nlu_result "original_text" = Some q
            /\ dict_lookup nlu_result "intent" = Some i
            /\ dict_lookup nlu_result "entities" = Some e
            /\ ((exists err, model {| prompt_query := q; prompt_intent := i;
                                      prompt_entities := e |} = Raise err)
                \/ exists t, model {| prompt_query := q; prompt_intent := i;
                                      prompt_entities := e |} = Ok t
                             /\ accepted (strip t) = false))
      /\ _generate_sql_with_gemini model nlu_result
         = _generate_sql_with_templates
             (dict_get nlu_result "intent" (OStr "unknown"))
             (dict_get nlu_result "entities" (ODict []))).
Proof.
  unfold _generate_sql_with_gemini, dict_item.
  destruct (dict_lookup nlu_result "original_text") as [q|] eqn:Hq;
    cbn [bind]; [|right; split; [now left | reflexivity]].
  destruct (dict_lookup nlu_result "intent") as [i|] eqn:Hi;
    cbn [bind]; [|right; split; [right; now left | reflexivity]].
  destruct (dict_lookup nlu_result "entities") as [e|] eqn:He;
    cbn [bind]; [|right; split; [right; right; now left | reflexivity]].
  destruct (model _) as [t|err] eqn:Hm; cbn [bind].
  - fold (accepted (strip t)). destruct (accepted (strip t)) eqn:Ha;
      cbn [negb].
    + left. exists q, i, e, t. repeat split; assumption.
    + right. split; [|reflexivity]. right. right. right.
      exists q, i, e. repeat split. right. now exists t.
  - right. split; [|reflexivity]. right. right. right.
    exists q, i, e. repeat split. left. now exists err.
Qed.

Lemma generate_sql_accepted
    (self : NLUProcessor) (nlu_result : dict obj) :
  accepted (generate_sql self nlu_result) = true.
Proof.
  unfold generate_sql, generate_sql_body.
  destruct (gemini_model self) as [| |model].
  - reflexivity.
  - apply templates_or_fallback_accepted.
  - destruct (gemini_outcome model nlu_result)
      as [[q [i [e [t [_ [_ [_ [_ [Ha ->]]]]]]]]] | [_ ->]].
    + exact Ha.
    + apply templates_or_fallback_accepted.
Qed.

(** X7: in every state of the processor (generative model configured or
    not, attributes assigned or not) and for every NLU result, whatever
    the model answers, [generate_sql] returns a non-empty string that
    begins, case-insensitively, with select, insert, update or delete. *)
Theorem generate_sql_always_statement
    (self : NLUProcessor) (nlu_result : dict obj) :
  generate_sql self nlu_result <> ""
  /\ existsb (startswith (lower (generate_sql self nlu_result)))
       statement_keywords = true.
Proof.
  pose proof (generate_sql_accepted self nlu_result) as H.
  split; [now apply accepted_nonempty | exact H].
Qed.

(** X8: with a generative model configured, [generate_sql] returns the
    model's answer, stripped and otherwise verbatim, exactly when the
    NLU result has the three keys of the prompt, the call succeeds and
    the stripped answer begins, case-insensitively, with select, insert,
    update or delete; in every other case it returns what the same
    processor without the model returns. *)
Theorem gemini_answer_or_templates
    (self : NLUProcessor) (model : GenerativeModel) (nlu_result : dict obj) :
  gemini_model self = Obj model ->
  (forall q i e t,
      dict_lookup nlu_result "original_text" = Some q ->
      dict_lookup nlu_result "intent" = Some i ->
      dict_lookup nlu_result "entities" = Some e ->
      model {| prompt_query := q; prompt_intent := i;
               prompt_entities := e |} = Ok t ->
      generate_sql self nlu_result
      = if accepted (strip t) then strip t
        else generate_sql (without_gemini self) nlu_result)
  /\ (forall q i e err,
      dict_lookup nlu_result "original_text" = Some q ->
      dict_lookup nlu_result "intent" = Some i ->
      dict_lookup nlu_result "entities" = Some e ->
      model {| prompt_query := q; prompt_intent := i;
               prompt_entities := e |} = Raise err ->
      generate_sql self nlu_result
      = generate_sql (without_gemini self) nlu_result)
  /\ (dict_lookup nlu_result "original_text" = None
      \/ dict_lookup nlu_result "intent" = None
      \/ dict_lookup nlu_result "entities" = None ->
      generate_sql self nlu_result
      = generate_sql (without_gemini self) nlu_result).
Proof.
  intros Hg.
  assert (Hfall : _generate_sql_with_gemini model nlu_result
                  = _generate_sql_with_templates
                      (dict_get nlu_result "intent" (OStr "unknown"))
                      (dict_get nlu_result "entities" (ODict [])) ->
                  generate_sql self nlu_result
                  = generate_sql (without_gemini self) nlu_result).
  { intros H. unfold generate_sql, generate_sql_body, without_gemini.
    rewrite Hg. cbn [gemini_model]. now rewrite H. }
  split; [|split].
  - intros q i e t Hq Hi He Hm.
    destruct (gemini_outcome model nlu_result)
      as [[q' [i' [e' [t' [Hq' [Hi' [He' [Hm' [Ha Hr]]]]]]]]] | [Hwhy Hr]].
    + assert (t' = t) by congruence. subst t'. rewrite Ha.
      unfold generate_sql, generate_sql_body. rewrite Hg. now rewrite Hr.
    + destruct Hwhy as [H | [H | [H | [q' [i' [e' [Hq' [Hi' [He' Hm']]]]]]]]];
        try congruence.
      assert (q' = q /\ i' = i /\ e' = e) as [-> [-> ->]]
          by (repeat split; congruence).
      destruct Hm' as [[err Hm'] | [t' [Hm' Ha]]]; [congruence|].
      assert (t' = t) by congruence. subst t'. rewrite Ha.
      now apply Hfall.
  - intros q i e err Hq Hi He Hm. apply Hfall.
    destruct (gemini_outcome model nlu_result)
      as [[q' [i' [e' [t' [Hq' [Hi' [He' [Hm' _]]]]]]]] | [_ Hr]];
      [|exact Hr].
    assert (q' = q /\ i' = i /\ e' = e) as [-> [-> ->]]
        by (repeat split; congruence).
    congruence.
  - intros Hmissing. apply Hfall.
    destruct (gemini_outcome model nlu_result)
      as [[q' [i' [e' [t' [Hq' [Hi' [He' _]]]]]]] | [_ Hr]]; [|exact Hr].
    destruct Hmissing as [H | [H | H]]; congruence.
Qed.

Lemma gemini_answer_or_templates_witness :
  gemini_model answering_processor = Obj answering_model
  /\ generate_sql answering_processor (unknown_result "set a")
     = "update users SET a = 1".
Proof.
  split; [reflexivity|].
  destruct (gemini_answer_or_templates answering_processor answering_model
              (unknown_result "set a") eq_refl) as [Hanswer _].
  apply (Hanswer (OStr "set a") (OStr "unknown") (ODict [])
           " update users SET a = 1 "); reflexivity.
Defined.

(* ===================================================================== *)
(** ** The understanding in every state of the processor *)
(* ===================================================================== *)

Lemma patterns_or_unknown_form (text : string) :
  exists intent confidence entities table,
    match _process_with_patterns text with
    | Ok r => r
    | Raise _ => unknown_result text
    end
    = [ ("intent", OStr intent);
        ("confidence", OFloat confidence);
        ("entities", ODict entities);
        ("original_text", OStr text) ]
    /\ table_of entities = PStr table.
Proof.
  unfold _process_with_patterns.
  destruct (determine_intent (lower text)) as [intent confidence].
  destruct (_extract_entities text) as [entities | e] eqn:He; cbn [bind].
  - destruct (table_of_extracted text entities He) as [table [Ht _]].
    now exists intent, confidence, entities, table.
  - now exists "unknown", 0.5%Q, [], "unknown_table".
Qed.

(** The understanding has the four keys, and the table of its entities,
    given or defaulted, is a string. *)
Lemma process_text_form (self : NLUProcessor) (text : string) :
  exists intent confidence entities table,
    process_text self text
    = [ ("intent", OStr intent);
        ("confidence", OFloat confidence);
        ("entities", ODict entities);
        ("original_text", OStr text) ]
    /\ table_of entities = PStr table.
Proof.
  unfold process_text.
  destruct (dialogflow_client self) as [| |client].
  - now exists "unknown", 0.5%Q, [], "unknown_table".
  - apply patterns_or_unknown_form.
  - rewrite dialogflow_request_refused. apply patterns_or_unknown_form.
Qed.

(** X9: whatever the state of the processor and whichever strategy
    answered, the understanding returned by [process_text] has exactly
    the keys intent, confidence, entities, original_text, in that order;
    the original text is the text given, the intent is a string, the
    confidence a float and the entities a dictionary; hence template
    synthesis on it never takes the fallback [SELECT 1]. *)
Theorem understanding_shape (self : NLUProcessor) (text : string) :
  let understanding := process_text self text in
  map fst understanding
  = ["intent"; "confidence"; "entities"; "original_text"]
  /\ dict_lookup understanding "original_text" = Some (OStr text)
  /\ (exists intent,
        dict_lookup understanding "intent" = Some (OStr intent))
  /\ (exists confidence,
        dict_lookup understanding "confidence" = Some (OFloat confidence))
  /\ (exists entities,
        dict_lookup understanding "entities" = Some (ODict entities))
  /\ forall synthesizer,
       gemini_model synthesizer = IsNone ->
       exists rest,
         generate_sql_body synthesizer understanding = Ok ("SELECT " ++ rest).
Proof.
  intros understanding. unfold understanding.
  destruct (process_text_form self text)
    as [intent [confidence [entities [table [-> Ht]]]]].
  split; [reflexivity|]. split; [reflexivity|].
  split; [now exists intent|]. split; [now exists confidence|].
  split; [now exists entities|].
  intros synthesizer Hg. unfold generate_sql_body. rewrite Hg.
  apply (templates_select_shape (OStr intent) entities table Ht).
Qed.

(** X10: when the Dialogflow client is configured and its call fails,
    [process_text] returns exactly what a processor without the client
    returns: the failure leaves no trace in the understanding. *)
Theorem remote_failure_is_local (self : NLUProcessor) (text : string) :
  dialogflow_client self <> Unset ->
  (forall client, dialogflow_client self = Obj client ->
                  exists e, client text = Raise e) ->
  process_text self text = process_text local_processor text.
Proof.
  intros Hset Hfail. unfold process_text at 1.
  destruct (dialogflow_client self) as [| |client] eqn:Hc.
  - now destruct Hset.
  - reflexivity.
  - now rewrite dialogflow_request_refused.
Qed.

Lemma remote_failure_is_local_witness :
  dialogflow_client failing_remote_processor <> Unset
  /\ process_text failing_remote_processor orders_last_week
     = process_text local_processor orders_last_week.
Proof.
  split; [discriminate|].
  apply (remote_failure_is_local failing_remote_processor orders_last_week).
  - discriminate.
  - intros client [= <-]. now exists ServiceError.
Defined.

(** X11: the start-up of the services decides every later answer. With
    neither key configured the processor is the local one. When the
    Gemini key is configured and the construction of the model fails,
    neither attribute is assigned: every text is then understood as
    unknown with confidence 0.5 and no entities, and every query is
    [SELECT 1]. When the Dialogflow project is configured and the
    construction of its client fails, every text is understood as
    unknown, although the local classifier needs no service. *)
Theorem failed_setup_disables_processor (config : Config)
    (new_model : Exc GenerativeModel) (new_client : Exc SessionsClient) :
  let self := _setup_services config new_model new_client in
  (configured (gemini_api_key config) = false ->
   configured (dialogflow_project_id config) = false ->
   self = local_processor)
  /\ (configured (gemini_api_key config) = true ->
      (exists e, new_model = Raise e) ->
      forall text nlu_result,
        process_text self text = unknown_result text
        /\ generate_sql self nlu_result = "SELECT 1")
  /\ (configured (dialogflow_project_id config) = true ->
      (exists e, new_client = Raise e) ->
      forall text, process_text self text = unknown_result text).
Proof.
  intros self. unfold self, _setup_services. split; [|split].
  - intros -> ->. reflexivity.
  - intros -> [e ->] text nlu_result. split; reflexivity.
  - intros -> [e ->] text.
    destruct (configured (gemini_api_key config)); [|reflexivity].
    destruct new_model; reflexivity.
Qed.

Lemma failed_setup_disables_processor_witness :
  configured (Some "my-project") = true
  /\ process_text
       (_setup_services
          {| gemini_api_key := None;
             dialogflow_project_id := Some "my-project" |}
          (Raise ServiceError) (Raise ServiceError))
       orders_last_week
     = unknown_result orders_last_week.
Proof.
  split; [reflexivity|].
  destruct (failed_setup_disables_processor
              {| gemini_api_key := None;
                 dialogflow_project_id := Some "my-project" |}
              (Raise ServiceError) (Raise ServiceError)) as [_ [_ H]].
  apply H; [reflexivity | now exists ServiceError].
Defined.

(* ===================================================================== *)
(** ** The generic completion message *)
(* ===================================================================== *)

Lemma int_str_bound_positive : (0 < int_str_bound)%Z.
Proof. reflexivity. Qed.

Lemma query_completed_iff (nlu_result : dict obj) (query_result : pyval) :
  generate_response nlu_result query_result = "Query completed."
  <-> dict_get nlu_result "intent" (OStr "unknown") = OStr "count_data"
      /\ exists first rest,
           query_result = VList (first :: rest)
           /\ ((forall row, first <> ODict row)
               \/ exists row n,
                    first = ODict row
                    /\ dict_lookup row "count" = Some (PInt n)
                    /\ (int_str_bound <= Z.abs n)%Z).
Proof.
  unfold generate_response, generate_response_body.
  set (intent := dict_get nlu_result "intent" (OStr "unknown")).
  destruct (obj_str_dec intent "count_data") as [Hc | Hc].
  - rewrite Hc. cbn [OStr obj_eq_str scalar_eq_str].
    replace (String.eqb "count_data" "count_data") with true by reflexivity.
    destruct query_result as [o | [|first rest]].
    + split; [discriminate|]. intros [_ [f [r [H _]]]]. discriminate H.
    + split; [discriminate|]. intros [_ [f [r [H _]]]]. discriminate H.
    + replace (0 <? py_len (first :: rest))%Z with true
        by (unfold py_len; cbn [List.length]; symmetry; apply Z.ltb_lt; lia).
      cbn [list_first bind]. destruct first as [v|q|row]; cbn [obj_get bind].
      * split; [|reflexivity]. intros _. split; [reflexivity|].
        exists (OScalar v), rest. split; [reflexivity|]. left. discriminate.
      * split; [|reflexivity]. intros _. split; [reflexivity|].
        exists (OFloat q), rest. split; [reflexivity|]. left. discriminate.
      * destruct (py_format (dict_get row "count" (PInt 0))) as [t | e] eqn:Hf;
          cbn [bind].
        -- split; [discriminate|].
           intros [_ [f [r [[= <- <-] [H | [row' [n [[= <-] [Hn Hlong]]]]]]]]].
           ++ now destruct (H row).
           ++ unfold dict_get in Hf. rewrite Hn in Hf.
              rewrite (py_format_overlong n Hlong) in Hf. discriminate Hf.
        -- split; [|reflexivity]. intros _. split; [reflexivity|].
           exists (ODict row), rest. split; [reflexivity|]. right.
           destruct (py_format_raise _ _ Hf) as [_ [n [Hn Hlong]]].
           exists row, n. split; [reflexivity|]. split; [|exact Hlong].
           unfold dict_get in Hn.
           destruct (dict_lookup row "count") as [v|]; [now rewrite Hn|].
           injection Hn as <-. pose proof int_str_bound_positive. simpl in Hlong.
           lia.
  - rewrite (obj_eq_str_false _ _ Hc). split.
    + destruct (obj_eq_str intent "select_data"); [|discriminate].
      destruct query_result as [o | l]; [discriminate|].
      destruct (py_len l =? 0)%Z; [discriminate|].
      destruct (py_len l =? 1)%Z; discriminate.
    + intros [H _]. now destruct Hc.
Qed.

(** X12: [generate_response] answers with the generic message "Query
    completed." exactly when the intent is count_data and the result is
    a non-empty list whose first element is not a row (a mapping), or is
    a row whose count is an integer that cannot be converted to text (of
    more than 4300 digits): those are the two ways its body can raise. *)
Theorem generic_completion_message
    (nlu_result : dict obj) (query_result : pyval) :
  generate_response nlu_result query_result = "Query completed."
  <-> dict_get nlu_result "intent" (OStr "unknown") = OStr "count_data"
      /\ exists first rest,
           query_result = VList (first :: rest)
           /\ ((forall row, first <> ODict row)
               \/ exists row n,
                    first = ODict row
                    /\ dict_lookup row "count" = Some (PInt n)
                    /\ (int_str_bound <= Z.abs n)%Z).
Proof. apply query_completed_iff. Qed.

(* ===================================================================== *)
(** ** The database manager *)
(* ===================================================================== *)

Lemma replace_go_skip (old new a s : string) :
  replace_go old new (a ++ s) (String.length a) = replace_go old new s 0.
Proof. induction a as [|c a IH]; simpl; [reflexivity | exact IH]. Qed.

Lemma startswith_app (p s : string) : startswith (p ++ s) p = true.
Proof. apply startswith_spec. now exists s. Qed.

Lemma replace_prefix (c : ascii) (old new s : string) :
  replace (String c old ++ s) (String c old) new
  = new ++ replace s (String c old) new.
Proof.
  unfold replace. cbn [append replace_go].
  change (String c (old ++ s)) with (String c old ++ s).
  rewrite startswith_app. cbn [String.length Nat.sub].
  rewrite Nat.sub_0_r, replace_go_skip. reflexivity.
Qed.

Lemma replace_absent (c : ascii) (old new s : string) :
  occurs_in (String c old) s = false -> replace s (String c old) new = s.
Proof.
  unfold replace. induction s as [|d s IH]; [reflexivity|].
  cbn [occurs_in replace_go]. intros H. apply orb_false_iff in H.
  destruct H as [-> H]. now rewrite (IH H).
Qed.

(** X13: the URL handed to the engine. When no DATABASE_URL is set it is
    composed from the five settings and begins with the asyncpg scheme;
    a DATABASE_URL that begins with [postgresql://] gets the asyncpg
    scheme in its place; a DATABASE_URL in which [postgresql://] does
    not occur, such as one with the scheme [postgres://], is handed over
    unchanged. *)
Theorem async_url_rewrite (self : Db.PostgresManager) :
  let cfg := Db.config self in
  (Cfg.is_set (Cfg.db_url cfg) = false ->
   Db.async_url self
   = "postgresql+asyncpg://"
     ++ replace (Cfg.db_user cfg ++ ":" ++ Cfg.db_password cfg ++ "@"
                 ++ Cfg.db_host cfg ++ ":"
                 ++ py_str (PInt (Cfg.db_port cfg)) ++ "/" ++ Cfg.db_name cfg)
          "postgresql://" "postgresql+asyncpg://")
  /\ (forall rest,
        Cfg.db_url cfg = Some ("postgresql://" ++ rest) ->
        occurs_in "postgresql://" rest = false ->
        Db.async_url self = "postgresql+asyncpg://" ++ rest)
  /\ (forall url,
        Cfg.db_url cfg = Some url -> url <> "" ->
        occurs_in "postgresql://" url = false ->
        Db.async_url self = url).
Proof.
  intros cfg. unfold Db.async_url, Cfg.get_database_url. fold cfg.
  split; [|split].
  - intros ->.
    apply (replace_prefix "p" "ostgresql://" "postgresql+asyncpg://").
  - intros rest -> Hrest.
    assert (Hset : Cfg.is_set (Some ("postgresql://" ++ rest)) = true)
      by reflexivity.
    rewrite Hset.
    rewrite (replace_prefix "p" "ostgresql://" "postgresql+asyncpg://").
    now rewrite (replace_absent "p" "ostgresql://" _ rest Hrest).
  - intros url -> Hne Habs. cbn [Cfg.is_set]. unfold truthy.
    apply String.eqb_neq in Hne. rewrite Hne. cbn [negb].
    apply (replace_absent "p" "ostgresql://" _ url Habs).
Qed.

Lemma async_url_rewrite_witness :
  Cfg.db_url (Db.config (Db.new sample_config))
  = Some "postgres://app@db.internal/shop"
  /\ Db.async_url (Db.new sample_config) = "postgres://app@db.internal/shop".
Proof.
  split; [reflexivity|].
  destruct (async_url_rewrite (Db.new sample_config)) as [_ [_ H]].
  apply H; [reflexivity | discriminate | reflexivity].
Defined.

Lemma execute_query_not_connected (self : Db.PostgresManager) (sql : string) :
  Db._connected self = false ->
  Db.execute_query self sql = Throw (Exception "Database not connected").
Proof. intros H. unfold Db.execute_query. now rewrite H. Qed.

(** X14: the connection state. A new manager refuses every query with
    "Database not connected". [connect] succeeds exactly when it leaves
    the manager connected; a failed [connect], also on a manager that was
    connected, leaves it refusing every query. [disconnect] leaves the
    manager connected only if it was connected and disposing of the
    engine failed. *)
Theorem connection_state (self : Db.PostgresManager) :
  (forall cfg sql,
      Db.execute_query (Db.new cfg) sql
      = Throw (Exception "Database not connected"))
  /\ (forall f,
        snd (Db.connect self f) = Return tt
        <-> Db._connected (fst (Db.connect self f)) = true)
  /\ (forall f e sql,
        snd (Db.connect self f) = Throw e ->
        Db.execute_query (fst (Db.connect self f)) sql
        = Throw (Exception "Database not connected"))
  /\ (Db._connected (Db.disconnect self) = true
      <-> Db._connected self = true
          /\ exists engine e,
               Db.async_engine self = Some engine
               /\ Db.dispose engine = Throw e).
Proof.
  split; [reflexivity|]. split; [|split].
  - intros f. unfold Db.connect.
    destruct (f _ _) as [engine | e]; cbn [fst snd].
    + destruct (Db.connection_test engine) as [[] | e]; cbn [fst snd];
        split; intros H; first [reflexivity | discriminate H].
    + split; intros H; discriminate H.
  - intros f e sql. unfold Db.connect.
    destruct (f _ _) as [engine | e']; cbn [fst snd].
    + destruct (Db.connection_test engine) as [[] | e'']; cbn [fst snd];
        [discriminate | reflexivity].
    + reflexivity.
  - unfold Db.disconnect.
    destruct (Db.async_engine self) as [engine|] eqn:He.
    + destruct (Db.dispose engine) as [[] | e] eqn:Hd.
      * split; [discriminate|].
        intros [_ [engine' [e [[= <-] H]]]]. congruence.
      * split; [|tauto]. intros H. split; [exact H|]. now exists engine, e.
    + split; [discriminate|]. intros [_ [engine [e [H _]]]]. discriminate H.
Qed.

Lemma reachable_invariant (cfg : Cfg.Config) (self : Db.PostgresManager) :
  reachable cfg self ->
  Db.config self = cfg
  /\ Db.session_factory self = Db.async_engine self
  /\ (Db._connected self = true -> Db.async_engine self <> None).
Proof.
  induction 1 as [|self f _ [Hcfg [Hsf Hcon]]|self _ [Hcfg [Hsf Hcon]]].
  - split; [reflexivity|]. split; [reflexivity|]. intros H. discriminate H.
  - unfold Db.connect. destruct (f _ _) as [engine | e]; cbn [fst].
    + destruct (Db.connection_test engine) as [[] | e];
        (split; [exact Hcfg|]; split; [reflexivity|];
         intros _ H; discriminate H).
    + split; [exact Hcfg|]. split; [exact Hsf|]. intros H. discriminate H.
  - unfold Db.disconnect. destruct (Db.async_engine self) as [engine|] eqn:He.
    + destruct (Db.dispose engine) as [[] | e].
      * split; [exact Hcfg|]. split; [cbn; congruence|].
        intros H. discriminate H.
      * split; [exact Hcfg|]. split; [congruence|]. now rewrite He.
    + split; [exact Hcfg|]. split; [cbn; congruence|].
      intros H. discriminate H.
Qed.

(** X15: through any sequence of [connect] and [disconnect] on a new
    manager, the configuration stays the one given, the session factory
    is the one of the current engine, and a connected manager has an
    engine; so a query on such a manager is refused as not connected or
    is run by the current engine, and never fails for want of a session
    factory. *)
Theorem manager_invariant (cfg : Cfg.Config) (self : Db.PostgresManager) :
  reachable cfg self ->
  Db.config self = cfg
  /\ Db.session_factory self = Db.async_engine self
  /\ forall sql,
       Db.execute_query self sql = Throw (Exception "Database not connected")
       \/ exists engine,
            Db.async_engine self = Some engine
            /\ Db.execute_query self sql
               = Db.execute_query
                   {| Db.config := cfg; Db.async_engine := Some engine;
                      Db.session_factory := Some engine;
                      Db._connected := true |} sql.
Proof.
  intros H. destruct (reachable_invariant cfg self H) as [Hcfg [Hsf Hcon]].
  split; [exact Hcfg|]. split; [exact Hsf|]. intros sql.
  destruct (Db._connected self) eqn:Hc.
  - right. destruct (Db.async_engine self) as [engine|] eqn:He;
      [|now destruct (Hcon eq_refl)].
    exists engine. split; [reflexivity|].
    unfold Db.execute_query. rewrite Hc, Hsf. reflexivity.
  - left. now apply execute_query_not_connected.
Qed.

Lemma manager_invariant_witness :
  reachable sample_config connected_manager
  /\ Db.config connected_manager = sample_config.
Proof.
  assert (H : reachable sample_config connected_manager)
    by (apply reach_connect, reach_new).
  split; [exact H|]. apply (manager_invariant sample_config _ H).
Defined.

(* ===================================================================== *)
(** ** The result of a query and its summary *)
(* ===================================================================== *)

Lemma execute_query_returns (self : Db.PostgresManager) (sql : string)
    (r : pyval) :
  Db.execute_query self sql = Return r ->
  exists engine res,
    Db._connected self = true
    /\ Db.session_factory self = Some engine
    /\ Db.session_execute engine sql = Return res
    /\ ((Db.returns_rows res = true
         /\ r = VList (map (fun row => ODict (Db.row_dict (Db.keys res) row))
                           (Db.fetchall res)))
        \/ (Db.returns_rows res = false
            /\ Db.session_commit engine sql = Return tt
            /\ r = VList [ODict [("affected_rows", PInt (Db.rowcount res))]])).
Proof.
  unfold Db.execute_query.
  destruct (Db._connected self); cbn [negb]; [|discriminate].
  destruct (Db.session_factory self) as [engine|]; [|discriminate].
  destruct (Db.session_execute engine sql) as [res | e] eqn:Hres;
    cbn [and_then]; [|discriminate].
  destruct (Db.returns_rows res) eqn:Hrows.
  - intros [= <-]. exists engine, res.
    split; [reflexivity|]. split; [reflexivity|]. split; [exact Hres|].
    left. now split.
  - destruct (Db.session_commit engine sql) as [[] | e] eqn:Hcommit;
      cbn [and_then]; [|discriminate].
    intros [= <-]. exists engine, res.
    split; [reflexivity|]. split; [reflexivity|]. split; [exact Hres|].
    right. now repeat split.
Qed.

(** The integers of a fetched row can be converted to text. *)
Lemma cell_value_int (c : Db.cell) (n : Z) :
  Db.cell_value c = PInt n -> (Z.abs n < int_str_bound)%Z.
Proof.
  destruct c as [|b|[value Hrange]|s]; try discriminate.
  cbn [Db.cell_value Db.int64_value]. intros [= <-].
  unfold Db.in_int64 in Hrange. apply andb_true_iff in Hrange.
  destruct Hrange as [Hlo Hhi]. apply Z.leb_le in Hlo. apply Z.ltb_lt in Hhi.
  pose proof int64_below_bound as Hb. lia.
Qed.

Lemma row_dict_values (columns : list string) (row : list Db.cell)
    (k : string) (v : scalar) :
  dict_lookup (Db.row_dict columns row) k = Some v ->
  exists c, v = Db.cell_value c.
Proof.
  unfold Db.row_dict.
  assert (H : forall (l : list (string * Db.cell)) (d : dict scalar),
             (forall k v, dict_lookup d k = Some v ->
                          exists c, v = Db.cell_value c) ->
             forall k v,
               dict_lookup
                 (fold_left
                    (fun d kv => dict_set d (fst kv) (Db.cell_value (snd kv)))
                    l d) k = Some v ->
               exists c, v = Db.cell_value c).
  { induction l as [|[k0 c0] l IH]; intros d Hd; cbn [fold_left fst snd].
    - exact Hd.
    - apply IH. intros k' v'. rewrite dict_lookup_set.
      destruct (String.eqb k0 k'); [|apply Hd].
      intros [= <-]. now exists c0. }
  apply H. intros k' v' Hk. discriminate Hk.
Qed.

(** What [execute_query] returns is a list of rows whose count, when it
    is an integer, is one of the database's. *)
Lemma executed_rows (self : Db.PostgresManager) (sql : string) (r : pyval) :
  Db.execute_query self sql = Return r ->
  exists rows : list (dict scalar),
    r = VList (map ODict rows)
    /\ forall row n,
         In row rows -> dict_lookup row "count" = Some (PInt n) ->
         (Z.abs n < int_str_bound)%Z.
Proof.
  intros H. destruct (execute_query_returns self sql r H)
    as [engine [res [_ [_ [_ [[_ ->] | [_ [_ ->]]]]]]]].
  - exists (map (Db.row_dict (Db.keys res)) (Db.fetchall res)).
    split; [now rewrite map_map|].
    intros row n Hin Hn. apply in_map_iff in Hin.
    destruct Hin as [cells [<- _]].
    destruct (row_dict_values _ _ _ _ Hn) as [c Hc].
    now apply (cell_value_int c).
  - exists [[("affected_rows", PInt (Db.rowcount res))]].
    split; [reflexivity|].
    intros row n [<- | []] Hn. discriminate Hn.
Qed.

(** The summary of such a list is not the generic message. *)
Lemma executed_rows_summary (nlu_result : dict obj)
    (rows : list (dict scalar)) :
  (forall row n,
      In row rows -> dict_lookup row "count" = Some (PInt n) ->
      (Z.abs n < int_str_bound)%Z) ->
  generate_response nlu_result (VList (map ODict rows)) <> "Query completed.".
Proof.
  intros Hrows Hq. apply query_completed_iff in Hq.
  destruct Hq as [_ [first [rest [Heq Hfirst]]]].
  destruct rows as [|row rows]; [discriminate Heq|].
  injection Heq as <- _.
  destruct Hfirst as [H | [row' [n [[= <-] [Hn Hlong]]]]].
  - now destruct (H row).
  - pose proof (Hrows row n (or_introl eq_refl) Hn). lia.
Qed.

Lemma select_summary (nlu_result : dict obj) (l : list obj) :
  dict_get nlu_result "intent" (OStr "unknown") = OStr "select_data" ->
  generate_response nlu_result (VList l)
  = match List.length l with
    | O => "No records found."
    | S O => "I found 1 record."
    | n => "I found " ++ py_str (PInt (Z.of_nat n)) ++ " records."
    end.
Proof.
  intros Hi. unfold generate_response, generate_response_body. rewrite Hi.
  cbn [OStr obj_eq_str scalar_eq_str].
  replace (String.eqb "select_data" "count_data") with false by reflexivity.
  replace (String.eqb "select_data" "select_data") with true by reflexivity.
  unfold py_len. destruct l as [|a [|b l]]; try reflexivity.
  replace (Z.of_nat (List.length (a :: b :: l)) =? 0)%Z with false
    by (symmetry; apply Z.eqb_neq; cbn [List.length]; lia).
  replace (Z.of_nat (List.length (a :: b :: l)) =? 1)%Z with false
    by (symmetry; apply Z.eqb_neq; cbn [List.length]; lia).
  reflexivity.
Qed.

(** X16: whatever [execute_query] returns is a list of rows, each a
    mapping; so the summary of a returned result is never the generic
    "Query completed.", and for intent select_data it tells the number of
    elements of that list: "No records found." for none, the singular
    for one, the count for more. *)
Theorem executed_result_summary (self : Db.PostgresManager) (sql : string)
    (r : pyval) :
  Db.execute_query self sql = Return r ->
  exists rows : list (dict scalar),
    r = VList (map ODict rows)
    /\ (forall nlu_result,
          generate_response nlu_result r <> "Query completed.")
    /\ (forall nlu_result,
          dict_get nlu_result "intent" (OStr "unknown") = OStr "select_data" ->
          generate_response nlu_result r
          = match List.length rows with
            | O => "No records found."
            | S O => "I found 1 record."
            | n => "I found " ++ py_str (PInt (Z.of_nat n)) ++ " records."
            end).
Proof.
  intros H. destruct (executed_rows self sql r H) as [rows [-> Hrows]].
  exists rows. split; [reflexivity|]. split.
  - intros nlu_result. now apply executed_rows_summary.
  - intros nlu_result Hi. rewrite (select_summary nlu_result _ Hi).
    now rewrite length_map.
Qed.

Lemma executed_result_summary_witness :
  Db.execute_query connected_manager "SELECT COUNT(*) FROM orders "
  = Return (VList [ODict [("count", PInt 42)]])
  /\ generate_response [("intent", OStr "count_data")]
       (VList [ODict [("count", PInt 42)]]) <> "Query completed.".
Proof.
  split; [reflexivity|].
  destruct (executed_result_summary connected_manager
              "SELECT COUNT(*) FROM orders "
              (VList [ODict [("count", PInt 42)]]) eq_refl)
    as [rows [_ [H _]]].
  apply H.
Defined.

(** X17: a statement that returns no rows is committed and answered
    with the single row holding affected_rows; its summary does not
    depend on the number of rows affected: "I found 1 record." for intent
    select_data, "I found 0 records." for count_data, "Query executed
    successfully." for any other intent. *)
Theorem non_row_statement_summary (self : Db.PostgresManager)
    (engine : Db.Engine) (res : Db.ExecResult) (sql : string)
    (nlu_result : dict obj) :
  Db._connected self = true ->
  Db.session_factory self = Some engine ->
  Db.session_execute engine sql = Return res ->
  Db.returns_rows res = false ->
  Db.session_commit engine sql = Return tt ->
  let intent := dict_get nlu_result "intent" (OStr "unknown") in
  exists r,
    Db.execute_query self sql = Return r
    /\ r = VList [ODict [("affected_rows", PInt (Db.rowcount res))]]
    /\ (intent = OStr "select_data" ->
        generate_response nlu_result r = "I found 1 record.")
    /\ (intent = OStr "count_data" ->
        generate_response nlu_result r = "I found 0 records.")
    /\ (intent <> OStr "select_data" -> intent <> OStr "count_data" ->
        generate_response nlu_result r = "Query executed successfully.").
Proof.
  intros Hc Hsf Hres Hrows Hcommit intent.
  eexists. split.
  - unfold Db.execute_query. rewrite Hc, Hsf. cbn [negb].
    rewrite Hres. cbn [and_then]. rewrite Hrows, Hcommit. reflexivity.
  - split; [reflexivity|].
    unfold generate_response, generate_response_body. fold intent.
    split; [|split].
    + intros ->. reflexivity.
    + intros ->. reflexivity.
    + intros Hs Hcount.
      now rewrite (obj_eq_str_false _ _ Hs), (obj_eq_str_false _ _ Hcount).
Qed.

Lemma non_row_statement_summary_witness :
  Db._connected mutating_manager = true
  /\ Db.session_factory mutating_manager = Some mutating_engine
  /\ generate_response [("intent", OStr "select_data")]
       (VList [ODict [("affected_rows", PInt 3)]]) = "I found 1 record.".
Proof.
  split; [reflexivity|]. split; [reflexivity|].
  destruct (non_row_statement_summary mutating_manager mutating_engine
              {| Db.returns_rows := false; Db.keys := [];
                 Db.fetchall := []; Db.rowcount := 3 |}
              "DELETE FROM orders"
              [("intent", OStr "select_data")]
              eq_refl eq_refl eq_refl eq_refl eq_refl)
    as [r [_ [-> [H _]]]].
  apply H. reflexivity.
Defined.

(* ===================================================================== *)
(** ** The speech handler *)
(* ===================================================================== *)

Lemma lstrip_length (s : string) :
  (String.length (lstrip s) <= String.length s)%nat.
Proof.
  induction s as [|c s IH]; simpl; [lia|].
  destruct (is_space c); simpl; lia.
Qed.

Lemma rstrip_length (s : string) :
  (String.length (rstrip s) <= String.length s)%nat.
Proof.
  induction s as [|c s IH]; simpl; [lia|].
  destruct (rstrip s); [destruct (is_space c)|]; simpl in *; lia.
Qed.

Lemma rstrip_idempotent (s : string) : rstrip (rstrip s) = rstrip s.
Proof.
  induction s as [|c s IH]; [reflexivity|]. cbn [rstrip].
  destruct (rstrip s) as [|d r] eqn:Hr.
  - destruct (is_space c) eqn:Hc; [reflexivity|].
    cbn [rstrip]. now rewrite Hc.
  - cbn [rstrip] in *. now rewrite IH.
Qed.

Lemma rstrip_keeps_head (c : ascii) (s : string) :
  is_space c = false -> exists r, rstrip (String c s) = String c r.
Proof.
  intros Hc. cbn [rstrip]. destruct (rstrip s) as [|d r].
  - rewrite Hc. now exists "".
  - now exists (String d r).
Qed.

Lemma lstrip_head (s : string) :
  (s = "" \/ exists c r, s = String c r /\ is_space c = false) ->
  lstrip s = s.
Proof.
  intros [-> | [c [r [-> Hc]]]]; [reflexivity|]. simpl. now rewrite Hc.
Qed.

Lemma lstrip_result (s : string) :
  lstrip s = "" \/ exists c r, lstrip s = String c r /\ is_space c = false.
Proof.
  induction s as [|c s IH]; [now left|]. simpl.
  destruct (is_space c) eqn:Hc; [exact IH|]. right. now exists c, s.
Qed.

Lemma strip_clean (s : string) :
  lstrip (strip s) = strip s /\ rstrip (strip s) = strip s.
Proof.
  unfold strip. split; [|apply rstrip_idempotent].
  apply lstrip_head.
  destruct (lstrip_result s) as [-> | [c [r [-> Hc]]]]; [now left|].
  right. destruct (rstrip_keeps_head c r Hc) as [r' ->]. now exists c, r'.
Qed.

Lemma rstrip_trailing_space (init : string) (c : ascii) :
  is_space c = true -> rstrip (init ++ String c "") = rstrip init.
Proof.
  intros Hc. induction init as [|d init IH].
  - simpl. now rewrite Hc.
  - cbn [append rstrip]. now rewrite IH.
Qed.

(** A string that stripping leaves alone neither starts nor ends with a
    whitespace character. *)
Lemma clean_ends (t : string) :
  lstrip t = t -> rstrip t = t ->
  (forall c rest, t = String c rest -> is_space c = false)
  /\ (forall init c, t = init ++ String c "" -> is_space c = false).
Proof.
  intros Hl Hr. split.
  - intros c rest ->. destruct (is_space c) eqn:Hc; [|reflexivity].
    simpl in Hl. rewrite Hc in Hl.
    pose proof (lstrip_length rest) as Hlen. rewrite Hl in Hlen.
    simpl in Hlen. lia.
  - intros init c ->. destruct (is_space c) eqn:Hc; [|reflexivity].
    rewrite (rstrip_trailing_space init c Hc) in Hr.
    pose proof (rstrip_length init) as Hlen. rewrite Hr, length_app in Hlen.
    simpl in Hlen. lia.
Qed.

Lemma join_transcripts_spec (results : list (list string))
    (transcript joined : string) :
  Speech.join_transcripts results transcript = Return joined ->
  joined = transcript
           ++ String.concat ""
                (map (fun alternatives => hd "" alternatives ++ " ") results)
  /\ Forall (fun alternatives => alternatives <> []) results.
Proof.
  revert transcript. induction results as [|alts rest IH]; intros transcript.
  - simpl. intros [= <-]. split; [now rewrite append_empty_r | constructor].
  - cbn [Speech.join_transcripts]. destruct alts as [|first others];
      [discriminate|].
    intros H. destruct (IH _ H) as [-> Hall]. split.
    + cbn [map hd]. rewrite app_assoc_string.
      destruct rest as [|r rest']; [|reflexivity].
      cbn [map String.concat]. now rewrite !append_empty_r.
    + constructor; [discriminate | exact Hall].
Qed.

Lemma speech_to_text_returns (handler : Speech.SpeechHandler)
    (audio : Speech.UploadFile) (t : string) :
  Speech.speech_to_text handler audio = Return t ->
  exists client content response joined,
    Speech.speech_client handler = Some client
    /\ Speech.read audio = Return content
    /\ client (Cfg.speech_sample_rate (Speech.config handler))
              (Cfg.speech_language_code (Speech.config handler)) content
       = Return response
    /\ Speech.join_transcripts response "" = Return joined
    /\ t = strip joined.
Proof.
  unfold Speech.speech_to_text.
  destruct (Speech.speech_client handler) as [client|]; [|discriminate].
  destruct (Speech.read audio) as [content | e]; cbn [and_then];
    [|discriminate].
  destruct (client _ _ content) as [response | e] eqn:Hc; cbn [and_then];
    [|discriminate].
  destruct (Speech.join_transcripts response "") as [joined | e] eqn:Hj;
    cbn [and_then]; [|discriminate].
  intros [= <-]. now exists client, content, response, joined.
Qed.

(** X18: a transcript returned by [speech_to_text] joins the first
    alternative of every result of the recognizer, each followed by a
    space, and is stripped: it neither starts nor ends with a whitespace
    character; the other alternatives are never used, and a result
    without alternatives makes the call fail. *)
Theorem transcript_is_stripped (handler : Speech.SpeechHandler)
    (audio : Speech.UploadFile) (t : string) :
  Speech.speech_to_text handler audio = Return t ->
  strip t = t
  /\ (forall c rest, t = String c rest -> is_space c = false)
  /\ (forall init c, t = init ++ String c "" -> is_space c = false)
  /\ exists client content response,
       Speech.speech_client handler = Some client
       /\ Speech.read audio = Return content
       /\ client (Cfg.speech_sample_rate (Speech.config handler))
                 (Cfg.speech_language_code (Speech.config handler)) content
          = Return response
       /\ Forall (fun alternatives => alternatives <> []) response
       /\ t = strip (String.concat ""
                       (map (fun alternatives => hd "" alternatives ++ " ")
                            response)).
Proof.
  intros H.
  destruct (speech_to_text_returns handler audio t H)
    as [client [content [response [joined [Hc [Hr [Hresp [Hj ->]]]]]]]].
  destruct (strip_clean joined) as [Hl Hrs].
  destruct (clean_ends (strip joined) Hl Hrs) as [Hfirst Hlast].
  split.
  - unfold strip at 1. fold (strip joined) in *.
    now rewrite Hl, Hrs.
  - split; [exact Hfirst|]. split; [exact Hlast|].
    exists client, content, response.
    destruct (join_transcripts_spec response "" joined Hj) as [-> Hall].
    repeat split; assumption.
Qed.

Lemma transcript_is_stripped_witness :
  Speech.speech_to_text hearing_handler wav_upload
  = Return "show me orders from today"
  /\ strip "show me orders from today" = "show me orders from today".
Proof.
  split; [reflexivity|].
  apply (transcript_is_stripped hearing_handler wav_upload). reflexivity.
Defined.

(** X19: [process_audio_file] returns only non-empty, stripped
    transcripts of files whose content type begins with [audio/]; a file
    of another content type is refused, with a [ValueError], before it
    is read, whatever the handler; and so is, after recognition, a file
    in which no speech was heard. *)
Theorem audio_file_transcript (handler : Speech.SpeechHandler)
    (audio : Speech.UploadFile) :
  (forall t,
      Speech.process_audio_file handler audio = Return t ->
      t <> "" /\ strip t = t
      /\ Speech.speech_to_text handler audio = Return t
      /\ exists ct, Speech.content_type audio = Some ct
                    /\ startswith ct "audio/" = true)
  /\ (forall ct,
        Speech.content_type audio = Some ct ->
        startswith ct "audio/" = false ->
        Speech.process_audio_file handler audio
        = Throw (ValueErrorOf "File must be an audio file"))
  /\ (Speech.speech_to_text handler audio = Return "" ->
      forall ct, Speech.content_type audio = Some ct ->
      startswith ct "audio/" = true ->
      Speech.process_audio_file handler audio
      = Throw (ValueErrorOf "No speech detected in audio file")).
Proof.
  unfold Speech.process_audio_file. split; [|split].
  - intros t. destruct (Speech.content_type audio) as [ct|]; [|discriminate].
    destruct (startswith ct "audio/") eqn:Hct; cbn [negb]; [|discriminate].
    destruct (Speech.speech_to_text handler audio) as [t' | e] eqn:Hs;
      cbn [and_then]; [|discriminate].
    unfold truthy. destruct (String.eqb t' "") eqn:Hne; cbn [negb];
      [discriminate|].
    intros [= <-]. apply String.eqb_neq in Hne. split; [exact Hne|].
    split; [apply (transcript_is_stripped handler audio t' Hs)|].
    split; [reflexivity|]. now exists ct.
  - intros ct -> ->. reflexivity.
  - intros -> ct -> ->. reflexivity.
Qed.

Lemma audio_file_transcript_witness :
  Speech.process_audio_file hearing_handler wav_upload
  = Return "show me orders from today"
  /\ "show me orders from today" <> "".
Proof.
  split; [reflexivity|].
  destruct (audio_file_transcript hearing_handler wav_upload) as [H _].
  apply (H "show me orders from today"). reflexivity.
Defined.

(** X20: the two speech clients are set up together. The handler is
    available exactly when both constructions succeeded; when either
    failed, both clients are [None], so speech-to-text and text-to-speech
    both refuse every request as not initialized. *)
Theorem speech_clients_all_or_nothing (cfg : Cfg.Config)
    (new_speech_client : PyMore.result Speech.SpeechClient)
    (new_tts_client : PyMore.result Speech.TextToSpeechClient) :
  let handler := Speech._setup_clients cfg new_speech_client new_tts_client in
  (Speech.is_available handler = true
   <-> (exists s, new_speech_client = Return s)
       /\ (exists t, new_tts_client = Return t))
  /\ (Speech.is_available handler = false ->
      Speech.speech_client handler = None
      /\ Speech.tts_client handler = None
      /\ (forall audio,
            Speech.speech_to_text handler audio
            = Throw (Exception "Speech client not initialized"))
      /\ (forall text,
            Speech.text_to_speech handler text
            = Throw (Exception "Text-to-speech client not initialized"))).
Proof.
  intros handler. unfold handler, Speech._setup_clients.
  destruct new_speech_client as [s | e]; [destruct new_tts_client as [t | e]|].
  - split.
    + split; [intros _; split; eexists; reflexivity | reflexivity].
    + intros H. discriminate H.
  - split.
    + split; [intros H; discriminate H|]. intros [_ [t H]]. discriminate H.
    + intros _. repeat split.
  - split.
    + split; [intros H; discriminate H|]. intros [[s H] _]. discriminate H.
    + intros _. repeat split.
Qed.

(* ===================================================================== *)
(** ** The endpoints *)
(* ===================================================================== *)

Lemma answer_cases (nlu_processor : NLUProcessor)
    (postgres_manager : Db.PostgresManager) (text : string) :
  (exists e,
      Db.execute_query postgres_manager
        (generate_sql nlu_processor (process_text nlu_processor text))
      = Throw e
      /\ App.answer nlu_processor postgres_manager text = Throw e)
  \/ exists r c,
       Db.execute_query postgres_manager
         (generate_sql nlu_processor (process_text nlu_processor text))
       = Return r
       /\ dict_lookup (process_text nlu_processor text) "confidence"
          = Some (OFloat c)
       /\ App.answer nlu_processor postgres_manager text
          = Return {| App.query := text;
                      App.sql_generated :=
                        generate_sql nlu_processor
                          (process_text nlu_processor text);
                      App.result := r;
                      App.confidence := OFloat c;
                      App.message :=
                        generate_response (process_text nlu_processor text)
                          r |}.
Proof.
  unfold App.answer.
  destruct (Db.execute_query postgres_manager _) as [r | e].
  - right. cbn [and_then].
    destruct (process_text_form nlu_processor text)
      as [intent [confidence [entities [table [-> _]]]]].
    now exists r, confidence.
  - left. now exists e.
Qed.

(** X21: the text endpoint. It answers with status 500 exactly when the
    execution of the generated query raises, and then with that error;
    in particular always when the manager is not connected. A response
    echoes the text of the request, carries the query that was executed,
    which begins (case-insensitively) with select, insert, update or
    delete, a confidence that is a float, the result of that query and
    its summary, which is never the generic "Query completed.". *)
Theorem text_endpoint (nlu_processor : NLUProcessor)
    (postgres_manager : Db.PostgresManager) (request_query : string) :
  let nlu_result := process_text nlu_processor request_query in
  let sql_query := generate_sql nlu_processor nlu_result in
  let answer :=
    App.process_text_query nlu_processor postgres_manager request_query in
  (forall e, answer = App.Error500 e
             <-> Db.execute_query postgres_manager sql_query = Throw e)
  /\ (Db._connected postgres_manager = false ->
      answer = App.Error500 (Exception "Database not connected"))
  /\ (forall response,
        answer = App.Ok200 response ->
        App.query response = request_query
        /\ App.sql_generated response = sql_query
        /\ accepted sql_query = true
        /\ (exists c, App.confidence response = OFloat c
                      /\ dict_lookup nlu_result "confidence"
                         = Some (OFloat c))
        /\ Db.execute_query postgres_manager sql_query
           = Return (App.result response)
        /\ App.message response
           = generate_response nlu_result (App.result response)
        /\ App.message response <> "Query completed.").
Proof.
  intros nlu_result sql_query answer.
  unfold answer, sql_query, nlu_result, App.process_text_query.
  clear answer sql_query nlu_result.
  destruct (answer_cases nlu_processor postgres_manager request_query)
    as [[e [He ->]] | [r [c [Hr [Hc ->]]]]]; cbn [App.to_http].
  - split; [|split].
    + intros e'. rewrite He. split; intros [= ->]; reflexivity.
    + intros Hn.
      rewrite (execute_query_not_connected _ _ Hn) in He.
      now injection He as <-.
    + intros response H. discriminate H.
  - split; [|split].
    + intros e. rewrite Hr. split; intros H; discriminate H.
    + intros Hn.
      rewrite (execute_query_not_connected _ _ Hn) in Hr.
      discriminate Hr.
    + intros response [= <-]. cbn.
      split; [reflexivity|]. split; [reflexivity|].
      split; [apply generate_sql_accepted|].
      split; [now exists c|]. split; [exact Hr|]. split; [reflexivity|].
      destruct (executed_rows postgres_manager _ r Hr) as [rows [-> Hrows]].
      now apply executed_rows_summary.
Qed.

Lemma text_endpoint_witness :
  Db._connected (Db.new sample_config) = false
  /\ App.process_text_query local_processor (Db.new sample_config)
       orders_last_week
     = App.Error500 (Exception "Database not connected").
Proof.
  split; [reflexivity|].
  destruct (text_endpoint local_processor (Db.new sample_config)
              orders_last_week) as [_ [H _]].
  apply H. reflexivity.
Defined.

(** X22: the voice endpoint. When speech-to-text raises, the answer is
    status 500 with that error and nothing is asked of the database;
    when it returns a transcript, the answer is that of the text
    endpoint on the transcript. The content type of the upload is never
    looked at, and an empty transcript (the recognizer heard nothing) is
    processed like any other text. *)
Theorem voice_endpoint (nlu_processor : NLUProcessor)
    (postgres_manager : Db.PostgresManager)
    (speech_handler : Speech.SpeechHandler) (audio : Speech.UploadFile) :
  (forall e,
      Speech.speech_to_text speech_handler audio = Throw e ->
      App.process_voice_query nlu_processor postgres_manager speech_handler
        audio = App.Error500 e)
  /\ (forall transcript,
        Speech.speech_to_text speech_handler audio = Return transcript ->
        App.process_voice_query nlu_processor postgres_manager speech_handler
          audio
        = App.process_text_query nlu_processor postgres_manager transcript)
  /\ (forall other_type,
        App.process_voice_query nlu_processor postgres_manager speech_handler
          {| Speech.content_type := other_type;
             Speech.read := Speech.read audio |}
        = App.process_voice_query nlu_processor postgres_manager
            speech_handler audio)
  /\ (forall client content,
        Speech.speech_client speech_handler = Some client ->
        Speech.read audio = Return content ->
        client (Cfg.speech_sample_rate (Speech.config speech_handler))
               (Cfg.speech_language_code (Speech.config speech_handler))
               content = Return [] ->
        App.process_voice_query nlu_processor postgres_manager speech_handler
          audio
        = App.process_text_query nlu_processor postgres_manager "").
Proof.
  unfold App.process_voice_query, App.process_text_query.
  split; [|split; [|split]].
  - intros e ->. reflexivity.
  - intros transcript ->. reflexivity.
  - intros other_type. reflexivity.
  - intros client content Hc Hr Hresp.
    unfold Speech.speech_to_text. rewrite Hc, Hr. cbn [and_then].
    rewrite Hresp. reflexivity.
Qed.

Lemma voice_endpoint_witness :
  Speech.speech_to_text hearing_handler wav_upload
  = Return "show me orders from today"
  /\ App.process_voice_query local_processor connected_manager
       hearing_handler wav_upload
     = App.process_text_query local_processor connected_manager
         "show me orders from today".
Proof.
  split; [reflexivity|].
  destruct (voice_endpoint local_processor connected_manager hearing_handler
              wav_upload) as [_ [H _]].
  apply H. reflexivity.
Defined.

(* ===================================================================== *)
(** ** The configuration *)
(* ===================================================================== *)

Lemma collect_missing_spec (environ : dict string) (vars missing : list string) :
  Cfg.collect_missing environ vars missing
  = (missing
     ++ filter (fun var => negb (Cfg.is_set (dict_lookup environ var))) vars)
    %list.
Proof.
  revert missing. induction vars as [|var vars IH]; intros missing; simpl.
  - now rewrite app_nil_r.
  - destruct (negb (Cfg.is_set (dict_lookup environ var))); rewrite IH.
    + now rewrite <- app_assoc.
    + reflexivity.
Qed.

(** X23: [validate_config] accepts an environment exactly when DB_NAME,
    DB_USER and DB_PASSWORD are all set to non-empty values; no other
    variable counts, so an environment that gives only DATABASE_URL is
    rejected although [get_database_url] would use that URL. *)
Theorem validate_config_iff (environ : dict string) :
  (Cfg.validate_config environ = true
   <-> forall var, In var ["DB_NAME"; "DB_USER"; "DB_PASSWORD"] ->
                   exists v, dict_lookup environ var = Some v /\ v <> "")
  /\ (forall url,
        Cfg.validate_config [("DATABASE_URL", url)] = false).
Proof.
  split; [|reflexivity].
  assert (Hset : forall var,
             Cfg.is_set (dict_lookup environ var) = true
             <-> exists v, dict_lookup environ var = Some v /\ v <> "").
  { intros var. unfold Cfg.is_set, truthy.
    destruct (dict_lookup environ var) as [v|].
    - rewrite negb_true_iff, String.eqb_neq. split.
      + intros H. now exists v.
      + now intros [v' [[= <-] H]].
    - split; [discriminate | intros [v [H _]]; discriminate H]. }
  unfold Cfg.validate_config. rewrite collect_missing_spec.
  cbn [app Cfg.required_vars filter].
  split.
  - intros H var Hin. apply Hset.
    destruct (Cfg.is_set (dict_lookup environ "DB_NAME")) eqn:H1;
      [|discriminate H].
    destruct (Cfg.is_set (dict_lookup environ "DB_USER")) eqn:H2;
      [|discriminate H].
    destruct (Cfg.is_set (dict_lookup environ "DB_PASSWORD")) eqn:H3;
      [|discriminate H].
    simpl in Hin. destruct Hin as [<- | [<- | [<- | []]]]; assumption.
  - intros H.
    assert (H1 : Cfg.is_set (dict_lookup environ "DB_NAME") = true)
      by (apply Hset, H; simpl; tauto).
    assert (H2 : Cfg.is_set (dict_lookup environ "DB_USER") = true)
      by (apply Hset, H; simpl; tauto).
    assert (H3 : Cfg.is_set (dict_lookup environ "DB_PASSWORD") = true)
      by (apply Hset, H; simpl; tauto).
    now rewrite H1, H2, H3.
Qed.
